(** * ctapipe.io.hdftableio: row-wise table writer and reader

    A shallow embedding of [ctapipe/io/hdftableio.py] and the properties of
    its write path (schema derivation, column transforms, header metadata)
    and of its read path (table setup, the row generator).

    The module talks to three libraries that are not part of it.  They are
    kept abstract or modelled as plain data:
    - astropy units: an interface [AstropyUnits] (unit names, parsing,
      conversion factors);
    - the [re] module: an interface [Re] (compile, match at the start);
    - PyTables: a file is a finite map from node paths to tables, a table is
      a description, header attributes and a list of rows.  A cell holds the
      value that was assigned to it: the engine's coercion to the column
      type is not modelled.
    Numeric contents are exact rationals; floating-point rounding inside a
    unit conversion is not modelled. *)

From Stdlib Require Import QArith Ascii.
From stdpp Require Import base strings gmap list fin_maps sorting.

Local Open Scope string_scope.
Local Open Scope list_scope.

(** ** Collaborators *)

(** astropy.units.  [unit_str u] is [str(u)], [unit_parse s] is [Unit(s)]
    ([None]: the string names no unit), [unit_factor u v] is the factor that
    takes a number in unit [u] to unit [v] ([None]: the units are not
    convertible, astropy raises UnitConversionError). *)
Class AstropyUnits := {
  Unit : Type;
  unit_str : Unit → string;
  unit_parse : string → option Unit;
  unit_factor : Unit → Unit → option Q;
}.

(** The [re] module.  [re_compile s] is [re.compile(s)] ([None]: re.error),
    [re_match p s] tells whether [p.match(s)] finds a match, which [re]
    anchors at the start of [s] and not at its end. *)
Class Re := {
  Pattern : Type;
  re_compile : string → option Pattern;
  re_match : Pattern → string → bool;
}.

(** ** Exceptions and results *)

Inductive exn :=
| KeyError (key : string)
| AttributeError (attr : string)
| TypeError
| ValueError (what : string)
| UnitConversionError
| re_error (pattern : string)
| NoSuchNodeError (path : string)
| NodeError (path : string)
| IndexError
| ClosedFileError.

Inductive result (A : Type) :=
| Ok (a : A)
| Raise (e : exn).
Arguments Ok {A} a.
Arguments Raise {A} e.

Definition is_Ok {A} (r : result A) : Prop := ∃ a, r = Ok a.

(** Code that mutates [self]: a state transformer that keeps the state
    reached when an exception propagates. *)
Definition M (S A : Type) : Type := S → result A * S.

Definition M_ret {S A} (a : A) : M S A := λ s, (Ok a, s).
Definition M_bind {S A B} (m : M S A) (k : A → M S B) : M S B :=
  λ s, match m s with
       | (Ok a, s') => k a s'
       | (Raise e, s') => (Raise e, s')
       end.
Definition raise {S A} (e : exn) : M S A := λ s, (Raise e, s).
Definition gets {S A} (f : S → A) : M S A := λ s, (Ok (f s), s).
Definition modify {S} (f : S → S) : M S unit := λ s, (Ok tt, f s).
Definition lift {S A} (r : result A) : M S A := λ s, (r, s).

Notation "'let*' x := m 'in' k" := (M_bind m (λ x, k))
  (at level 10, x pattern, m at level 100, k at level 200).
Notation "m ;;; k" := (M_bind m (λ _, k))
  (at level 100, k at level 200, right associativity).

(** [for x in l: body(x)] *)
Fixpoint for_ {S A} (l : list A) (body : A → M S unit) : M S unit :=
  match l with
  | [] => M_ret tt
  | x :: l' => body x ;;; for_ l' body
  end.

(** A loop that threads local variables [acc] through its body. *)
Fixpoint for_acc {S A B} (l : list A) (acc : B) (body : B → A → M S B) : M S B :=
  match l with
  | [] => M_ret acc
  | x :: l' => let* acc' := body acc x in for_acc l' acc' body
  end.

(** ** Python strings *)

(** [s.endswith(suffix)] *)
Fixpoint endswith (s suffix : string) : bool :=
  String.eqb s suffix ||
  match s with
  | EmptyString => false
  | String _ s' => endswith s' suffix
  end.

(** [s[:-n]] *)
Definition drop_last (n : nat) (s : string) : string :=
  String.substring 0 (String.length s - n) s.

(** [sep.join(l)] *)
Definition join (sep : string) (l : list string) : string := String.concat sep l.

(** ** Values *)

Section values.
Context `{AstropyUnits}.

(** A number or an array of numbers, Python's or numpy's.  [typename] is
    [type(value).__name__] ("float", "int", "float64", "int16", ...),
    [dtype] is [value.dtype.name]. *)
Inductive numeric :=
| Scalar (typename : string) (x : Q)
| NdArray (dtype : string) (shape : list nat) (data : list Q).

(** The values a container field, a table cell or a header attribute can
    hold.  A [Time] is abstracted to its modified Julian date; [PyObject]
    is an object of any other class. *)
Inductive pyval :=
| Num (n : numeric)
| PyBool (b : bool)
| PyStr (s : string)
| Quantity (value : numeric) (unit : Unit)
| Time (mjd : Q)
| PyObject (typename : string).

(** [type(value).__name__] *)
Definition type_name (value : pyval) : string :=
  match value with
  | Num (Scalar typename _) => typename
  | Num (NdArray _ _ _) => "ndarray"
  | PyBool _ => "bool"
  | PyStr _ => "str"
  | Quantity _ _ => "Quantity"
  | Time _ => "Time"
  | PyObject typename => typename
  end.

(** The type of the product of a number of type [typename] and a
    conversion factor, which is a Python float: a floating-point type is
    kept, any other number becomes a 64-bit float. *)
Definition float_dtype (typename : string) : string :=
  if bool_decide (typename ∈ ["float16"; "float32"; "float64"; "float128"])
  then typename else "float64".

(** Multiplication of the numeric content by a conversion factor.  The
    numbers are exact; the rounding of floats is not part of the model. *)
Definition scale (k : Q) (value : numeric) : numeric :=
  match value with
  | Scalar typename x => Scalar (float_dtype typename) (Qred (x * k))
  | NdArray dtype shape data =>
      NdArray (float_dtype dtype) shape (map (λ x, Qred (x * k)) data)
  end.

(** The type of the number a [Quantity] holds for a number of type
    [typename]: astropy keeps the floating-point types and bool and turns
    any other number into a 64-bit float. *)
Definition quantity_dtype (typename : string) : string :=
  if bool_decide (typename = "bool") then typename else float_dtype typename.

Definition as_quantity_value (value : numeric) : numeric :=
  match value with
  | Scalar typename x => Scalar (quantity_dtype typename) x
  | NdArray dtype shape data => NdArray (quantity_dtype dtype) shape data
  end.

(** [quantity.to(unit)] *)
Definition Quantity_to (quantity : pyval) (unit : Unit) : result pyval :=
  match quantity with
  | Quantity v u =>
      match unit_factor u unit with
      | Some k => Ok (Quantity (scale k v) unit)
      | None => Raise UnitConversionError
      end
  | _ => Raise (AttributeError "to")
  end.

(** [quantity.value] *)
Definition Quantity_value (quantity : pyval) : result pyval :=
  match quantity with
  | Quantity v _ => Ok (Num v)
  | _ => Raise (AttributeError "value")
  end.

(** [Quantity(value, unitname)]: attaches the unit named by a string to a
    number or an array.  A unit given as a number, of which astropy makes a
    dimensionless scaled unit, is outside the model; no header that the
    writer derives holds one. *)
Definition Quantity_new (value unitname : pyval) : result pyval :=
  match unitname with
  | PyStr s =>
      match unit_parse s with
      | Some u =>
          match value with
          | Num n => Ok (Quantity (as_quantity_value n) u)
          | PyBool b => Ok (Quantity (Scalar "bool" (if b then 1 else 0)) u)
          | Quantity v u' =>
              match unit_factor u' u with
              | Some k => Ok (Quantity (scale k v) u)
              | None => Raise UnitConversionError
              end
          | _ => Raise TypeError
          end
      | None => Raise (ValueError s)
      end
  | _ => Raise TypeError
  end.

(** *** The module-level transform functions *)

Definition tr_convert_and_strip_unit (quantity : pyval) (unit : Unit) : result pyval :=
  match Quantity_to quantity unit with
  | Ok q => Quantity_value q
  | Raise e => Raise e
  end.

Definition tr_time_to_float (thetime : pyval) : result pyval :=
  match thetime with
  | Time mjd => Ok (Num (Scalar "float64" mjd))
  | _ => Raise (AttributeError "mjd")
  end.

Definition tr_add_unit (value unitname : pyval) : result pyval :=
  Quantity_new value unitname.

End values.

(** A column transform: a callable from a value to a value. *)
Abbreviation transform := (pyval → result pyval).

(** ** The type map *)

(** The PyTables column classes the module uses.  [IntCol] is the engine's
    default-width integer column. *)
Inductive coltype :=
| Float64Col | Float32Col | IntCol | Int32Col | Int64Col | BoolCol.

Definition PYTABLES_TYPE_MAP : gmap string coltype :=
  list_to_map [
    ("float", Float64Col);
    ("float64", Float64Col);
    ("float32", Float32Col);
    ("int", IntCol);
    ("int32", Int32Col);
    ("int64", Int64Col);
    ("bool", BoolCol)
  ].

(** A column instance: [coltype()] has the empty shape, [coltype(shape=s)]
    the shape [s]. *)
Record Col := { col_type : coltype; col_shape : list nat }.

(** [Schema.columns] *)
Abbreviation Schema := (gmap string Col).

(** PyTables, on numpy.  [cell_cast col value] is the value that the cell
    of a column holds after [row[colname] = value], which numpy casts to the
    type and the shape of the column, or the exception that the assignment
    raises. *)
Class PyTables `{AstropyUnits} := {
  cell_cast : Col → pyval → result pyval;
}.

(** ** Containers *)

Section containers.
Context `{AstropyUnits}.

(** Modelled from the spec: [ctapipe.core.Field], of which the module reads
    the optional required unit only. *)
Record Field := { Field_unit : option Unit }.

(** Modelled from the spec: [ctapipe.core.Container], "an ordered
    field-name to value mapping, a per-field optional required unit, and a
    free mutable metadata mapping on the instance".  [slots] lists the
    fields in declaration order, each with its current value. *)
Record Container := {
  class_name : string;
  slots : list (string * (Field * pyval));
  meta : gmap string pyval;
}.

(** [container.items()] *)
Definition items (c : Container) : list (string * pyval) :=
  (λ kv, (kv.1, kv.2.2)) <$> slots c.

(** [container.keys()] *)
Definition keys (c : Container) : list string := (slots c).*1.

Fixpoint assoc {A} (k : string) (l : list (string * A)) : option A :=
  match l with
  | [] => None
  | (k', a) :: l' => if decide (k' = k) then Some a else assoc k l'
  end.

(** [container.fields[name]] *)
Definition fields_get (c : Container) (name : string) : result Field :=
  match assoc name (slots c) with
  | Some fv => Ok fv.1
  | None => Raise (KeyError name)
  end.

(** [name in container.fields] *)
Definition fields_contains (c : Container) (name : string) : bool :=
  bool_decide (is_Some (assoc name (slots c))).

(** [container[name]] *)
Definition getitem (c : Container) (name : string) : result pyval :=
  match assoc name (slots c) with
  | Some fv => Ok fv.2
  | None => Raise (AttributeError name)
  end.

Fixpoint set_slot (name : string) (value : pyval)
    (l : list (string * (Field * pyval))) : list (string * (Field * pyval)) :=
  match l with
  | [] => []
  | (k, fv) :: l' =>
      if decide (k = name) then (k, (fv.1, value)) :: l'
      else (k, fv) :: set_slot name value l'
  end.

(** [container[name] = value], which is [setattr(container, name, value)]:
    the slot of the field [name] takes the value; a container has slots
    for its fields only, and a name that is no field raises
    AttributeError. *)
Definition setitem (c : Container) (name : string) (value : pyval) : result Container :=
  match assoc name (slots c) with
  | Some _ =>
      Ok {| class_name := class_name c;
            slots := set_slot name value (slots c);
            meta := meta c |}
  | None => Raise (AttributeError name)
  end.

(** [container.meta[key] = value] *)
Definition meta_set (c : Container) (key : string) (value : pyval) : Container :=
  {| class_name := class_name c;
     slots := slots c;
     meta := <[key := value]> (meta c) |}.

Global Instance Container_inhabited : Inhabited Container :=
  populate {| class_name := ""; slots := []; meta := ∅ |}.

(** ** The storage engine *)

(** A table node: title, description (column name to column), header
    attributes set by the user, and the rows appended so far. *)
Record Table := {
  title : string;
  description : Schema;
  attrs : gmap string pyval;
  rows : list (gmap string pyval);
}.

(** The order of Python strings, by code point. *)
Definition string_le (s1 s2 : string) : Prop := Is_true (String.leb s1 s2).

Global Instance string_le_dec s1 s2 : Decision (string_le s1 s2).
Proof. unfold string_le. apply _. Defined.

(** [table.colnames]: the names of the columns, sorted. *)
Definition colnames (tab : Table) : list string :=
  merge_sort string_le (map_to_list (description tab)).*1.

(** [table.attrs._f_list()]: the names of the user attributes. *)
Definition attrs_f_list (tab : Table) : list string := (map_to_list (attrs tab)).*1.

(** The value a cell of a column has before it is assigned. *)
Definition dtype_name (t : coltype) : string :=
  match t with
  | Float64Col => "float64" | Float32Col => "float32"
  | IntCol | Int32Col => "int32" | Int64Col => "int64"
  | BoolCol => "bool"
  end.

Definition default_cell (c : Col) : pyval :=
  match col_shape c with
  | [] => match col_type c with
          | BoolCol => PyBool false
          | t => Num (Scalar (dtype_name t) 0)
          end
  | shape => Num (NdArray (dtype_name (col_type c)) shape
                    (replicate (foldr Nat.mul 1%nat shape) 0%Q))
  end.

(** [table.row]: a fresh row buffer. *)
Definition Table_row (tab : Table) : gmap string pyval := default_cell <$> description tab.

(** An open or closed HDF5 file. *)
Record H5File := {
  filename : string;
  isopen : bool;
  groups : list string;
  nodes : gmap string Table;
}.

(** [tables.open_file(filename, mode="w")]: a new, empty file. *)
Definition open_file_w (filename : string) : H5File :=
  {| filename := filename; isopen := true; groups := ["/"]; nodes := ∅ |}.

(** [tables.open_file(filename)] on a file with the given stored content. *)
Definition open_file_r (stored : H5File) : H5File :=
  {| filename := filename stored; isopen := true;
     groups := groups stored; nodes := nodes stored |}.

(** [h5file.close()]: PyTables returns at once when the file is not open. *)
Definition File_close (f : H5File) : H5File :=
  if isopen f then
    {| filename := filename f; isopen := false; groups := groups f; nodes := nodes f |}
  else f.

(** The path of a node [name] under the group [where]. *)
Definition join_path (where_ name : string) : string :=
  if String.eqb where_ "/" then "/" +:+ name else where_ +:+ "/" +:+ name.

(** [h5file.create_group(where, name)]; returns the group's path. *)
Definition create_group (where_ name : string) (f : H5File) : result string * H5File :=
  if isopen f then
    (Ok (join_path where_ name),
     {| filename := filename f; isopen := true;
        groups := groups f ++ [join_path where_ name]; nodes := nodes f |})
  else (Raise ClosedFileError, f).

(** [h5file.create_table(where, name, title, description)]; returns the
    table's path, which stands for the table handle.  PyTables refuses a
    description without columns. *)
Definition create_table (where_ name title_ : string) (descr : Schema) (f : H5File)
    : result string * H5File :=
  if isopen f then
    match nodes f !! join_path where_ name with
    | Some _ => (Raise (NodeError (join_path where_ name)), f)
    | None =>
        if decide (descr = ∅)
        then (Raise (ValueError "cannot create an empty data type"), f)
        else
          (Ok (join_path where_ name),
           {| filename := filename f; isopen := true; groups := groups f;
              nodes := <[join_path where_ name :=
                          {| title := title_; description := descr; attrs := ∅; rows := [] |}]>
                        (nodes f) |})
    end
  else (Raise ClosedFileError, f).

(** [h5file.get_node(path)] for a path that names a table or no node.
    For the path of a group PyTables returns the group; the model has no
    group objects, and what is proved from NoSuchNodeError is proved for a
    path that is not in [groups]. *)
Definition get_node (path : string) (f : H5File) : result Table :=
  if isopen f then
    match nodes f !! path with
    | Some tab => Ok tab
    | None => Raise (NoSuchNodeError path)
    end
  else Raise ClosedFileError.

(** Replaces the table behind a handle. *)
Definition put_node (path : string) (tab : Table) (f : H5File) : H5File :=
  {| filename := filename f; isopen := isopen f; groups := groups f;
     nodes := <[path := tab]> (nodes f) |}.

(** [table.attrs[key] = val] *)
Definition Table_set_attr (key : string) (val : pyval) (tab : Table) : Table :=
  {| title := title tab; description := description tab;
     attrs := <[key := val]> (attrs tab); rows := rows tab |}.

(** [table[n]]: the row of index [n]; IndexError past the last row. *)
Definition Table_getitem (tab : Table) (n : nat) : result (gmap string pyval) :=
  match rows tab !! n with
  | Some row => Ok row
  | None => Raise IndexError
  end.

(** [row.append()] *)
Definition Table_append (row : gmap string pyval) (tab : Table) : Table :=
  {| title := title tab; description := description tab;
     attrs := attrs tab; rows := rows tab ++ [row] |}.

End containers.

(** ** Logging *)

(** The records the module hands to [self.log], by call site. *)
Inductive log_record :=
| DebugAddedTransform (table_name col_name : string)
| DebugH5file (filename : string)
| DebugExcludedColumn (table_name col_name : string)
| DebugAddedCol (table_name col_name typename : string) (shape : list nat)
| DebugInitializingTable (table_name : string)
| WarnColumnNotInContainer (table_name colname class_name : string)
| WarnMissingColumn (table_name colname class_name : string).

Global Instance log_record_eq_dec : EqDecision log_record.
Proof. solve_decision. Defined.

(** ** HDF5TableWriter *)

Module HDF5TableWriter.
Section writer.
Context `{AstropyUnits} `{Re} `{!PyTables}.

(** The instance attributes; the inherited ones of [TableWriter] first.
    [_tables] maps a table name to the handle of its table, a node path of
    [_h5file]. *)
Record t := {
  _transforms : gmap string (gmap string transform);
  _exclusions : gmap string (list Pattern);
  log : list log_record;
  _schemas : gmap string Schema;
  _tables : gmap string string;
  _h5file : H5File;
  _group : string;
}.

Definition set_transforms (x : gmap string (gmap string transform)) (self : t) : t :=
  {| _transforms := x; _exclusions := _exclusions self; log := log self;
     _schemas := _schemas self; _tables := _tables self;
     _h5file := _h5file self; _group := _group self |}.
Definition set_exclusions (x : gmap string (list Pattern)) (self : t) : t :=
  {| _transforms := _transforms self; _exclusions := x; log := log self;
     _schemas := _schemas self; _tables := _tables self;
     _h5file := _h5file self; _group := _group self |}.
Definition set_log (x : list log_record) (self : t) : t :=
  {| _transforms := _transforms self; _exclusions := _exclusions self; log := x;
     _schemas := _schemas self; _tables := _tables self;
     _h5file := _h5file self; _group := _group self |}.
Definition set_schemas (x : gmap string Schema) (self : t) : t :=
  {| _transforms := _transforms self; _exclusions := _exclusions self; log := log self;
     _schemas := x; _tables := _tables self;
     _h5file := _h5file self; _group := _group self |}.
Definition set_tables (x : gmap string string) (self : t) : t :=
  {| _transforms := _transforms self; _exclusions := _exclusions self; log := log self;
     _schemas := _schemas self; _tables := x;
     _h5file := _h5file self; _group := _group self |}.
Definition set_h5file (x : H5File) (self : t) : t :=
  {| _transforms := _transforms self; _exclusions := _exclusions self; log := log self;
     _schemas := _schemas self; _tables := _tables self;
     _h5file := x; _group := _group self |}.

(** [self.log.debug(...)] *)
Definition log_debug (r : log_record) : M t unit :=
  modify (λ self, set_log (log self ++ [r]) self).

(** A call on [self._h5file] that may change the file. *)
Definition on_h5file {A} (op : H5File → result A * H5File) : M t A :=
  λ self, let '(r, f) := op (_h5file self) in (r, set_h5file f self).

Definition __init__ (filename group_name : string) : result t :=
  match create_group "/" group_name (open_file_w filename) with
  | (Ok group, f) =>
      Ok {| _transforms := ∅; _exclusions := ∅;
            log := [DebugH5file filename];
            _schemas := ∅; _tables := ∅; _h5file := f; _group := group |}
  | (Raise e, _) => Raise e
  end.

Definition close : M t unit :=
  modify (λ self, set_h5file (File_close (_h5file self)) self).

Definition __exit__ : M t unit := close.

(** [_exclusions] and [_transforms] are defaultdicts: a missing key reads
    as the empty list or the empty dict. *)
Definition exclude (table_name pattern : string) : M t unit :=
  match re_compile pattern with
  | Some p =>
      modify (λ self,
        set_exclusions
          (<[table_name := (_exclusions self !!! table_name) ++ [p]]> (_exclusions self))
          self)
  | None => raise (re_error pattern)
  end.

Definition _is_column_excluded (table_name col_name : string) : M t bool :=
  gets (λ self,
    existsb (λ pattern, re_match pattern col_name) (_exclusions self !!! table_name)).

Definition add_column_transform (table_name col_name : string) (tr : transform) : M t unit :=
  modify (λ self,
    set_transforms
      (<[table_name := <[col_name := tr]> (_transforms self !!! table_name)]>
         (_transforms self))
      self) ;;;
  log_debug (DebugAddedTransform table_name col_name).

Definition _apply_col_transform (table_name col_name : string) (value : pyval) : M t pyval :=
  let* trs := gets (λ self, _transforms self !!! table_name) in
  match trs !! col_name with
  | Some tr => lift (tr value)
  | None => M_ret value
  end.

(** The body of the inner loop of [_create_hdf5_table_schema], for one
    [(col_name, value)] of [container.items()].  The local variables
    [Schema.columns] and [meta] are threaded through. *)
Definition schema_column (table_name : string) (container : Container)
    (locals : Schema * gmap string pyval) (item : string * pyval)
    : M t (Schema * gmap string pyval) :=
  let '(columns, meta) := locals in
  let '(col_name, value) := item in
  let* excluded := _is_column_excluded table_name col_name in
  if excluded : bool then
    log_debug (DebugExcludedColumn table_name col_name) ;;;
    M_ret (columns, meta)
  else
    let* (value, meta) :=
      match value with
      | Quantity _ value_unit =>
          let* field := lift (fields_get container col_name) in
          let '(tr, meta) :=
            match Field_unit field with
            | Some req_unit =>
                ((λ x, tr_convert_and_strip_unit x req_unit) : transform,
                 <[col_name +:+ "_UNIT" := PyStr (unit_str req_unit)]> meta)
            | None =>
                (Quantity_value : transform,
                 <[col_name +:+ "_UNIT" := PyStr (unit_str value_unit)]> meta)
            end in
          let* value := lift (tr value) in
          add_column_transform table_name col_name tr ;;;
          M_ret (value, meta)
      | _ => M_ret (value, meta)
      end in
    let* (typename, shape, columns) :=
      match value with
      | Num (NdArray dtype shape _) =>
          match PYTABLES_TYPE_MAP !! dtype with
          | Some coltype =>
              M_ret (dtype, shape,
                     <[col_name := {| col_type := coltype; col_shape := shape |}]> columns)
          | None => raise (KeyError dtype)
          end
      | _ => M_ret ("", [1%nat], columns)
      end in
    let* (typename, columns) :=
      match value with
      | Time _ =>
          add_column_transform table_name col_name tr_time_to_float ;;;
          M_ret (typename,
                 <[col_name := {| col_type := Float64Col; col_shape := [] |}]> columns)
      | _ =>
          match PYTABLES_TYPE_MAP !! type_name value with
          | Some coltype =>
              M_ret (type_name value,
                     <[col_name := {| col_type := coltype; col_shape := [] |}]> columns)
          | None => M_ret (typename, columns)
          end
      end in
    log_debug (DebugAddedCol table_name col_name typename shape) ;;;
    M_ret (columns, meta).

(** Registers the schema of [containers] under [table_name]; returns the
    extra metadata for the table's header.  [version] stands for
    [ctapipe.__version__]. *)
Definition _create_hdf5_table_schema (version : string)
    (table_name : string) (containers : list Container) : M t (gmap string pyval) :=
  let* (columns, meta) :=
    for_acc containers (∅, ∅) (λ locals container,
      for_acc (items container) locals (schema_column table_name container)) in
  modify (λ self, set_schemas (<[table_name := columns]> (_schemas self)) self) ;;;
  M_ret (<["CTAPIPE_VERSION" := PyStr version]> meta).

(** [meta.update(container.meta)] for each container in turn. *)
Definition update_meta (header : gmap string pyval) (containers : list Container)
    : gmap string pyval :=
  foldl (λ m container, meta container ∪ m) header containers.

Definition _setup_new_table (version : string)
    (table_name : string) (containers : list Container) : M t unit :=
  log_debug (DebugInitializingTable table_name) ;;;
  let* meta := _create_hdf5_table_schema version table_name containers in
  let meta := update_meta meta containers in
  let* schema := (λ self,
    match _schemas self !! table_name with
    | Some schema => (Ok schema, self)
    | None => (Raise (KeyError table_name), self)
    end) in
  let* group := gets _group in
  let* table := on_h5file
    (create_table group table_name
       ("Storage of " +:+ join "," (class_name <$> containers)) schema) in
  for_ (map_to_list meta) (λ kv,
    on_h5file (λ f,
      match get_node table f with
      | Ok tab => (Ok tt, put_node table (Table_set_attr kv.1 kv.2 tab) f)
      | Raise e => (Raise e, f)
      end)) ;;;
  modify (λ self, set_tables (<[table_name := table]> (_tables self)) self).

(** [row[colname] = value] for the row buffer of a table: the cell that
    the buffer then holds under the name. *)
Definition Row_setitem (tab : Table) (colname : string) (value : pyval) : result pyval :=
  match description tab !! colname with
  | Some col => cell_cast col value
  | None => Raise (KeyError colname)
  end.

(** Appends a row to an already initialized table. *)
Definition _append_row (table_name : string) (containers : list Container) : M t unit :=
  let* table := (λ self,
    match _tables self !! table_name with
    | Some table => (Ok table, self)
    | None => (Raise (KeyError table_name), self)
    end) in
  let* tab := on_h5file (λ f, (get_node table f, f)) in
  let* row :=
    for_acc containers (Table_row tab) (λ row container,
      for_acc (filter (λ c, c ∈ colnames tab) (keys container)) row (λ row colname,
        let* raw := lift (getitem container colname) in
        let* value := _apply_col_transform table_name colname raw in
        let* cell := lift (Row_setitem tab colname value) in
        M_ret (<[colname := cell]> row))) in
  on_h5file (λ f,
    if isopen f then (Ok tt, put_node table (Table_append row tab) f)
    else (Raise ClosedFileError, f)).

(** The argument of [write]: one container, or an iterable of them. *)
Inductive containers_arg :=
| One (container : Container)
| Several (containers : list Container).

Definition write (version : string) (table_name : string) (containers : containers_arg)
    : M t unit :=
  let containers :=
    match containers with
    | One container => [container]
    | Several containers => containers
    end in
  let* known := gets (λ self, bool_decide (is_Some (_schemas self !! table_name))) in
  (if known : bool then M_ret tt else _setup_new_table version table_name containers) ;;;
  _append_row table_name containers.

End writer.
End HDF5TableWriter.

(** ** HDF5TableReader *)

(** Containers given to [read] are shared with the caller: the reader holds
    a reference and mutates the object behind it. *)
Abbreviation loc := nat.

Module HDF5TableReader.
Section reader.
Context `{AstropyUnits}.

(** The instance attributes; the inherited ones of [TableReader] first.
    [_tables] maps a table name to the handle of its table, a node path of
    [_h5file]. *)
Record t := {
  _cols_to_read : gmap string (list string);
  _transforms : gmap string (gmap string transform);
  log : list log_record;
  _tables : gmap string string;
  _h5file : H5File;
}.

(** The reader together with the heap of container objects. *)
Record world := {
  self : t;
  heap : gmap loc Container;
}.

Definition set_cols_to_read (x : gmap string (list string)) (r : t) : t :=
  {| _cols_to_read := x; _transforms := _transforms r; log := log r;
     _tables := _tables r; _h5file := _h5file r |}.
Definition set_transforms (x : gmap string (gmap string transform)) (r : t) : t :=
  {| _cols_to_read := _cols_to_read r; _transforms := x; log := log r;
     _tables := _tables r; _h5file := _h5file r |}.
Definition set_log (x : list log_record) (r : t) : t :=
  {| _cols_to_read := _cols_to_read r; _transforms := _transforms r; log := x;
     _tables := _tables r; _h5file := _h5file r |}.
Definition set_tables (x : gmap string string) (r : t) : t :=
  {| _cols_to_read := _cols_to_read r; _transforms := _transforms r; log := log r;
     _tables := x; _h5file := _h5file r |}.
Definition set_h5file (x : H5File) (r : t) : t :=
  {| _cols_to_read := _cols_to_read r; _transforms := _transforms r; log := log r;
     _tables := _tables r; _h5file := x |}.

Definition on_self (f : t → t) : M world unit :=
  modify (λ w, {| self := f (self w); heap := heap w |}).

(** A mutation of the container object behind a reference. *)
Definition on_container (container : loc) (f : Container → Container) : M world unit :=
  modify (λ w, {| self := self w;
                  heap := <[container := f (heap w !!! container)]> (heap w) |}).

(** [container[name] = value] on the object behind a reference. *)
Definition Container_setitem (container : loc) (name : string) (value : pyval)
    : M world unit :=
  λ w, match setitem (heap w !!! container) name value with
       | Ok c => (Ok tt, {| self := self w; heap := <[container := c]> (heap w) |})
       | Raise e => (Raise e, w)
       end.

Definition log_warn (r : log_record) : M world unit :=
  on_self (λ r', set_log (log r' ++ [r]) r').

Definition log_debug (r : log_record) : M world unit :=
  on_self (λ r', set_log (log r' ++ [r]) r').

Definition __init__ (stored : H5File) : t :=
  {| _cols_to_read := ∅; _transforms := ∅; log := [];
     _tables := ∅; _h5file := open_file_r stored |}.

Definition close : M world unit :=
  on_self (λ r, set_h5file (File_close (_h5file r)) r).

Definition __exit__ : M world unit := close.

Definition add_column_transform (table_name col_name : string) (tr : transform)
    : M world unit :=
  on_self (λ r,
    set_transforms
      (<[table_name := <[col_name := tr]> (_transforms r !!! table_name)]> (_transforms r))
      r) ;;;
  log_debug (DebugAddedTransform table_name col_name).

Definition _apply_col_transform (table_name col_name : string) (value : pyval)
    : M world pyval :=
  let* trs := gets (λ w, _transforms (self w) !!! table_name) in
  match trs !! col_name with
  | Some tr => lift (tr value)
  | None => M_ret value
  end.

(** The table object behind [self._tables[table_name]]. *)
Definition table_of (table_name : string) : M world Table :=
  λ w, match _tables (self w) !! table_name with
       | Some table => (get_node table (_h5file (self w)), w)
       | None => (Raise (KeyError table_name), w)
       end.

(** Creates the transforms that undo the ones of the writer.  The loop
    visits each user attribute with its value. *)
Definition _map_transforms_from_table_header (table_name : string) : M world unit :=
  let* tab := table_of table_name in
  for_ (map_to_list (attrs tab)) (λ kv,
    let '(attr, unitname) := kv in
    if endswith attr "_UNIT" then
      let colname := drop_last 5 attr in
      add_column_transform table_name colname (λ value, tr_add_unit value unitname)
    else M_ret tt).

(** Identifies the columns of the table to read into the container, by
    comparing their names. *)
Definition _map_table_to_container (table_name : string) (container : loc) : M world unit :=
  let* tab := table_of table_name in
  let* c := gets (λ w, heap w !!! container) in
  for_ (colnames tab) (λ colname,
    if fields_contains c colname then
      on_self (λ r,
        set_cols_to_read
          (<[table_name := (_cols_to_read r !!! table_name) ++ [colname]]> (_cols_to_read r))
          r)
    else log_warn (WarnColumnNotInContainer table_name colname (class_name c))) ;;;
  for_ (keys c) (λ colname,
    let* cols := gets (λ w, _cols_to_read (self w) !!! table_name) in
    if bool_decide (colname ∈ cols) then M_ret tt
    else log_warn (WarnMissingColumn table_name colname (class_name c))) ;;;
  for_ (map_to_list (attrs tab)) (λ kv,
    on_container container (λ c, meta_set c kv.1 kv.2)).

Definition _setup_table (table_name : string) (container : loc) : M world string :=
  let* _ := (λ w, (get_node table_name (_h5file (self w)), w)) in
  on_self (λ r, set_tables (<[table_name := table_name]> (_tables r)) r) ;;;
  _map_table_to_container table_name container ;;;
  _map_transforms_from_table_header table_name ;;;
  M_ret table_name.

(** *** The generator of [read] *)

(** Where a generator stands: not started, suspended at its [yield] with
    the values of its local variables, or finished. *)
Inductive frame :=
| NotStarted
| Suspended (tab : string) (row_count : nat)
| Finished.

(** A generator object of [read]: the arguments of the call and the frame.
    Calling [read] runs no line of its body. *)
Record generator := {
  table_name : string;
  container : loc;
  gi_frame : frame;
}.

Definition read (table_name : string) (container : loc) : generator :=
  {| table_name := table_name; container := container; gi_frame := NotStarted |}.

Definition with_frame (fr : frame) (g : generator) : generator :=
  {| table_name := table_name g; container := container g; gi_frame := fr |}.

(** What [next(generator)] gives: the yielded object, StopIteration, or an
    exception of the body. *)
Inductive step_result :=
| Yield (value : loc)
| StopIteration
| Throw (e : exn).

(** The lines before the loop: the table is set up unless known. *)
Definition read_prologue (g : generator) : M world string :=
  let* known := gets (λ w, _tables (self w) !! table_name g) in
  match known with
  | None => _setup_table (table_name g) (container g)
  | Some tab => M_ret tab
  end.

(** [row = tab[row_count]] under its [try]: [None] when IndexError was
    caught. *)
Definition read_row (tab : string) (row_count : nat) : M world (option (gmap string pyval)) :=
  λ w, match get_node tab (_h5file (self w)) with
       | Ok t =>
           match Table_getitem t row_count with
           | Ok row => (Ok (Some row), w)
           | Raise IndexError => (Ok None, w)
           | Raise e => (Raise e, w)
           end
       | Raise e => (Raise e, w)
       end.

(** The [for] loop of one iteration: fills the container from the row. *)
Definition fill_container (g : generator) (row : gmap string pyval) : M world unit :=
  let* cols := gets (λ w, _cols_to_read (self w) !!! table_name g) in
  for_ cols (λ colname,
    let* cell := lift (match row !! colname with
                       | Some cell => Ok cell
                       | None => Raise (KeyError colname)
                       end) in
    let* value := _apply_col_transform (table_name g) colname cell in
    Container_setitem (container g) colname value).

(** One turn of the [while] loop, from its top to the [yield] or the
    [return]. *)
Definition read_loop (g : generator) (tab : string) (row_count : nat)
    : world → step_result * generator * world :=
  λ w, match read_row tab row_count w with
       | (Ok (Some row), w) =>
           match fill_container g row w with
           | (Ok _, w) => (Yield (container g), with_frame (Suspended tab row_count) g, w)
           | (Raise e, w) => (Throw e, with_frame Finished g, w)
           end
       | (Ok None, w) => (StopIteration, with_frame Finished g, w)
       | (Raise e, w) => (Throw e, with_frame Finished g, w)
       end.

(** [next(g)] *)
Definition next (g : generator) : world → step_result * generator * world :=
  λ w, match gi_frame g with
       | NotStarted =>
           match read_prologue g w with
           | (Ok tab, w) => read_loop g tab 0 w
           | (Raise e, w) => (Throw e, with_frame Finished g, w)
           end
       | Suspended tab row_count => read_loop g tab (row_count + 1) w
       | Finished => (StopIteration, g, w)
       end.

(** What a [for] loop over the generator sees: the yielded references, each
    with the state of the object behind it at that moment, and how the
    iteration ended ([None]: StopIteration). *)
Record iteration := {
  yielded : list (loc * Container);
  error : option exn;
  final : world;
}.

Fixpoint iterate (fuel : nat) (g : generator) (w : world) : option iteration :=
  match fuel with
  | O => None
  | S fuel =>
      match next g w with
      | (Yield c, g, w) =>
          match iterate fuel g w with
          | Some it =>
              Some {| yielded := (c, heap w !!! c) :: yielded it;
                      error := error it; final := final it |}
          | None => None
          end
      | (StopIteration, _, w) => Some {| yielded := []; error := None; final := w |}
      | (Throw e, _, w) => Some {| yielded := []; error := Some e; final := w |}
      end
  end.

End reader.
End HDF5TableReader.

(** ** Instances of the collaborators for the worked examples *)

Module Example.

(** A few units of length and time. *)
Inductive si_unit := m | cm | km | s | ms.

Definition si_name (u : si_unit) : string :=
  match u with m => "m" | cm => "cm" | km => "km" | s => "s" | ms => "ms" end.

Definition si_parse (name : string) : option si_unit :=
  if String.eqb name "m" then Some m
  else if String.eqb name "cm" then Some cm
  else if String.eqb name "km" then Some km
  else if String.eqb name "s" then Some s
  else if String.eqb name "ms" then Some ms
  else None.

(** The physical dimension ([true]: length) and the size in base units. *)
Definition si_is_length (u : si_unit) : bool :=
  match u with m | cm | km => true | s | ms => false end.

Definition si_size (u : si_unit) : Q :=
  match u with m => 1 | cm => 1 # 100 | km => 1000 | s => 1 | ms => 1 # 1000 end.

Definition si_factor (u v : si_unit) : option Q :=
  if Bool.eqb (si_is_length u) (si_is_length v)
  then Some (Qred (si_size u / si_size v)) else None.

#[export] Instance si_units : AstropyUnits :=
  {| Unit := si_unit; unit_str := si_name; unit_parse := si_parse;
     unit_factor := si_factor |}.

(** A fragment of the regular expressions of [re]: literal characters,
    [.], and a postfix [*] on either. *)
Inductive atom := Lit (c : ascii) | AnyChar.

Definition is_special (c : ascii) : bool :=
  bool_decide (c ∈ String.list_ascii_of_string "*+?()[]{}|^$\\").

Fixpoint parse (pattern : string) : option (list (atom * bool)) :=
  match pattern with
  | EmptyString => Some []
  | String c rest =>
      if is_special c then None
      else
        let a := if Ascii.eqb c "."%char then AnyChar else Lit c in
        match rest with
        | String "*"%char rest' => cons (a, true) <$> parse rest'
        | _ => cons (a, false) <$> parse rest
        end
  end.

Definition atom_matches (a : atom) (c : ascii) : bool :=
  match a with
  | Lit c' => Ascii.eqb c' c
  | AnyChar => negb (Ascii.eqb c "010"%char)
  end.

(** Whether the pattern matches a prefix of the string. *)
Fixpoint match_here (p : list (atom * bool)) (text : string) : bool :=
  match p with
  | [] => true
  | (a, false) :: p' =>
      match text with
      | String c text' => atom_matches a c && match_here p' text'
      | EmptyString => false
      end
  | (a, true) :: p' =>
      (fix star (text : string) : bool :=
         match_here p' text ||
         match text with
         | String c text' => atom_matches a c && star text'
         | EmptyString => false
         end) text
  end.

#[export] Instance small_re : Re :=
  {| Pattern := list (atom * bool); re_compile := parse; re_match := match_here |}.

(** The cast of numpy on assignment, as numpy before 2.0 does it: a
    fraction goes to an integer type toward zero, an integer wraps around
    in the width of the type, a number goes to bool as whether it is not
    zero.  Floats are kept exact. *)
Definition truncate (x : Q) : Z := Z.quot (Qnum x) (Zpos (Qden x)).

Definition wrap (width z : Z) : Z :=
  ((z + 2 ^ (width - 1)) mod 2 ^ width - 2 ^ (width - 1))%Z.

Definition cast_number (t : coltype) (x : Q) : Q :=
  match t with
  | Float64Col | Float32Col => Qred x
  | IntCol | Int32Col => inject_Z (wrap 32 (truncate x))
  | Int64Col => inject_Z (wrap 64 (truncate x))
  | BoolCol => if Qeq_bool x 0 then 0 else 1
  end.

Definition cast_scalar (t : coltype) (x : Q) : @pyval si_units :=
  match t with
  | BoolCol => PyBool (negb (Qeq_bool x 0))
  | _ => Num (Scalar (dtype_name t) (cast_number t x))
  end.

Definition cast_array (t : coltype) (shape : list nat) (data : list Q) : @pyval si_units :=
  Num (NdArray (dtype_name t) shape (cast_number t <$> data)).

Definition numpy_cast (col : Col) (value : @pyval si_units) : result (@pyval si_units) :=
  match col_shape col, value with
  | [], Num (Scalar _ x) => Ok (cast_scalar (col_type col) x)
  | [], PyBool b => Ok (cast_scalar (col_type col) (if b then 1%Q else 0%Q))
  | [], Num (NdArray _ _ _) => Raise (ValueError "setting an array element with a sequence.")
  | shape, Num (NdArray _ shape' data) =>
      if decide (shape' = shape) then Ok (cast_array (col_type col) shape data)
      else Raise (ValueError "could not broadcast input array")
  | shape, Num (Scalar _ x) =>
      Ok (cast_array (col_type col) shape (replicate (foldr Nat.mul 1%nat shape) x))
  | shape, PyBool b =>
      Ok (cast_array (col_type col) shape
            (replicate (foldr Nat.mul 1%nat shape) (if b then 1%Q else 0%Q)))
  | _, _ => Raise TypeError
  end.

#[export] Instance numpy_engine : @PyTables si_units :=
  {| cell_cast := numpy_cast |}.

End Example.

(** ** The schema of a field, by the rules of the design *)

Section schema_rules.
Context `{AstropyUnits}.

(** The unit recorded in the header for a quantity field: the required
    unit of the field if it declares one, else the unit of the value. *)
Definition header_unit (field : Field) (own : Unit) : Unit :=
  match Field_unit field with
  | Some req_unit => req_unit
  | None => own
  end.

(** The unitless value of a field: a quantity is converted to the header
    unit and stripped, any other value is taken as it is. *)
Definition stripped (field : Field) (value : pyval) : result pyval :=
  match value with
  | Quantity _ _ =>
      match Field_unit field with
      | Some req_unit => tr_convert_and_strip_unit value req_unit
      | None => Quantity_value value
      end
  | _ => Ok value
  end.

(** The column of a unitless value: by element kind and shape for an array,
    a 64-bit float column for a timestamp, by the kind of a scalar in the
    type map; no column for any other value. *)
Definition column_for (value : pyval) : option Col :=
  match value with
  | Num (NdArray dtype shape _) =>
      (λ t, {| col_type := t; col_shape := shape |}) <$> PYTABLES_TYPE_MAP !! dtype
  | Time _ => Some {| col_type := Float64Col; col_shape := [] |}
  | _ => (λ t, {| col_type := t; col_shape := [] |}) <$> PYTABLES_TYPE_MAP !! type_name value
  end.

(** The write-side transform that the derivation registers for a field. *)
Definition write_transform (field : Field) (value : pyval) : option transform :=
  match value with
  | Quantity _ _ =>
      Some (match Field_unit field with
            | Some req_unit => λ x, tr_convert_and_strip_unit x req_unit
            | None => Quantity_value
            end)
  | Time _ => Some tr_time_to_float
  | _ => None
  end.

(** The value that reaches the cell of a field under [write_transform]. *)
Definition cell_for (field : Field) (value : pyval) : result pyval :=
  match write_transform field value with
  | Some tr => tr value
  | None => Ok value
  end.

(** The unit attribute that the header holds for a field. *)
Definition unit_attr (field : Field) (value : pyval) : option pyval :=
  match value with
  | Quantity _ own => Some (PyStr (unit_str (header_unit field own)))
  | _ => None
  end.

(** The read-side transform that the header gives a field. *)
Definition read_transform (field : Field) (value : pyval) : option transform :=
  match value with
  | Quantity _ own =>
      Some (λ x, tr_add_unit x (PyStr (unit_str (header_unit field own))))
  | _ => None
  end.

(** What the reader makes of the cell of a field: the read-side
    transform of the field on the cell, or the cell itself. *)
Definition read_back (field : Field) (value cell : pyval) : result pyval :=
  match read_transform field value with
  | Some tr => tr cell
  | None => Ok cell
  end.

(** A number, an array of numbers or a boolean. *)
Definition is_number (value : pyval) : bool :=
  match value with
  | Num _ | PyBool _ => true
  | _ => false
  end.

End schema_rules.

(** ** Vocabulary for the properties of the writer *)

Section writer_vocabulary.
Context `{AstropyUnits} `{Re} `{!PyTables}.
Import HDF5TableWriter.

(** Whether a log record announces the set-up of a table. *)
Definition is_init (r : log_record) : bool :=
  match r with DebugInitializingTable _ => true | _ => false end.

(** The log grew by records that do not announce a table set-up. *)
Definition log_extends (l l' : list log_record) : Prop :=
  ∃ extra, l' = l ++ extra ∧ Forall (λ r, is_init r = false) extra.

(** How often the log announces the set-up of a table. *)
Definition init_count (table_name : string) (l : list log_record) : nat :=
  length (filter (λ r, r = DebugInitializingTable table_name) l).

(** What one turn of the schema derivation, for the column [col_name], may
    change of the writer. *)
Record schema_frame (table_name col_name : string) (w w' : t) : Prop := {
  sf_exclusions : _exclusions w' = _exclusions w;
  sf_schemas : _schemas w' = _schemas w;
  sf_tables : _tables w' = _tables w;
  sf_h5file : _h5file w' = _h5file w;
  sf_group : _group w' = _group w;
  sf_transforms_table : ∀ tn, tn ≠ table_name → _transforms w' !! tn = _transforms w !! tn;
  sf_transforms_col : ∀ n, n ≠ col_name →
    (_transforms w' !!! table_name) !! n = (_transforms w !!! table_name) !! n;
  sf_log : log_extends (log w) (log w');
}.

(** What the whole derivation loop may change of the writer. *)
Record derive_frame (table_name : string) (w w' : t) : Prop := {
  df_exclusions : _exclusions w' = _exclusions w;
  df_schemas : _schemas w' = _schemas w;
  df_tables : _tables w' = _tables w;
  df_h5file : _h5file w' = _h5file w;
  df_group : _group w' = _group w;
  df_transforms : ∀ tn, tn ≠ table_name → _transforms w' !! tn = _transforms w !! tn;
  df_log : log_extends (log w) (log w');
}.

(** The table a first write creates, before its first row. *)
Definition new_table (version : string) (containers : list Container)
    (cols : Schema) (unitmeta : gmap string pyval) : Table :=
  {| title := "Storage of " +:+ join "," (class_name <$> containers);
     description := cols;
     attrs := update_meta (<["CTAPIPE_VERSION" := PyStr version]> unitmeta) containers;
     rows := [] |}.

(** The value of a registered write-side transform, or the value itself. *)
Definition written (w : t) (table_name colname : string) (raw : pyval) : result pyval :=
  match (_transforms w !!! table_name) !! colname with
  | Some tr => tr raw
  | None => Ok raw
  end.

(** The inner loop of [_append_row], over the keys [l] of one container. *)
Definition fill_row (table_name : string) (tab : Table) (container : Container)
    (l : list string) (row : gmap string pyval) : M t (gmap string pyval) :=
  for_acc l row (λ row colname,
    let* raw := lift (getitem container colname) in
    let* value := _apply_col_transform table_name colname raw in
    let* cell := lift (Row_setitem tab colname value) in
    M_ret (<[colname := cell]> row)).

(** [containers] after the first line of [write]. *)
Definition arg_list (containers : containers_arg) : list Container :=
  match containers with
  | One container => [container]
  | Several containers => containers
  end.

(** A sequence of [write] calls on one writer; an exception ends it. *)
Definition write_all (version : string) (calls : list (string * containers_arg)) : M t unit :=
  for_ calls (λ call, write version call.1 call.2).

(** The table of a table name in the file of the writer. *)
Definition table_at (w : t) (table_name : string) : option Table :=
  nodes (_h5file w) !! join_path (_group w) table_name.

(** The writer states that a fresh writer reaches through successful
    writes: the table handles, the tables of the file and the log agree
    with the registered schemas. *)
Record consistent (w : t) : Prop := {
  c_tables : ∀ tn, _tables w !! tn = (λ _, join_path (_group w) tn) <$> _schemas w !! tn;
  c_nodes : ∀ tn sch, _schemas w !! tn = Some sch →
    ∃ tab, table_at w tn = Some tab ∧ description tab = sch;
  c_log : ∀ tn,
    init_count tn (log w) = match _schemas w !! tn with Some _ => 1%nat | None => 0%nat end;
}.

(** A later table is the earlier one with [n] more rows, each with a cell
    for every column of the description and for nothing else. *)
Definition grown (n : nat) (tab tab' : Table) : Prop :=
  title tab' = title tab ∧ description tab' = description tab ∧
  attrs tab' = attrs tab ∧
  ∃ more, rows tab' = rows tab ++ more ∧ length more = n ∧
          Forall (λ row, dom row = dom (description tab)) more.

(** The number of calls of a sequence that write to a table. *)
Definition calls_to (tn : string) (calls : list (string * containers_arg)) : nat :=
  length (filter (λ call, call.1 = tn) calls).

(** Whether a column name matches an exclusion pattern of the table. *)
Definition excluded (w : t) (table_name col_name : string) : bool :=
  existsb (λ pattern, re_match pattern col_name) (_exclusions w !!! table_name).

(** What the derivation makes of one field, by the rules of the design:
    the column, the unit attribute and the write-side transform of its
    name, each given with its state before the field is visited. *)
Definition column_outcome (is_excluded : bool) (field : Field) (value : pyval)
    (col0 col : option Col) (attr0 attr : option pyval) (tr0 tr : option transform)
    : Prop :=
  if is_excluded then col = col0 ∧ attr = attr0 ∧ tr = tr0
  else
    ∃ sv, stripped field value = Ok sv ∧
      col = match column_for sv with Some c => Some c | None => col0 end ∧
      attr = match value with
             | Quantity _ own => Some (PyStr (unit_str (header_unit field own)))
             | _ => attr0
             end ∧
      tr = match write_transform field value with Some f => Some f | None => tr0 end.

(** A field that gets a column: its unitless value has one. *)
Definition storable (field : Field) (value : pyval) : Prop :=
  ∃ sv, stripped field value = Ok sv ∧ is_Some (column_for sv).

End writer_vocabulary.

(** ** Vocabulary for the properties of the reader *)

Section reader_vocabulary.
Context `{AstropyUnits}.
Import HDF5TableReader.

(** The value that [fill_container] assigns for a column of a row. *)
Definition read_value (r : t) (table_name : string) (row : gmap string pyval)
    (colname : string) : result pyval :=
  match row !! colname with
  | Some cell =>
      match (_transforms r !!! table_name) !! colname with
      | Some tr => tr cell
      | None => Ok cell
      end
  | None => Raise (KeyError colname)
  end.

(** The container after the assignments for the columns [cols], in turn. *)
Fixpoint filled (r : t) (table_name : string) (row : gmap string pyval)
    (cols : list string) (c : Container) : result Container :=
  match cols with
  | [] => Ok c
  | colname :: cols =>
      match read_value r table_name row colname with
      | Ok value =>
          match setitem c colname value with
          | Ok c' => filled r table_name row cols c'
          | Raise e => Raise e
          end
      | Raise e => Raise e
      end
  end.

(** The containers that a run over the rows yields, by replaying the
    assignments on the one container; it stops at a failing row. *)
Fixpoint replay (r : t) (table_name : string) (cols : list string)
    (rows : list (gmap string pyval)) (c : Container) : list Container :=
  match rows with
  | [] => []
  | row :: rows =>
      match filled r table_name row cols c with
      | Ok c' => c' :: replay r table_name cols rows c'
      | Raise _ => []
      end
  end.

(** The rest of an iteration that is about to read the row [n]. *)
Definition resume (fuel : nat) (g : generator) (tab : string) (n : nat) (w : world)
    : option iteration :=
  match read_loop g tab n w with
  | (Yield c, g, w) =>
      match iterate fuel g w with
      | Some it =>
          Some {| yielded := (c, heap w !!! c) :: yielded it;
                  error := error it; final := final it |}
      | None => None
      end
  | (StopIteration, _, w) => Some {| yielded := []; error := None; final := w |}
  | (Throw e, _, w) => Some {| yielded := []; error := Some e; final := w |}
  end.

(** The reader [r'] is [r] with another log. *)
Definition same_but_log (r r' : t) : Prop :=
  _cols_to_read r' = _cols_to_read r ∧ _transforms r' = _transforms r ∧
  _tables r' = _tables r ∧ _h5file r' = _h5file r.

(** Nothing of the reader changed, and no metadata of any container. *)
Definition untouched (w w' : world) : Prop :=
  self w' = self w ∧ ∀ l, meta (heap w' !!! l) = meta (heap w !!! l).

End reader_vocabulary.

Module W := HDF5TableWriter.
Module R := HDF5TableReader.

Section round_trip_vocabulary.
Context `{AstropyUnits} `{Re} `{!PyTables}.

(** What the reader finds for one field of the record that was written. *)
Definition field_round_trip (tn path : string) (w1 : W.t) (tab : Table)
    (row : gmap string pyval) (it : R.iteration) (target target' : Container)
    (name : string) (field : Field) (v : pyval) : Prop :=
  ∃ sv,
    stripped field v = Ok sv ∧
    description tab !! name = column_for sv ∧
    attrs tab !! (name +:+ "_UNIT") = unit_attr field v ∧
    (W._transforms w1 !!! tn) !! name = write_transform field v ∧
    (R._transforms (R.self (R.final it)) !!! path) !! name = read_transform field v ∧
    ∀ col, column_for sv = Some col →
      ∃ out cell,
        cell_for field v = Ok out ∧ cell_cast col out = Ok cell ∧
        row !! name = Some cell ∧
        (fields_contains target name = true →
           ∃ back, read_back field v cell = Ok back ∧ getitem target' name = Ok back).

End round_trip_vocabulary.

(** Whether a result is a value. *)
Definition succeeds {A} (r : result A) : bool :=
  match r with Ok _ => true | Raise _ => false end.

(** ** Worked examples *)

Module Examples.
Import Example.

Definition version : string := "0.5.3".

(** A record with a field of each kind: a quantity in cm whose field
    requires m, a quantity without required unit, an integer, a boolean,
    an array, a timestamp, a string, and a field to exclude. *)
Definition record : Container :=
  {| class_name := "SomeContainer";
     slots := [
       ("x", ({| Field_unit := Some m |}, Quantity (Scalar "float64" 250) cm));
       ("d", ({| Field_unit := None |}, Quantity (Scalar "float64" 3) s));
       ("y", ({| Field_unit := None |}, Num (Scalar "int" 7)));
       ("flag", ({| Field_unit := None |}, PyBool true));
       ("arr", ({| Field_unit := None |}, Num (NdArray "float64" [2%nat] [1%Q; 2%Q])));
       ("t", ({| Field_unit := None |}, Time 58000));
       ("name", ({| Field_unit := None |}, PyStr "abc"));
       ("raw_a", ({| Field_unit := None |}, Num (Scalar "float" 1)))
     ];
     meta := ∅ |}.

(** An instance of the same class with other values, to read into. *)
Definition blank : Container :=
  {| class_name := "SomeContainer";
     slots := [
       ("x", ({| Field_unit := Some m |}, Quantity (Scalar "float64" 0) m));
       ("d", ({| Field_unit := None |}, Quantity (Scalar "float64" 0) s));
       ("y", ({| Field_unit := None |}, Num (Scalar "int" 0)));
       ("flag", ({| Field_unit := None |}, PyBool false));
       ("arr", ({| Field_unit := None |}, Num (NdArray "float64" [2%nat] [0%Q; 0%Q])));
       ("t", ({| Field_unit := None |}, Time 0));
       ("name", ({| Field_unit := None |}, PyStr ""));
       ("raw_a", ({| Field_unit := None |}, Num (Scalar "float" 0)))
     ];
     meta := ∅ |}.

(** A record with an array of 16-bit unsigned integers, and the same
    record with a scalar of that kind. *)
Definition record_uint16_array : Container :=
  {| class_name := "Counts";
     slots := [
       ("a", ({| Field_unit := None |}, Num (NdArray "uint16" [2%nat] [1%Q; 2%Q])));
       ("y", ({| Field_unit := None |}, Num (Scalar "int" 7)))
     ];
     meta := ∅ |}.

Definition record_uint16_scalar : Container :=
  {| class_name := "Counts";
     slots := [
       ("a", ({| Field_unit := None |}, Num (Scalar "uint16" 1)));
       ("y", ({| Field_unit := None |}, Num (Scalar "int" 7)))
     ];
     meta := ∅ |}.

(** [HDF5TableWriter("events.h5", "grp")] *)
Definition writer : W.t :=
  {| W._transforms := ∅; W._exclusions := ∅;
     W.log := [DebugH5file "events.h5"];
     W._schemas := ∅; W._tables := ∅;
     W._h5file := {| filename := "events.h5"; isopen := true;
                     groups := ["/"; "/grp"]; nodes := ∅ |};
     W._group := "/grp" |}.

(** What the writer leaves in the file after two writes of the record to
    the table "events" and [close]. *)
Definition stored : H5File :=
  W._h5file
    ((W.write version "events" (W.One record) ;;;
      W.write version "events" (W.One record) ;;;
      W.close) writer).2.

(** An instance of another class, with the field "y" only. *)
Definition other : Container :=
  {| class_name := "OtherContainer";
     slots := [("y", ({| Field_unit := None |}, Num (Scalar "int" 0)))];
     meta := ∅ |}.

(** A record with a timestamp, whose metadata names a unit for the
    field. *)
Definition record_stamped : Container :=
  {| class_name := "Stamped";
     slots := [("t", ({| Field_unit := None |}, Time 58000))];
     meta := {[ "t_UNIT" := PyStr "m" ]} |}.

(** A record with an integer beyond the 32 bits of the column of "int". *)
Definition record_wide : Container :=
  {| class_name := "Wide";
     slots := [("n", ({| Field_unit := None |}, Num (Scalar "int" (2 ^ 40 + 5))))];
     meta := ∅ |}.

(** A reader of the stored file, and two container objects. *)
Definition reader_world : R.world :=
  {| R.self := R.__init__ stored;
     R.heap := {[ 0%nat := blank; 1%nat := other ]} |}.

(** The table at a path of a file (an empty table if there is none). *)
Definition table_in (path : string) (f : H5File) : Table :=
  default {| title := ""; description := ∅; attrs := ∅; rows := [] |} (nodes f !! path).

(** The state after a run, and what the run returned. *)
Definition after {S A} (run : M S A) (s : S) : S := (run s).2.

Definition returned {S A} (run : M S A) (s : S) (default : A) : A :=
  match (run s).1 with
  | Ok a => a
  | Raise _ => default
  end.

End Examples.

(** ** The mask transform *)

(** The position that an index [i] denotes in a one-dimensional numpy array
    of [n] elements: a negative index counts from the end; [None] when numpy
    raises IndexError. *)
Definition normalize_index (n : nat) (i : Z) : option nat :=
  if bool_decide (0 ≤ i < Z.of_nat n)%Z then Some (Z.to_nat i)
  else if bool_decide (- Z.of_nat n ≤ i < 0)%Z then Some (Z.to_nat (i + Z.of_nat n))
  else None.

(** [arr[thelist] = True] *)
Fixpoint set_true (arr : list bool) (thelist : list Z) : result (list bool) :=
  match thelist with
  | [] => Ok arr
  | i :: thelist =>
      match normalize_index (length arr) i with
      | Some j => set_true (<[j := true]> arr) thelist
      | None => Raise IndexError
      end
  end.

(** Transform list to a fixed-length mask. *)
Definition tr_list_to_mask (thelist : list Z) (length : nat) : result (list bool) :=
  let arr := replicate length false in
  set_true arr thelist.

(** ** Fields that a run keeps *)

Section kept_fields.
Context `{AstropyUnits}.

(** The field [name] of every container is as before. *)
Definition field_kept (name : string) (w w' : R.world) : Prop :=
  ∀ l, getitem (R.heap w' !!! l) name = getitem (R.heap w !!! l) name.

End kept_fields.

(** ** More worked examples *)

Module MoreExamples.
Import Example Examples.

(** The record with a time in the field that requires a length. *)
Definition record_seconds : Container :=
  {| class_name := "SomeContainer";
     slots := [
       ("x", ({| Field_unit := Some m |}, Quantity (Scalar "float64" 250) s));
       ("y", ({| Field_unit := None |}, Num (Scalar "int" 7)))
     ];
     meta := ∅ |}.

(** A transform of the user: twice the number. *)
Definition double : transform :=
  λ value,
    match value with
    | Num (Scalar typename x) => Ok (Num (Scalar typename (Qred (2 * x))))
    | _ => Raise TypeError
    end.

(** The writer after the first write of the record to "events". *)
Definition wrote_once : W.t := after (W.write version "events" (W.One record)) writer.

End MoreExamples.

(** * Properties *)

Ltac unfold_M := unfold M_bind, M_ret, raise, gets, modify, lift in *.

Lemma endswith_nil suffix : endswith "" suffix = String.eqb "" suffix.
Proof. simpl. apply orb_false_r. Qed.

Lemma endswith_cons c s suffix :
  endswith (String c s) suffix = String.eqb (String c s) suffix || endswith s suffix.
Proof. reflexivity. Qed.

Lemma endswith_refl s : endswith s s = true.
Proof. destruct s; [reflexivity |]. by rewrite endswith_cons, String.eqb_refl. Qed.

Lemma endswith_app s suffix : endswith (s +:+ suffix) suffix = true.
Proof.
  induction s as [|c s IH].
  - apply endswith_refl.
  - change (String c s +:+ suffix) with (String c (s +:+ suffix)).
    rewrite endswith_cons, IH. apply orb_true_r.
Qed.

Lemma length_app_string s t : String.length (s +:+ t) = (String.length s + String.length t)%nat.
Proof. induction s as [|c s IH]; simpl; [done | by rewrite IH]. Qed.

Lemma substring_app_prefix s t : String.substring 0 (String.length s) (s +:+ t) = s.
Proof. induction s as [|c s IH]; simpl; [by destruct t | by rewrite IH]. Qed.

Lemma drop_last_app s suffix : drop_last (String.length suffix) (s +:+ suffix) = s.
Proof.
  unfold drop_last. rewrite length_app_string.
  replace (String.length s + String.length suffix - String.length suffix)%nat
    with (String.length s) by lia.
  apply substring_app_prefix.
Qed.

Lemma endswith_split s suffix :
  endswith s suffix = true → ∃ p, s = p +:+ suffix.
Proof.
  induction s as [|c s IH].
  - rewrite endswith_nil. intros <-%String.eqb_eq. by exists "".
  - rewrite endswith_cons. intros [<-%String.eqb_eq | Hs]%orb_true_iff.
    + by exists "".
    + destruct (IH Hs) as [p ->]. by exists (String c p).
Qed.

Lemma app_string_inj_l s1 s2 t : s1 +:+ t = s2 +:+ t → s1 = s2.
Proof.
  intros Heq.
  rewrite <- (drop_last_app s1 t), <- (drop_last_app s2 t). by rewrite Heq.
Qed.

Lemma app_string_inj_r s t1 t2 : s +:+ t1 = s +:+ t2 → t1 = t2.
Proof. induction s; simpl; [done | intros [=]; auto]. Qed.

Section loops.
Context {S A B : Type}.

Lemma for_acc_cons (x : A) l (acc : B) (body : B → A → M S B) s :
  for_acc (x :: l) acc body s =
  match body acc x s with
  | (Ok acc', s') => for_acc l acc' body s'
  | (Raise e, s') => (Raise e, s')
  end.
Proof. reflexivity. Qed.

(** A relation between the states before and after each turn of a loop
    holds between the states before and after the loop, however it ends. *)
Lemma for_acc_frame (Q : S → S → Prop) l (body : B → A → M S B) :
  (∀ s, Q s s) → (∀ s1 s2 s3, Q s1 s2 → Q s2 s3 → Q s1 s3) →
  (∀ x acc s r s', x ∈ l → body acc x s = (r, s') → Q s s') →
  ∀ acc s r s', for_acc l acc body s = (r, s') → Q s s'.
Proof.
  intros Hrefl Htrans. induction l as [|x l IH]; intros Hbody acc s r s'.
  - intros [= <- <-]. apply Hrefl.
  - rewrite for_acc_cons. destruct (body acc x s) as [[acc1|e] s1] eqn:Hx.
    + intros Hl. eapply Htrans.
      * eapply Hbody; [left | done].
      * eapply IH; [|done]. intros. eapply Hbody; [by right | done].
    + intros [= <- <-]. eapply Hbody; [left | done].
Qed.

(** An invariant of the local variables and the state that every
    successful turn keeps holds after a successful loop. *)
Lemma for_acc_invariant (P : B → S → Prop) l (body : B → A → M S B) :
  (∀ x acc s acc' s', x ∈ l → P acc s → body acc x s = (Ok acc', s') → P acc' s') →
  ∀ acc s acc' s', P acc s → for_acc l acc body s = (Ok acc', s') → P acc' s'.
Proof.
  induction l as [|x l IH]; intros Hbody acc s acc' s' HP.
  - by intros [= <- <-].
  - rewrite for_acc_cons. destruct (body acc x s) as [[acc1|e] s1] eqn:Hx; [|done].
    apply IH.
    + intros. eapply Hbody; [by right | done..].
    + eapply Hbody; [left | done..].
Qed.

Lemma for_cons (x : A) l (body : A → M S unit) s :
  for_ (x :: l) body s =
  match body x s with
  | (Ok _, s') => for_ l body s'
  | (Raise e, s') => (Raise e, s')
  end.
Proof. reflexivity. Qed.

Lemma for_frame (Q : S → S → Prop) l (body : A → M S unit) :
  (∀ s, Q s s) → (∀ s1 s2 s3, Q s1 s2 → Q s2 s3 → Q s1 s3) →
  (∀ x s r s', x ∈ l → body x s = (r, s') → Q s s') →
  ∀ s r s', for_ l body s = (r, s') → Q s s'.
Proof.
  intros Hrefl Htrans. induction l as [|x l IH]; intros Hbody s r s'.
  - intros [= <- <-]. apply Hrefl.
  - rewrite for_cons. destruct (body x s) as [[[]|e] s1] eqn:Hx.
    + intros Hl. eapply Htrans.
      * eapply Hbody; [left | done].
      * eapply IH; [|done]. intros. eapply Hbody; [by right | done].
    + intros [= <- <-]. eapply Hbody; [left | done].
Qed.

End loops.

Section writer_lemmas.
Context `{AstropyUnits} `{Re} `{!PyTables}.
Import HDF5TableWriter.

#[local] Arguments tr_convert_and_strip_unit : simpl never.
#[local] Arguments PYTABLES_TYPE_MAP : simpl never.




Lemma log_extends_refl l : log_extends l l.
Proof. exists []. by rewrite app_nil_r. Qed.

Lemma log_extends_snoc l l' r :
  log_extends l l' → is_init r = false → log_extends l (l' ++ [r]).
Proof.
  intros (extra & -> & Hextra) Hr. exists (extra ++ [r]).
  rewrite app_assoc. split; [done |]. apply Forall_app. by repeat constructor.
Qed.

Lemma log_extends_trans l1 l2 l3 :
  log_extends l1 l2 → log_extends l2 l3 → log_extends l1 l3.
Proof.
  intros (e1 & -> & ?) (e2 & -> & ?). exists (e1 ++ e2).
  rewrite app_assoc. split; [done | by apply Forall_app].
Qed.

Lemma schema_frame_refl tn n w : schema_frame tn n w w.
Proof. split; try done. apply log_extends_refl. Qed.

Lemma add_column_transform_frame tn n tr w :
  ∃ w', add_column_transform tn n tr w = (Ok tt, w') ∧ schema_frame tn n w w' ∧
        (_transforms w' !!! tn) !! n = Some tr.
Proof.
  eexists. split; [reflexivity |]. split; [split|]; simpl; try done.
  - intros tn' Hne. by rewrite lookup_insert_ne.
  - intros n' Hne. rewrite lookup_total_insert_eq. by rewrite lookup_insert_ne.
  - by apply log_extends_snoc; [apply log_extends_refl |].
  - by rewrite lookup_total_insert_eq, lookup_insert_eq.
Qed.

Lemma log_debug_frame tn n r w :
  is_init r = false →
  ∃ w', log_debug r w = (Ok tt, w') ∧ schema_frame tn n w w' ∧ _transforms w' = _transforms w.
Proof.
  intros Hr. eexists. split; [reflexivity |]. split; [split|]; simpl; try done.
  by apply log_extends_snoc; [apply log_extends_refl |].
Qed.

Lemma schema_frame_trans tn n w1 w2 w3 :
  schema_frame tn n w1 w2 → schema_frame tn n w2 w3 → schema_frame tn n w1 w3.
Proof.
  intros [? ? ? ? ? Ht1 Hc1 Hl1] [? ? ? ? ? Ht2 Hc2 Hl2]. split; try congruence.
  - intros tn' Hne. by rewrite Ht2, Ht1.
  - intros n' Hne. by rewrite Hc2, Hc1.
  - by eapply log_extends_trans.
Qed.


Ltac solve_frame :=
  split; simpl; try done;
  first
    [ by (intros; rewrite ?lookup_total_insert_eq, ?lookup_insert_ne by done)
    | by (repeat (apply log_extends_snoc; [| done]); apply log_extends_refl) ].

Lemma type_map_ndarray : PYTABLES_TYPE_MAP !! "ndarray" = None.
Proof. reflexivity. Qed.

Ltac schema_tail :=
  rewrite ?type_map_ndarray; simpl;
  intros [= <- <-]; simpl;
  split; [first [apply schema_frame_refl | solve_frame] |];
  try done;
  (split; [intros; by simplify_map_eq |]);
  (split; [intros; by simplify_map_eq |]);
  eexists; (split; [done |]); simpl;
  repeat match goal with
         | Hm : PYTABLES_TYPE_MAP !! _ = _ |- _ => rewrite Hm
         end; simpl;
  rewrite ?lookup_total_insert_eq;
  by simplify_map_eq.

Lemma tr_convert_and_strip_unit_eq n u req_unit :
  tr_convert_and_strip_unit (Quantity n u) req_unit =
  match unit_factor u req_unit with
  | Some k => Ok (Num (scale k n))
  | None => Raise UnitConversionError
  end.
Proof.
  unfold tr_convert_and_strip_unit, Quantity_to. by destruct (unit_factor u req_unit).
Qed.

Lemma schema_column_spec tn c cols0 meta0 name v field w r w' :
  fields_get c name = Ok field →
  schema_column tn c (cols0, meta0) (name, v) w = (r, w') →
  schema_frame tn name w w' ∧
  match r with
  | Raise e => True
  | Ok (cols, meta) =>
      (∀ n, n ≠ name → cols !! n = cols0 !! n) ∧
      (∀ k, k ≠ name +:+ "_UNIT" → meta !! k = meta0 !! k) ∧
      column_outcome (excluded w tn name) field v
        (cols0 !! name) (cols !! name)
        (meta0 !! (name +:+ "_UNIT")) (meta !! (name +:+ "_UNIT"))
        ((_transforms w !!! tn) !! name) ((_transforms w' !!! tn) !! name)
  end.
Proof.
  intros Hf. unfold schema_column, _is_column_excluded, column_outcome, excluded. unfold_M.
  destruct (existsb _ _) eqn:Hex.
  { intros [= <- <-]. split; [|done].
    solve_frame. }
  unfold add_column_transform, log_debug. unfold_M. rewrite Hf.
  destruct v as [[ty x|dt sh d]|b|s|n u| mjd | ty].
  - simpl. destruct (PYTABLES_TYPE_MAP !! ty) eqn:Hty; schema_tail.
  - simpl. destruct (PYTABLES_TYPE_MAP !! dt) eqn:Hdt; schema_tail.
  - simpl. schema_tail.
  - simpl. schema_tail.
  - unfold header_unit, stripped, write_transform.
    destruct (Field_unit field) as [req_unit|] eqn:Hreq; simpl.
    + rewrite tr_convert_and_strip_unit_eq.
      destruct (unit_factor u req_unit) as [k|]; simpl;
        [| intros [= <- <-]; split; [apply schema_frame_refl | done]].
      destruct (scale k n) as [ty x|dt sh d] eqn:Hsc; simpl.
      * destruct (PYTABLES_TYPE_MAP !! ty) eqn:Hty.
        { schema_tail. } schema_tail.
      * destruct (PYTABLES_TYPE_MAP !! dt) eqn:Hdt; schema_tail.
    + destruct n as [ty x|dt sh d]; simpl.
      * destruct (PYTABLES_TYPE_MAP !! ty) eqn:Hty; schema_tail.
      * destruct (PYTABLES_TYPE_MAP !! dt) eqn:Hdt; schema_tail.
  - simpl. schema_tail.
  - simpl. destruct (PYTABLES_TYPE_MAP !! ty) eqn:Hty; schema_tail.
Qed.



Lemma derive_frame_refl tn w : derive_frame tn w w.
Proof. split; try done. apply log_extends_refl. Qed.

Lemma derive_frame_trans tn w1 w2 w3 :
  derive_frame tn w1 w2 → derive_frame tn w2 w3 → derive_frame tn w1 w3.
Proof.
  intros [? ? ? ? ? Ht1 Hl1] [? ? ? ? ? Ht2 Hl2]. split; try congruence.
  - intros tn' Hne. by rewrite Ht2, Ht1.
  - by eapply log_extends_trans.
Qed.

Lemma schema_frame_derive tn n w w' : schema_frame tn n w w' → derive_frame tn w w'.
Proof. intros []. by split. Qed.

Lemma assoc_elem_of {X} name (l : list (string * X)) x :
  assoc name l = Some x → (name, x) ∈ l.
Proof.
  induction l as [|[k y] l IH]; simpl; [done |].
  case_decide; [intros [= ->]; subst; left | intros; right; auto].
Qed.

Lemma assoc_is_Some {X} name (l : list (string * X)) :
  name ∈ l.*1 → is_Some (assoc name l).
Proof.
  induction l as [|[k y] l IH]; simpl; [by intros ?%elem_of_nil |].
  case_decide; [done |]. intros [?|?]%elem_of_cons; [done | auto].
Qed.

Lemma assoc_NoDup {X} name (l : list (string * X)) x :
  NoDup l.*1 → (name, x) ∈ l → assoc name l = Some x.
Proof.
  induction l as [|[k y] l IH]; simpl; [by intros _ ?%elem_of_nil |].
  intros [Hk Hl]%NoDup_cons [[= <- <-]|Hin]%elem_of_cons.
  - by rewrite decide_True.
  - rewrite decide_False; [auto |]. intros ->. apply Hk.
    apply list_elem_of_fmap. by exists (name, x).
Qed.

Lemma items_fields_get c name v :
  (name, v) ∈ items c → ∃ field, fields_get c name = Ok field.
Proof.
  unfold items, fields_get. intros ([k fv] & [= -> ->] & Hin)%list_elem_of_fmap.
  destruct (assoc_is_Some k (slots c)) as [x ->]; [| by eexists].
  apply list_elem_of_fmap. by exists (k, fv).
Qed.

Lemma schema_loop_frame_items tn c locals w r w' :
  for_acc (items c) locals (schema_column tn c) w = (r, w') → derive_frame tn w w'.
Proof.
  apply (for_acc_frame (derive_frame tn));
    [apply derive_frame_refl | apply derive_frame_trans |].
  intros [name v] [cols meta] s3 r3 s4 Hin Hstep.
  destruct (items_fields_get _ _ _ Hin) as [field Hf].
  eapply schema_frame_derive, (schema_column_spec _ _ _ _ _ _ _ _ _ _ Hf Hstep).
Qed.

Lemma schema_loop_frame tn containers locals w r w' :
  for_acc containers locals (λ locals container,
    for_acc (items container) locals (schema_column tn container)) w = (r, w') →
  derive_frame tn w w'.
Proof.
  apply (for_acc_frame (derive_frame tn));
    [apply derive_frame_refl | apply derive_frame_trans |].
  intros c acc s1 r1 s2 _.
  apply (for_acc_frame (derive_frame tn));
    [apply derive_frame_refl | apply derive_frame_trans |].
  intros [name v] [cols meta] s3 r3 s4 Hin Hstep.
  destruct (items_fields_get _ _ _ Hin) as [field Hf].
  eapply schema_frame_derive, (schema_column_spec _ _ _ _ _ _ _ _ _ _ Hf Hstep).
Qed.


Lemma put_node_put_node path tab1 tab2 (f : H5File) :
  put_node path tab2 (put_node path tab1 f) = put_node path tab2 f.
Proof. unfold put_node. simpl. by rewrite insert_insert_eq. Qed.

Lemma assoc_None {X} name (l : list (string * X)) :
  name ∉ l.*1 → assoc name l = None.
Proof.
  intros Hnot. destruct (assoc name l) as [x|] eqn:Hx; [|done].
  destruct Hnot. apply assoc_elem_of in Hx. apply list_elem_of_fmap. by exists (name, x).
Qed.

Lemma foldl_insert_lookup {X} (l : list (string * X)) (m0 : gmap string X) k :
  NoDup l.*1 →
  foldl (λ acc kv, <[kv.1 := kv.2]> acc) m0 l !! k =
  match assoc k l with Some v => Some v | None => m0 !! k end.
Proof.
  revert m0. induction l as [|[k0 v0] l IH]; intros m0; simpl; [done |].
  intros [Hk0 Hl]%NoDup_cons. rewrite IH by done. case_decide as Hk.
  - subst k0. rewrite assoc_None by done. by rewrite lookup_insert_eq.
  - by rewrite lookup_insert_ne.
Qed.

Lemma assoc_map_to_list {X} (m : gmap string X) k :
  assoc k (map_to_list m) = m !! k.
Proof.
  destruct (m !! k) as [v|] eqn:Hm.
  - apply assoc_NoDup; [apply NoDup_fst_map_to_list |]. by apply elem_of_map_to_list.
  - destruct (assoc k (map_to_list m)) as [x|] eqn:Hx; [|done].
    apply assoc_elem_of, elem_of_map_to_list in Hx. congruence.
Qed.

Lemma foldl_insert_map_to_list {X} (m m0 : gmap string X) :
  foldl (λ acc kv, <[kv.1 := kv.2]> acc) m0 (map_to_list m) = m ∪ m0.
Proof.
  apply map_eq. intros k.
  rewrite foldl_insert_lookup by apply NoDup_fst_map_to_list.
  rewrite assoc_map_to_list, lookup_union. by destruct (m !! k), (m0 !! k).
Qed.

Lemma Table_set_attrs_attrs l tab :
  attrs (foldl (λ tab kv, Table_set_attr kv.1 kv.2 tab) tab l) =
  foldl (λ acc kv, <[kv.1 := kv.2]> acc) (attrs tab) l.
Proof. revert tab. induction l as [|kv l IH]; intros tab; simpl; [done | by rewrite IH]. Qed.

Lemma Table_set_attrs_other l tab :
  let tab' := foldl (λ tab kv, Table_set_attr kv.1 kv.2 tab) tab l in
  title tab' = title tab ∧ description tab' = description tab ∧ rows tab' = rows tab.
Proof.
  revert tab. induction l as [|kv l IH]; intros tab; simpl; [done |].
  destruct (IH (Table_set_attr kv.1 kv.2 tab)) as (? & ? & ?). by repeat split.
Qed.

(** The loop that copies the metadata into the attributes of the table. *)
Lemma set_attrs_loop (l : list (string * pyval)) table tab w :
  isopen (_h5file w) = true →
  nodes (_h5file w) !! table = Some tab →
  for_ l (λ kv,
    on_h5file (λ f,
      match get_node table f with
      | Ok tab => (Ok tt, put_node table (Table_set_attr kv.1 kv.2 tab) f)
      | Raise e => (Raise e, f)
      end)) w =
  (Ok tt,
   set_h5file
     (put_node table (foldl (λ tab kv, Table_set_attr kv.1 kv.2 tab) tab l) (_h5file w)) w).
Proof.
  revert tab w. induction l as [|kv l IH]; intros tab w Hopen Hnode.
  - simpl. unfold M_ret. f_equal. destruct w as [? ? ? ? ? f ?]; simpl in *.
    unfold set_h5file, put_node; simpl. f_equal. destruct f; simpl in *. f_equal.
    by rewrite insert_id.
  - rewrite for_cons. unfold on_h5file at 1, get_node. rewrite Hopen, Hnode.
    rewrite (IH (Table_set_attr kv.1 kv.2 tab)); simpl; [| done | by rewrite lookup_insert_eq].
    by rewrite put_node_put_node.
Qed.



Lemma setup_new_table_ok version tn cs w w' :
  _setup_new_table version tn cs w = (Ok tt, w') →
  ∃ cols unitmeta w1,
    for_acc cs (∅, ∅) (λ locals container,
      for_acc (items container) locals (schema_column tn container))
      (set_log (log w ++ [DebugInitializingTable tn]) w) = (Ok (cols, unitmeta), w1) ∧
    isopen (_h5file w) = true ∧
    nodes (_h5file w) !! join_path (_group w) tn = None ∧
    w' = {| _transforms := _transforms w1; _exclusions := _exclusions w;
            log := log w1;
            _schemas := <[tn := cols]> (_schemas w);
            _tables := <[tn := join_path (_group w) tn]> (_tables w);
            _h5file := put_node (join_path (_group w) tn)
                         (new_table version cs cols unitmeta) (_h5file w);
            _group := _group w |}.
Proof.
  unfold _setup_new_table, _create_hdf5_table_schema, log_debug. unfold_M.
  destruct (for_acc cs _ _ _) as [[[cols unitmeta]|e] w1] eqn:Hloop; [|done].
  apply schema_loop_frame in Hloop as Hframe.
  destruct Hframe as [Hfe Hfs Hft Hff Hfg _ _]; simpl in *.
  rewrite lookup_insert_eq.
  unfold on_h5file at 1, create_table. simpl. rewrite Hff, Hfg.
  destruct (isopen (_h5file w)) eqn:Hopen; [|done].
  destruct (nodes (_h5file w) !! join_path (_group w) tn) eqn:Hnode; [done |].
  destruct (decide (cols = ∅)) as [Hempty|Hcols]; [done |].
  rewrite set_attrs_loop with (tab := {| title := "Storage of " +:+ join "," (class_name <$> cs); description := cols; attrs := ∅; rows := [] |}); simpl; [| done | by rewrite lookup_insert_eq].
  intros [= <-]. exists cols, unitmeta, w1. repeat split; try done.
  unfold set_tables, set_h5file, set_schemas; simpl. f_equal; try congruence.
  pose proof (Table_set_attrs_other (map_to_list (update_meta (<["CTAPIPE_VERSION":=PyStr version]> unitmeta) cs))
    {| title := "Storage of " +:+ join "," (class_name <$> cs); description := cols; attrs := ∅; rows := [] |}) as (Ht & Hd & Hr).
  pose proof (Table_set_attrs_attrs (map_to_list (update_meta (<["CTAPIPE_VERSION":=PyStr version]> unitmeta) cs))
    {| title := "Storage of " +:+ join "," (class_name <$> cs); description := cols; attrs := ∅; rows := [] |}) as Ha.
  rewrite foldl_insert_map_to_list in Ha. simpl in *. rewrite (right_id_L ∅ (∪)) in Ha.
  destruct (foldl _ _ _); simpl in *. subst.
  unfold put_node, new_table; simpl. rewrite insert_insert_eq.
  destruct (_h5file w); simpl in *. by subst.
Qed.



Lemma apply_col_transform_eq tn colname raw w :
  _apply_col_transform tn colname raw w = (written w tn colname raw, w).
Proof.
  unfold _apply_col_transform, written. unfold_M.
  by destruct (_ !! colname).
Qed.


Lemma fill_row_state tn tab c l row0 w r w' :
  fill_row tn tab c l row0 w = (r, w') → w' = w.
Proof.
  apply (for_acc_frame (λ s s', s' = s)); [done | congruence |].
  intros colname row s r1 s1 _. unfold_M.
  destruct (getitem c colname); [| by intros [= _ <-]].
  rewrite apply_col_transform_eq. destruct (written _ _ _ _) as [v|]; [| by intros [= _ <-]].
  destruct (Row_setitem tab colname v); by intros [= _ <-].
Qed.

Lemma fill_row_lookup tn tab c l row0 w row w' :
  fill_row tn tab c l row0 w = (Ok row, w') →
  NoDup l →
  ∀ k,
    if decide (k ∈ l) then
      ∃ raw v cell,
        getitem c k = Ok raw ∧ written w tn k raw = Ok v ∧
        Row_setitem tab k v = Ok cell ∧ row !! k = Some cell
    else row !! k = row0 !! k.
Proof.
  unfold fill_row. revert row0 w. induction l as [|x l IH]; intros row0 w.
  - intros [= <- <-] _ k. by rewrite decide_False by apply not_elem_of_nil.
  - rewrite for_acc_cons. unfold_M.
    destruct (getitem c x) as [raw|] eqn:Hraw; [|done].
    rewrite apply_col_transform_eq.
    destruct (written w tn x raw) as [v|] eqn:Hv; [|done].
    destruct (Row_setitem tab x v) as [cell|] eqn:Hcell; [|done].
    intros Hl [Hx Hnd]%NoDup_cons k. specialize (IH _ _ Hl Hnd k).
    destruct (decide (k = x)) as [->|Hne].
    + rewrite decide_True by left. rewrite decide_False in IH by done.
      exists raw, v, cell. by rewrite IH, lookup_insert_eq.
    + destruct (decide (k ∈ l)) as [Hin|Hnin].
      * rewrite decide_True by (by right). done.
      * rewrite decide_False by (intros [?|?]%elem_of_cons; done).
        by rewrite IH, lookup_insert_ne.
Qed.

Lemma fill_row_dom tn tab c l row0 w row w' (d : gset string) :
  fill_row tn tab c l row0 w = (Ok row, w') →
  Forall (λ k, k ∈ d) l → dom row0 = d → dom row = d.
Proof.
  unfold fill_row. revert row0 w. induction l as [|x l IH]; intros row0 w.
  - by intros [= <- <-].
  - rewrite for_acc_cons. unfold_M.
    destruct (getitem c x) as [raw|] eqn:Hraw; [|done].
    rewrite apply_col_transform_eq.
    destruct (written w tn x raw) as [v|] eqn:Hv; [|done].
    destruct (Row_setitem tab x v) as [cell|] eqn:Hcell; [|done].
    intros Hl [Hx Hall]%Forall_cons Hdom. eapply IH; [done..|].
    rewrite dom_insert_L. set_solver.
Qed.

Lemma elem_of_colnames tab name : name ∈ colnames tab ↔ is_Some (description tab !! name).
Proof.
  unfold colnames. rewrite merge_sort_Permutation, list_elem_of_fmap. split.
  - intros ([k col] & -> & Hin%elem_of_map_to_list). by eexists.
  - intros [col Hcol]. exists (name, col). split; [done |]. by apply elem_of_map_to_list.
Qed.

Lemma append_row_ok tn cs w w' :
  _append_row tn cs w = (Ok tt, w') →
  ∃ table tab row,
    _tables w !! tn = Some table ∧
    isopen (_h5file w) = true ∧
    nodes (_h5file w) !! table = Some tab ∧
    for_acc cs (Table_row tab) (λ row container,
      fill_row tn tab container (filter (λ c, c ∈ colnames tab) (keys container)) row) w
      = (Ok row, w) ∧
    dom row = dom (description tab) ∧
    w' = set_h5file (put_node table (Table_append row tab) (_h5file w)) w.
Proof.
  unfold _append_row. unfold_M.
  destruct (_tables w !! tn) as [table|] eqn:Htable; [|done].
  unfold on_h5file at 1, get_node.
  destruct (isopen (_h5file w)) eqn:Hopen; [|done].
  destruct (nodes (_h5file w) !! table) as [tab|] eqn:Hnode; [|done].
  assert (set_h5file (_h5file w) w = w) as -> by (by destruct w).
  destruct (for_acc cs _ _ w) as [[row|] w1] eqn:Hloop; [|done].
  assert (w1 = w) as ->.
  { revert Hloop. apply (for_acc_frame (λ s s', s' = s)); [done | congruence |].
    intros c row1 s r s' _. apply fill_row_state. }
  unfold on_h5file. rewrite Hopen. intros [= <-].
  exists table, tab, row. repeat split; try done.
  revert Hloop.
  apply (for_acc_invariant (λ row _, dom row = dom (description tab))).
  - intros c row1 s row2 s' _ Hdom Hfill.
    eapply fill_row_dom; [exact Hfill | | done].
    apply Forall_forall. intros k [Hk _]%list_elem_of_filter.
    apply elem_of_colnames in Hk. by apply elem_of_dom.
  - unfold Table_row. by rewrite dom_fmap_L.
Qed.







Lemma join_path_inj group tn1 tn2 : join_path group tn1 = join_path group tn2 → tn1 = tn2.
Proof.
  unfold join_path. destruct (String.eqb group "/").
  - apply app_string_inj_r.
  - intros Heq%app_string_inj_r. by apply app_string_inj_r in Heq.
Qed.

Lemma init_count_app tn l1 l2 :
  init_count tn (l1 ++ l2) = (init_count tn l1 + init_count tn l2)%nat.
Proof. unfold init_count. by rewrite filter_app, length_app. Qed.

Lemma init_count_not_init tn extra :
  Forall (λ r, is_init r = false) extra → init_count tn extra = 0%nat.
Proof.
  unfold init_count. induction 1 as [|r extra Hr _ IH]; [done |].
  rewrite filter_cons. case_decide; [by subst r | done].
Qed.

Lemma init_count_extends tn l l' : log_extends l l' → init_count tn l' = init_count tn l.
Proof.
  intros (extra & -> & Hextra). rewrite init_count_app, (init_count_not_init tn extra) by done. lia.
Qed.

Lemma init_count_singleton tn tn' :
  init_count tn [DebugInitializingTable tn'] = if decide (tn' = tn) then 1%nat else 0%nat.
Proof.
  unfold init_count. rewrite filter_cons, filter_nil.
  repeat case_decide; simplify_eq; done.
Qed.


Lemma table_at_put_node w path tab tn :
  table_at (set_h5file (put_node path tab (_h5file w)) w) tn =
  if decide (path = join_path (_group w) tn) then Some tab else table_at w tn.
Proof. unfold table_at. simpl. apply lookup_insert. Qed.

Lemma write_ok version tn cs w w' :
  write version tn cs w = (Ok tt, w') → consistent w →
  consistent w' ∧ _group w' = _group w ∧ _exclusions w' = _exclusions w ∧
  (∀ tn', tn' ≠ tn →
     _schemas w' !! tn' = _schemas w !! tn' ∧
     _transforms w' !! tn' = _transforms w !! tn' ∧
     table_at w' tn' = table_at w tn') ∧
  ∃ tab row,
    table_at w' tn = Some (Table_append row tab) ∧
    dom row = dom (description tab) ∧
    _schemas w' !! tn = Some (description tab) ∧
    match _schemas w !! tn with
    | Some _ =>
        table_at w tn = Some tab ∧ _schemas w' = _schemas w ∧
        _transforms w' = _transforms w ∧ log w' = log w
    | None =>
        table_at w tn = None ∧ rows tab = [] ∧
        log_extends (log w ++ [DebugInitializingTable tn]) (log w')
    end.
Proof.
  intros Hwrite [Htables Hnodes Hlog].
  unfold write in Hwrite. unfold_M.
  destruct (_schemas w !! tn) as [sch|] eqn:Hsch.
  - rewrite bool_decide_eq_true_2 in Hwrite by done.
    apply append_row_ok in Hwrite as (table & tab & row & Htable & Hopen & Hnode & _ & Hdom & ->).
    rewrite Htables, Hsch in Htable. injection Htable as <-.
    destruct (Hnodes _ _ Hsch) as (tab' & Htab' & Hdescr).
    assert (tab' = tab) as -> by (unfold table_at in Htab'; congruence).
    split; [split |]; simpl.
    + done.
    + intros tn' sch' Hsch'. rewrite table_at_put_node. case_decide as Hp.
      * apply join_path_inj in Hp as <-. eexists. split; [done |]. simpl. congruence.
      * by apply Hnodes.
    + done.
    + repeat split; try done.
      * rewrite table_at_put_node. rewrite decide_False; [done |].
        intros Hp%join_path_inj. congruence.
      * exists tab, row. rewrite table_at_put_node, decide_True by done.
        repeat split; try done. congruence.
  - rewrite bool_decide_eq_false_2 in Hwrite by (by intros [? ?]).
    destruct (_setup_new_table version tn (arg_list cs) w) as [[[]|e] w1] eqn:Hsetup.
    2: { destruct cs; simpl in *; rewrite Hsetup in Hwrite; done. }
    assert (_append_row tn (arg_list cs) w1 = (Ok tt, w')) as Happ.
    { destruct cs; simpl in *; by rewrite Hsetup in Hwrite. }
    clear Hwrite.
    apply setup_new_table_ok in Hsetup
      as (cols & unitmeta & w0 & Hloop & Hopen & Hfree & ->).
    apply schema_loop_frame in Hloop as [Hfe Hfs Hft Hff Hfg Hftr Hfl]; simpl in *.
    apply append_row_ok in Happ
      as (table & tab & row & Htable & _ & Hnode & _ & Hdom & ->); simpl in *.
    rewrite lookup_insert_eq in Htable. injection Htable as <-.
    rewrite lookup_insert_eq in Hnode. injection Hnode as <-.
    split; [split |]; simpl.
    + intros tn'. destruct (decide (tn' = tn)) as [->|Hne].
      * by rewrite !lookup_insert_eq.
      * by rewrite !lookup_insert_ne.
    + intros tn' sch'. unfold table_at; simpl. rewrite insert_insert_eq.
      destruct (decide (tn' = tn)) as [->|Hne].
      * rewrite !lookup_insert_eq. intros [= <-]. by eexists.
      * rewrite lookup_insert_ne by done.
        rewrite lookup_insert_ne by (intros Hp%join_path_inj; congruence).
        apply Hnodes.
    + intros tn'. rewrite (init_count_extends _ _ _ Hfl), init_count_app, Hlog.
      rewrite init_count_singleton.
      destruct (decide (tn' = tn)) as [->|Hne].
      * rewrite lookup_insert_eq, Hsch, decide_True; done.
      * rewrite lookup_insert_ne, decide_False by done. lia.
    + repeat split; try done.
      * by rewrite lookup_insert_ne.
      * rewrite Hftr; [done | congruence].
      * unfold table_at; simpl. rewrite insert_insert_eq.
        rewrite lookup_insert_ne; [done |]. intros Hp%join_path_inj; congruence.
      * exists (new_table version (arg_list cs) cols unitmeta), row.
        unfold table_at; simpl. rewrite insert_insert_eq, !lookup_insert_eq.
        repeat split; done.
Qed.




Lemma write_all_app version calls1 calls2 w w2 :
  write_all version (calls1 ++ calls2) w = (Ok tt, w2) →
  ∃ w1, write_all version calls1 w = (Ok tt, w1) ∧
        write_all version calls2 w1 = (Ok tt, w2).
Proof.
  unfold write_all. revert w. induction calls1 as [|call calls1 IH]; intros w; simpl.
  - intros Hw. by exists w.
  - unfold_M. destruct (write _ _ _ w) as [[[]|e] w0]; [|done]. apply IH.
Qed.

Lemma write_all_ok version calls w w' :
  write_all version calls w = (Ok tt, w') → consistent w →
  consistent w' ∧ _group w' = _group w ∧
  ∀ tn,
    (is_Some (_schemas w' !! tn) ↔ is_Some (_schemas w !! tn) ∨ tn ∈ calls.*1) ∧
    (is_Some (_schemas w !! tn) →
       _schemas w' !! tn = _schemas w !! tn ∧
       _transforms w' !! tn = _transforms w !! tn ∧
       ∃ tab tab', table_at w tn = Some tab ∧ table_at w' tn = Some tab' ∧
                   grown (calls_to tn calls) tab tab').
Proof.
  unfold write_all. revert w. induction calls as [|[tn0 cs] calls IH]; intros w.
  - intros [= <-] Hc. split; [done |]. split; [done |]. intros tn. split.
    + split; [intros ?; by left | by intros [? | ?%elem_of_nil]].
    + intros [sch Hsch]. destruct (c_nodes _ Hc _ _ Hsch) as (tab & Htab & _).
      split; [done |]. split; [done |].
      exists tab, tab. repeat split; try done. exists []. by rewrite app_nil_r.
  - rewrite for_cons. simpl.
    destruct (write version tn0 cs w) as [[[]|e] w1] eqn:Hw1; [|done].
    intros Hrest Hc.
    apply write_ok in Hw1
      as (Hc1 & Hg1 & _ & Hother & tab0 & row & Htab0 & Hdom0 & Hsch0 & Hcase);
      [| done].
    destruct (IH _ Hrest Hc1) as (Hc' & Hg' & Hall).
    split; [done |]. split; [congruence |]. intros tn.
    destruct (Hall tn) as [Hiff Hknown]. unfold calls_to. rewrite filter_cons. simpl.
    destruct (decide (tn0 = tn)) as [->|Hne].
    + split.
      * rewrite Hiff. split; [intros [?|?]; right; [left | by right] |].
        intros _. left. by eexists.
      * intros [sch Hsch]. rewrite Hsch in Hcase.
        destruct Hcase as (Htab & Hs & Ht & _).
        destruct Hknown as (Hs' & Ht' & tab1 & tab' & Htab1 & Htab' & Hgrown);
          [by eexists |].
        rewrite Hs', Ht', Hs, Ht. repeat split; try done.
        rewrite Htab0 in Htab1. injection Htab1 as <-.
        exists tab0, tab'. repeat split; try done; try apply Hgrown.
        destruct Hgrown as (_ & _ & _ & more & Hrows & Hlen & Hdoms). simpl in Hrows, Hdoms.
        exists (row :: more). rewrite Hrows, <- app_assoc. simpl. rewrite Hlen.
        repeat split; try done. by constructor.
    + destruct (Hother tn) as (Hs & Ht & Htab); [done |].
      split.
      * rewrite Hiff, Hs. split; intros [?|Hin]; auto.
        -- right. by right.
        -- apply elem_of_cons in Hin as [?|?]; [done | by right].
      * intros Hsome. rewrite <- Hs in Hsome.
        destruct (Hknown Hsome) as (Hs' & Ht' & tab1 & tab' & Htab1 & Htab' & Hgrown).
        rewrite Hs', Ht', Hs, Ht. repeat split; try done.
        exists tab1, tab'. by rewrite <- Htab.
Qed.

Lemma init_consistent filename group_name w0 :
  __init__ filename group_name = Ok w0 → consistent w0 ∧ _schemas w0 = ∅.
Proof.
  unfold __init__, create_group. simpl. intros [= <-]. by split; [split |].
Qed.


Lemma excluded_frame tn n w w' name :
  schema_frame tn n w w' → excluded w' tn name = excluded w tn name.
Proof. intros [He _ _ _ _ _ _ _]. unfold excluded. by rewrite He. Qed.

(** The derivation over the fields [l] of one container, name by name. *)
Lemma schema_items_exact tn c (l : list (string * (Field * pyval))) cols0 meta0 w cols meta w' :
  for_acc ((λ kv, (kv.1, kv.2.2)) <$> l) (cols0, meta0) (schema_column tn c) w
    = (Ok (cols, meta), w') →
  NoDup l.*1 →
  (∀ name fv, (name, fv) ∈ l → fields_get c name = Ok fv.1) →
  (∀ k, (∀ name, name ∈ l.*1 → k ≠ name +:+ "_UNIT") → meta !! k = meta0 !! k) ∧
  ∀ name,
    match assoc name l with
    | None =>
        cols !! name = cols0 !! name ∧
        (_transforms w' !!! tn) !! name = (_transforms w !!! tn) !! name
    | Some (field, v) =>
        column_outcome (excluded w tn name) field v
          (cols0 !! name) (cols !! name)
          (meta0 !! (name +:+ "_UNIT")) (meta !! (name +:+ "_UNIT"))
          ((_transforms w !!! tn) !! name) ((_transforms w' !!! tn) !! name)
    end.
Proof.
  revert cols0 meta0 w. induction l as [|[n [field v]] l IH]; intros cols0 meta0 w.
  - intros [= <- <- <-]. done.
  - rewrite fmap_cons, for_acc_cons. cbn [fst snd].
    destruct (schema_column tn c (cols0, meta0) (n, v) w) as [[[cols1 meta1]|e] w1] eqn:Hstep;
      [|done].
    intros Hrest [Hn Hnd]%NoDup_cons Hfields.
    assert (fields_get c n = Ok field) as Hf by (apply (Hfields n (field, v)); left).
    destruct (schema_column_spec _ _ _ _ _ _ _ _ _ _ Hf Hstep) as (Hframe & Hcols & Hmeta & Hout).
    destruct (IH _ _ _ Hrest Hnd) as [IHmeta IHname].
    { intros name fv Hin. apply Hfields. by right. }
    split.
    + intros k Hk. rewrite IHmeta.
      * apply Hmeta, Hk. left.
      * intros name Hin. apply Hk. by right.
    + intros name. specialize (IHname name). simpl. case_decide as Hname.
      * subst n. rewrite assoc_None in IHname by done.
        destruct IHname as [-> ->]. rewrite IHmeta; [done |].
        intros name' Hin ?%app_string_inj_l. by subst.
      * destruct Hframe as [_ _ _ _ _ _ Hcol _].
        destruct (assoc name l) as [[field' v']|] eqn:Hassoc.
        -- rewrite <- Hcols, <- Hmeta, <- Hcol by (try done; intros ?%app_string_inj_l; done).
           rewrite <- (excluded_frame tn n w w1 name); [done |].
           by destruct (schema_column_spec _ _ _ _ _ _ _ _ _ _ Hf Hstep).
        -- destruct IHname as [-> ->]. by rewrite Hcols, Hcol.
Qed.


Lemma slot_lookup c name field v :
  NoDup (keys c) → (name, (field, v)) ∈ slots c →
  fields_get c name = Ok field ∧ getitem c name = Ok v.
Proof.
  intros Hnd Hin. unfold fields_get, getitem.
  by rewrite (assoc_NoDup _ _ _ Hnd Hin).
Qed.


(** The first write of one record to a table: the table it creates and
    the row it appends. *)
Lemma first_write_one version tn c w w' :
  write version tn (One c) w = (Ok tt, w') →
  _schemas w !! tn = None →
  NoDup (keys c) →
  ∃ cols unitmeta row,
    table_at w' tn =
      Some {| title := "Storage of " +:+ join "," [class_name c];
              description := cols;
              attrs := meta c ∪ <["CTAPIPE_VERSION" := PyStr version]> unitmeta;
              rows := [row] |} ∧
    _schemas w' !! tn = Some cols ∧
    _exclusions w' = _exclusions w ∧
    (∀ k, (∀ name, name ∈ keys c → k ≠ name +:+ "_UNIT") → unitmeta !! k = None) ∧
    (∀ name,
       match assoc name (slots c) with
       | None => cols !! name = None
       | Some (field, v) =>
           column_outcome (excluded w tn name) field v
             None (cols !! name) None (unitmeta !! (name +:+ "_UNIT"))
             ((_transforms w !!! tn) !! name) ((_transforms w' !!! tn) !! name)
       end) ∧
    (∀ name,
       match assoc name (slots c), cols !! name with
       | Some (field, v), Some col =>
           ∃ out cell,
             written w' tn name v = Ok out ∧ cell_cast col out = Ok cell ∧
             row !! name = Some cell
       | _, _ => row !! name = default_cell <$> cols !! name
       end).
Proof.
  intros Hwrite Hnew Hnd. unfold write in Hwrite. cbv beta iota zeta in Hwrite.
  unfold_M. rewrite Hnew in Hwrite.
  rewrite bool_decide_eq_false_2 in Hwrite by (by intros [? ?]).
  destruct (_setup_new_table version tn [c] w) as [[[]|e] w1] eqn:Hsetup; [|done].
  apply setup_new_table_ok in Hsetup as (cols & unitmeta & w0 & Hloop & Hopen & Hfree & ->).
  apply append_row_ok in Hwrite
    as (table & tab & row & Htable & _ & Hnode & Hrow & Hdom & ->);
    simpl in Htable, Hnode.
  rewrite lookup_insert_eq in Htable. injection Htable as <-.
  rewrite lookup_insert_eq in Hnode. injection Hnode as <-.
  rewrite for_acc_cons in Hloop. rewrite for_acc_cons in Hrow.
  cbn [for_acc] in Hloop, Hrow.
  unfold M_ret in Hloop, Hrow.
  destruct (for_acc (items c) _ _ _) as [[[cols1 meta1]|e] w2] eqn:Hitems; [|done].
  injection Hloop as -> -> ->.
  apply schema_loop_frame_items in Hitems as Hframe.
  destruct Hframe as [Hfe _ _ _ _ _ _].
  destruct (schema_items_exact _ _ _ _ _ _ _ _ _ Hitems Hnd) as [Hmeta Hnames].
  { intros name [field v] Hin. by destruct (slot_lookup _ _ _ _ Hnd Hin). }
  exists cols, unitmeta, row.
  split; [| split; [| split; [| split; [| split]]]].
  - unfold table_at; simpl. by rewrite insert_insert_eq, lookup_insert_eq.
  - simpl. by rewrite lookup_insert_eq.
  - done.
  - intros k Hk. rewrite Hmeta; [done |]. intros name Hin. apply Hk.
    unfold keys. done.
  - intros name. specialize (Hnames name).
    destruct (assoc name (slots c)) as [[field v]|]; simpl in *.
    + unfold excluded in *. simpl in *. rewrite lookup_empty in Hnames. apply Hnames.
    + by destruct Hnames as [-> _].
  - intros name.
    match type of Hrow with
    | (let (_, _) := ?f in _) = _ => destruct f as [[row1|] w3] eqn:Hfill; [|done]
    end.
    injection Hrow as -> ->.
    pose proof (fill_row_lookup _ _ _ _ _ _ _ _ Hfill) as Hlook.
    specialize (Hlook (NoDup_filter _ _ Hnd) name).
    destruct (assoc name (slots c)) as [[field v]|] eqn:Hassoc.
    + apply assoc_elem_of in Hassoc as Hin.
      destruct (cols !! name) as [col|] eqn:Hcol.
      * rewrite decide_True in Hlook.
        2: { apply list_elem_of_filter. split.
             - apply elem_of_colnames. simpl. by rewrite Hcol.
             - apply list_elem_of_fmap. by exists (name, (field, v)). }
        destruct Hlook as (raw & out & cell & Hraw & Hout & Hcell & Hlook).
        destruct (slot_lookup _ _ _ _ Hnd Hin) as [_ Hget]. rewrite Hget in Hraw.
        injection Hraw as <-. exists out, cell.
        unfold Row_setitem in Hcell. simpl in Hcell. by rewrite Hcol in Hcell.
      * rewrite decide_False in Hlook.
        2: { intros [Hcn _]%list_elem_of_filter. apply elem_of_colnames in Hcn.
             simpl in Hcn. rewrite Hcol in Hcn. by destruct Hcn. }
        rewrite Hlook. unfold Table_row. simpl. by rewrite lookup_fmap, Hcol.
    + rewrite decide_False in Hlook.
      2: { intros [_ Hk]%list_elem_of_filter. apply assoc_is_Some in Hk.
           rewrite Hassoc in Hk. by destruct Hk. }
      rewrite Hlook. unfold Table_row. simpl. rewrite lookup_fmap.
      by destruct (cols !! name).
Qed.

End writer_lemmas.

Section reader_lemmas.
Context `{AstropyUnits}.
Import HDF5TableReader.



Lemma reader_apply_col_transform_eq tn colname cell w :
  _apply_col_transform tn colname cell w =
  (match (_transforms (self w) !!! tn) !! colname with
   | Some tr => tr cell
   | None => Ok cell
   end, w).
Proof.
  unfold _apply_col_transform. unfold_M. by destruct (_ !! colname).
Qed.

Lemma assoc_set_slot_eq name value l :
  assoc name (set_slot name value l) = (λ fv, (fv.1, value)) <$> assoc name l.
Proof.
  induction l as [|[k fv] l IH]; simpl; [done |].
  case_decide; simpl; [by rewrite decide_True | by rewrite decide_False].
Qed.

Lemma assoc_set_slot_ne name name' value l :
  name ≠ name' → assoc name' (set_slot name value l) = assoc name' l.
Proof.
  intros Hne. induction l as [|[k fv] l IH]; simpl; [done |].
  case_decide; simpl.
  - subst k. by rewrite !decide_False.
  - case_decide; [done | apply IH].
Qed.

Lemma set_slot_keys name value l : (set_slot name value l).*1 = l.*1.
Proof.
  induction l as [|[k fv] l IH]; [done |].
  cbn [set_slot]. case_decide; [done |]. rewrite !fmap_cons. by f_equal.
Qed.

(** What an assignment to a field leaves of the container. *)
Lemma setitem_Ok c name value c' :
  setitem c name value = Ok c' →
  getitem c' name = Ok value ∧
  (∀ name', name ≠ name' → getitem c' name' = getitem c name') ∧
  meta c' = meta c ∧ class_name c' = class_name c ∧ keys c' = keys c ∧
  (∀ n, fields_contains c' n = fields_contains c n).
Proof.
  unfold setitem. destruct (assoc name (slots c)) as [fv|] eqn:Hfv; [| done].
  intros [= <-]. unfold getitem, keys, fields_contains. simpl.
  split; [by rewrite assoc_set_slot_eq, Hfv |].
  split; [intros name' Hne; by rewrite assoc_set_slot_ne |].
  split; [done |]. split; [done |]. split; [apply set_slot_keys |].
  intros n. destruct (decide (name = n)) as [<-|Hne].
  - by rewrite assoc_set_slot_eq, Hfv.
  - by rewrite assoc_set_slot_ne.
Qed.

Lemma setitem_is_Ok c name value :
  fields_contains c name = true → is_Ok (setitem c name value).
Proof.
  unfold fields_contains, setitem. intros [fv Hfv]%bool_decide_eq_true.
  rewrite Hfv. by eexists.
Qed.

Lemma setitem_Raise c name value e :
  setitem c name value = Raise e → fields_contains c name = false ∧ e = AttributeError name.
Proof.
  unfold fields_contains, setitem. destruct (assoc name (slots c)) eqn:Hfv; [done |].
  intros [= <-]. split; [| done]. apply bool_decide_eq_false. by intros [? ?].
Qed.

Lemma getitem_setitem_eq c name value c' :
  setitem c name value = Ok c' → getitem c' name = Ok value.
Proof. by intros (? & _)%setitem_Ok. Qed.

Lemma getitem_setitem_ne c name name' value c' :
  setitem c name value = Ok c' → name ≠ name' → getitem c' name' = getitem c name'.
Proof. intros (_ & Hne & _)%setitem_Ok. apply Hne. Qed.

Lemma fill_loop_ok g row cols r h c' :
  filled r (table_name g) row cols (h !!! container g) = Ok c' →
  for_ cols (λ colname,
    let* cell := lift (match row !! colname with
                       | Some cell => Ok cell
                       | None => Raise (KeyError colname)
                       end) in
    let* value := _apply_col_transform (table_name g) colname cell in
    Container_setitem (container g) colname value)
    {| self := r; heap := h |} =
  (Ok tt, {| self := r; heap := if cols is [] then h else <[container g := c']> h |}).
Proof.
  revert h. induction cols as [|col cols IH]; intros h; simpl.
  - done.
  - unfold read_value. unfold_M. unfold Container_setitem.
    destruct (row !! col) as [cell|]; [|done].
    rewrite reader_apply_col_transform_eq. simpl.
    destruct (match _ !! col with Some tr => tr cell | None => Ok cell end) as [value|];
      [|done].
    destruct (setitem (h !!! container g) col value) as [c1|] eqn:Hset; [|done].
    intros Hfilled.
    rewrite IH by (by rewrite lookup_total_insert_eq).
    destruct cols; simpl in *; [by injection Hfilled as -> |].
    by rewrite insert_insert_eq.
Qed.

Lemma filled_meta r tn row cols c c' :
  filled r tn row cols c = Ok c' → meta c' = meta c ∧ class_name c' = class_name c.
Proof.
  revert c. induction cols as [|col cols IH]; intros c; simpl.
  - by intros [= ->].
  - destruct (read_value r tn row col) as [value|]; [|done].
    destruct (setitem c col value) as [c1|] eqn:Hset; [|done].
    apply setitem_Ok in Hset as (_ & _ & Hm & Hn & _).
    intros [-> ->]%IH. done.
Qed.

Lemma filled_fields r tn row cols c c' :
  filled r tn row cols c = Ok c' →
  keys c' = keys c ∧ ∀ n, fields_contains c' n = fields_contains c n.
Proof.
  revert c. induction cols as [|col cols IH]; intros c; simpl.
  - by intros [= ->].
  - destruct (read_value r tn row col) as [value|]; [|done].
    destruct (setitem c col value) as [c1|] eqn:Hset; [|done].
    apply setitem_Ok in Hset as (_ & _ & _ & _ & Hk & Hf).
    intros [-> Hf']%IH. split; [done |]. intros n. by rewrite Hf', Hf.
Qed.

Lemma filled_getitem_other r tn row cols c c' name :
  filled r tn row cols c = Ok c' → name ∉ cols → getitem c' name = getitem c name.
Proof.
  revert c. induction cols as [|col cols IH]; intros c; simpl.
  - by intros [= ->].
  - destruct (read_value r tn row col) as [value|]; [|done].
    destruct (setitem c col value) as [c1|] eqn:Hset; [|done].
    intros Hf [Hne Hnot]%not_elem_of_cons. rewrite (IH _ Hf Hnot).
    by apply (getitem_setitem_ne _ _ _ _ _ Hset).
Qed.

Lemma filled_getitem r tn row cols c c' name :
  filled r tn row cols c = Ok c' → name ∈ cols →
  getitem c' name = read_value r tn row name ∧ is_Ok (read_value r tn row name).
Proof.
  revert c. induction cols as [|col cols IH]; intros c; simpl.
  - by intros _ ?%elem_of_nil.
  - destruct (read_value r tn row col) as [value|] eqn:Hvalue; [|done].
    destruct (setitem c col value) as [c1|] eqn:Hset; [|done].
    intros Hf Hin. destruct (decide (name ∈ cols)) as [Hcols|Hcols]; [by eapply IH |].
    apply elem_of_cons in Hin as [->|?]; [|done].
    rewrite (filled_getitem_other _ _ _ _ _ _ _ Hf Hcols).
    rewrite (getitem_setitem_eq _ _ _ _ Hset), Hvalue.
    split; [done | by eexists].
Qed.

(** Assignments that all succeed, to fields of the container, give a
    filled container. *)
Lemma filled_is_Ok r tn row cols c :
  (∀ col, col ∈ cols → is_Ok (read_value r tn row col)) →
  (∀ col, col ∈ cols → fields_contains c col = true) →
  is_Ok (filled r tn row cols c).
Proof.
  revert c. induction cols as [|col cols IH]; intros c Hall Hfields; simpl.
  - by eexists.
  - destruct (Hall col) as [value ->]; [left |].
    destruct (setitem_is_Ok c col value) as [c1 Hset]; [apply Hfields; left |].
    rewrite Hset. apply setitem_Ok in Hset as (_ & _ & _ & _ & _ & Hf).
    apply IH.
    + intros. apply Hall. by right.
    + intros col' Hcol'. rewrite Hf. apply Hfields. by right.
Qed.

Lemma iterate_suspended fuel g tab n w :
  gi_frame g = Suspended tab n →
  iterate (S fuel) g w = resume fuel g tab (n + 1) w.
Proof. intros Hg. unfold resume. simpl. unfold next. by rewrite Hg. Qed.

Lemma iterate_not_started fuel g w tab w1 :
  gi_frame g = NotStarted →
  read_prologue g w = (Ok tab, w1) →
  iterate (S fuel) g w = resume fuel g tab 0 w1.
Proof. intros Hg Hp. unfold resume. simpl. unfold next. by rewrite Hg, Hp. Qed.

Lemma read_loop_yield g tab n w T row c c' :
  get_node tab (_h5file (self w)) = Ok T →
  rows T !! n = Some row →
  heap w !! container g = Some c →
  filled (self w) (table_name g) row (_cols_to_read (self w) !!! table_name g) c = Ok c' →
  read_loop g tab n w =
  (Yield (container g), with_frame (Suspended tab n) g,
   {| self := self w; heap := <[container g := c']> (heap w) |}).
Proof.
  intros HT Hrow Hc Hfilled. unfold read_loop, read_row, Table_getitem.
  rewrite HT, Hrow. unfold fill_container. unfold M_bind at 1. unfold gets.
  destruct w as [r h]. simpl in *.
  rewrite (fill_loop_ok g row _ r h c').
  2: { by rewrite (lookup_total_correct _ _ _ Hc). }
  destruct (_cols_to_read r !!! table_name g) eqn:Hcols; [|done].
  simpl in Hfilled. injection Hfilled as <-. by rewrite insert_id.
Qed.

Lemma read_loop_stop g tab n w T :
  get_node tab (_h5file (self w)) = Ok T →
  rows T !! n = None →
  read_loop g tab n w = (StopIteration, with_frame Finished g, w).
Proof.
  intros HT Hrow. unfold read_loop, read_row, Table_getitem. by rewrite HT, Hrow.
Qed.

Lemma resume_rows fuel g tab T done_ rest w c :
  get_node tab (_h5file (self w)) = Ok T →
  rows T = done_ ++ rest →
  heap w !! container g = Some c →
  (∀ row col, row ∈ rest → col ∈ _cols_to_read (self w) !!! table_name g →
     is_Ok (read_value (self w) (table_name g) row col)) →
  (∀ col, col ∈ _cols_to_read (self w) !!! table_name g → fields_contains c col = true) →
  (length rest ≤ fuel)%nat →
  let cs := replay (self w) (table_name g)
              (_cols_to_read (self w) !!! table_name g) rest c in
  length cs = length rest ∧
  resume fuel g tab (length done_) w =
  Some {| yielded := (λ c', (container g, c')) <$> cs;
          error := None;
          final := {| self := self w;
                      heap := <[container g := default c (last cs)]> (heap w) |} |}.
Proof.
  revert fuel g done_ w c. induction rest as [|row rest IH];
    intros fuel g done_ w c HT Hrows Hc Hall Hfields Hfuel; simpl.
  - split; [done |]. unfold resume. rewrite (read_loop_stop _ _ _ _ T); [| done |].
    + rewrite insert_id by done. by destruct w.
    + rewrite Hrows, app_nil_r. by apply lookup_ge_None.
  - destruct (filled_is_Ok (self w) (table_name g) row
               (_cols_to_read (self w) !!! table_name g) c) as [c' Hc'].
    { intros col Hcol. apply Hall; [left | done]. }
    { done. }
    rewrite Hc'. destruct fuel as [|fuel]; [simpl in Hfuel; lia |].
    unfold resume. rewrite (read_loop_yield _ _ _ _ T row c c'); try done.
    2: { rewrite Hrows. by rewrite list_lookup_middle. }
    rewrite (iterate_suspended _ _ tab (length done_)) by done.
    replace (length done_ + 1)%nat with (length (done_ ++ [row])) by (rewrite length_app; simpl; lia).
    destruct (IH fuel (with_frame (Suspended tab (length done_)) g) (done_ ++ [row])
                {| self := self w; heap := <[container g := c']> (heap w) |} c')
      as [Hlen Hres]; simpl; try done.
    + by rewrite <- app_assoc.
    + by rewrite lookup_insert_eq.
    + intros. apply Hall; [by right | done].
    + intros col Hcol. destruct (filled_fields _ _ _ _ _ _ Hc') as [_ ->]. by apply Hfields.
    + simpl in Hfuel. lia.
    + simpl in *. rewrite Hres. split; [by rewrite Hlen |].
      rewrite lookup_total_insert_eq, insert_insert_eq. simpl. do 3 f_equal.
      f_equal. rewrite (last_cons c'). by destruct (last _).
Qed.



Lemma on_self_eq f w : on_self f w = (Ok tt, {| self := f (self w); heap := heap w |}).
Proof. reflexivity. Qed.

Lemma log_warn_eq r w :
  log_warn r w =
  (Ok tt, {| self := set_log (log (self w) ++ [r]) (self w); heap := heap w |}).
Proof. reflexivity. Qed.

Lemma cols_loop tn c (l : list string) w :
  ∃ w',
    for_ l (λ colname,
      if fields_contains c colname then
        on_self (λ r,
          set_cols_to_read
            (<[tn := (_cols_to_read r !!! tn) ++ [colname]]> (_cols_to_read r)) r)
      else log_warn (WarnColumnNotInContainer tn colname (class_name c))) w =
    (Ok tt, w') ∧
    heap w' = heap w ∧
    _transforms (self w') = _transforms (self w) ∧
    _tables (self w') = _tables (self w) ∧
    _h5file (self w') = _h5file (self w) ∧
    (∀ tn', tn' ≠ tn → _cols_to_read (self w') !! tn' = _cols_to_read (self w) !! tn') ∧
    _cols_to_read (self w') !!! tn =
      (_cols_to_read (self w) !!! tn) ++ filter (λ col, fields_contains c col) l.
Proof.
  revert w. induction l as [|col l IH]; intros w.
  - exists w. repeat split; try done. by rewrite app_nil_r.
  - rewrite for_cons, filter_cons. destruct (fields_contains c col) eqn:Hcol.
    + rewrite decide_True by done.
      rewrite on_self_eq.
      match goal with
      | |- ∃ _, for_ _ _ ?w1 = _ ∧ _ =>
          destruct (IH w1) as (w' & -> & Hh & Ht & Hta & Hf & Hother & Hcols)
      end.
      exists w'. simpl in *. repeat split; try done.
      * intros tn' Hne. rewrite Hother by done. by rewrite lookup_insert_ne.
      * by rewrite Hcols, lookup_total_insert_eq, <- app_assoc.
    + rewrite decide_False by (by intros []).
      rewrite log_warn_eq.
      match goal with
      | |- ∃ _, for_ _ _ ?w1 = _ ∧ _ =>
          destruct (IH w1) as (w' & -> & Hh & Ht & Hta & Hf & Hother & Hcols)
      end.
      exists w'. by repeat split.
Qed.

Lemma warn_step tn c col w :
  (let* cols := gets (λ w, _cols_to_read (self w) !!! tn) in
   if bool_decide (col ∈ cols) then M_ret tt
   else log_warn (WarnMissingColumn tn col (class_name c))) w =
  (Ok tt,
   if bool_decide (col ∈ _cols_to_read (self w) !!! tn) then w
   else {| self := set_log (log (self w) ++ [WarnMissingColumn tn col (class_name c)])
                     (self w);
           heap := heap w |}).
Proof. unfold M_bind, gets. by destruct (bool_decide _). Qed.

Lemma warn_loop tn c (l : list string) w :
  ∃ w',
    for_ l (λ colname,
      let* cols := gets (λ w, _cols_to_read (self w) !!! tn) in
      if bool_decide (colname ∈ cols) then M_ret tt
      else log_warn (WarnMissingColumn tn colname (class_name c))) w =
    (Ok tt, w') ∧ heap w' = heap w ∧ same_but_log (self w) (self w').
Proof.
  revert w. induction l as [|col l IH]; intros w.
  - exists w. by repeat split.
  - rewrite for_cons. cbv beta. rewrite warn_step.
    match goal with
    | |- ∃ _, for_ _ _ ?w1 = _ ∧ _ => destruct (IH w1) as (w' & -> & Hh & Hs)
    end.
    exists w'. split; [done |]. destruct (bool_decide _); [done |].
    split; [done |]. apply Hs.
Qed.

Lemma meta_loop cref c (l : list (string * pyval)) w :
  heap w !! cref = Some c →
  for_ l (λ kv, on_container cref (λ c, meta_set c kv.1 kv.2)) w =
  (Ok tt,
   {| self := self w;
      heap := <[cref := {| class_name := class_name c; slots := slots c;
                           meta := foldl (λ acc kv, <[kv.1 := kv.2]> acc) (meta c) l |}]>
                (heap w) |}).
Proof.
  revert w c. induction l as [|kv l IH]; intros w c Hc.
  - simpl. unfold M_ret. rewrite insert_id; [by destruct w | by destruct c].
  - rewrite for_cons. unfold on_container at 1, modify.
    rewrite (IH _ (meta_set c kv.1 kv.2)); simpl.
    + by rewrite insert_insert_eq.
    + by rewrite lookup_insert_eq, (lookup_total_correct _ _ _ Hc).
Qed.

Lemma drop_last_UNIT p : drop_last 5 (p +:+ "_UNIT") = p.
Proof. exact (drop_last_app p "_UNIT"). Qed.

Lemma endswith_drop_last attr :
  endswith attr "_UNIT" = true → attr = drop_last 5 attr +:+ "_UNIT".
Proof. intros [p ->]%endswith_split. by rewrite drop_last_UNIT. Qed.

Lemma add_column_transform_eq tn col tr w :
  add_column_transform tn col tr w =
  (Ok tt,
   {| self :=
        set_log (log (self w) ++ [DebugAddedTransform tn col])
          (set_transforms
             (<[tn := <[col := tr]> (_transforms (self w) !!! tn)]> (_transforms (self w)))
             (self w));
      heap := heap w |}).
Proof. reflexivity. Qed.

Lemma header_loop tn (l : list (string * pyval)) w :
  NoDup l.*1 →
  ∃ w',
    for_ l (λ kv,
      let '(attr, unitname) := kv in
      if endswith attr "_UNIT" then
        let colname := drop_last 5 attr in
        add_column_transform tn colname (λ value, tr_add_unit value unitname)
      else M_ret tt) w = (Ok tt, w') ∧
    heap w' = heap w ∧
    _cols_to_read (self w') = _cols_to_read (self w) ∧
    _tables (self w') = _tables (self w) ∧
    _h5file (self w') = _h5file (self w) ∧
    (∀ tn', tn' ≠ tn → _transforms (self w') !! tn' = _transforms (self w) !! tn') ∧
    ∀ col,
      (_transforms (self w') !!! tn) !! col =
      match assoc (col +:+ "_UNIT") l with
      | Some unitname => Some (λ value, tr_add_unit value unitname)
      | None => (_transforms (self w) !!! tn) !! col
      end.
Proof.
  revert w. induction l as [|[attr unitname] l IH]; intros w Hnd.
  - exists w. by repeat split.
  - apply NoDup_cons in Hnd as [Hattr Hnd]. rewrite for_cons.
    destruct (endswith attr "_UNIT") eqn:Hends.
    + rewrite add_column_transform_eq.
      match goal with
      | |- ∃ _, for_ _ _ ?w1 = _ ∧ _ => destruct (IH w1 Hnd) as (w' & -> & Hh & Hc & Ht & Hf & Hother & Hcol)
      end.
      simpl in *. exists w'. repeat split; try done.
      * intros tn' Hne. rewrite Hother by done. by rewrite lookup_insert_ne.
      * intros col. rewrite Hcol. case_decide as Hcase.
        -- subst attr. rewrite assoc_None by done.
           rewrite lookup_total_insert_eq, drop_last_UNIT.
           by rewrite lookup_insert_eq.
        -- destruct (assoc _ l); [done |].
           rewrite lookup_total_insert_eq, lookup_insert_ne; [done |].
           intros <-. by apply Hcase, endswith_drop_last.
    + destruct (IH w Hnd) as (w' & Hfor & Hh & Hc & Ht & Hf & Hother & Hcol).
      change (M_ret tt w) with (Ok tt, w). cbv beta iota.
      exists w'. repeat split; try done.
      intros col. rewrite Hcol. simpl. rewrite decide_False; [done |].
      intros ->. by rewrite endswith_app in Hends.
Qed.

Lemma bind_Ok {S A B} (m : M S A) (k : A → M S B) s a s' :
  m s = (Ok a, s') → M_bind m k s = k a s'.
Proof. intros Hm. unfold M_bind. by rewrite Hm. Qed.

Lemma map_table_to_container_ok tn cref w T c :
  _tables (self w) !! tn = Some tn →
  get_node tn (_h5file (self w)) = Ok T →
  heap w !! cref = Some c →
  ∃ w',
    _map_table_to_container tn cref w = (Ok tt, w') ∧
    _tables (self w') = _tables (self w) ∧
    _h5file (self w') = _h5file (self w) ∧
    _transforms (self w') = _transforms (self w) ∧
    (∀ tn', tn' ≠ tn → _cols_to_read (self w') !! tn' = _cols_to_read (self w) !! tn') ∧
    _cols_to_read (self w') !!! tn =
      (_cols_to_read (self w) !!! tn) ++ filter (λ col, fields_contains c col) (colnames T) ∧
    heap w' =
      <[cref := {| class_name := class_name c; slots := slots c;
                   meta := attrs T ∪ meta c |}]> (heap w).
Proof.
  intros Htab HT Hc. unfold _map_table_to_container.
  rewrite (bind_Ok _ _ w T w) by (unfold table_of; by rewrite Htab, HT).
  rewrite (bind_Ok _ _ w c w) by (unfold gets; by rewrite (lookup_total_correct _ _ _ Hc)).
  destruct (cols_loop tn c (colnames T) w)
    as (w2 & Hloop2 & Hh2 & Ht2 & Hta2 & Hf2 & Hother2 & Hcols2).
  rewrite (bind_Ok _ _ w tt w2) by done.
  destruct (warn_loop tn c (keys c) w2) as (w3 & Hloop3 & Hh3 & Hc3 & Ht3 & Hta3 & Hf3).
  rewrite (bind_Ok _ _ w2 tt w3) by done.
  rewrite (meta_loop cref c) by (by rewrite Hh3, Hh2).
  eexists. split; [reflexivity |]. simpl.
  split; [congruence |]. split; [congruence |]. split; [congruence |].
  split; [| split].
  - intros tn' Hne. rewrite Hc3. by apply Hother2.
  - by rewrite Hc3, Hcols2.
  - by rewrite Hh3, Hh2, foldl_insert_map_to_list.
Qed.

Lemma map_transforms_ok tn w T :
  _tables (self w) !! tn = Some tn →
  get_node tn (_h5file (self w)) = Ok T →
  ∃ w',
    _map_transforms_from_table_header tn w = (Ok tt, w') ∧
    heap w' = heap w ∧
    _cols_to_read (self w') = _cols_to_read (self w) ∧
    _tables (self w') = _tables (self w) ∧
    _h5file (self w') = _h5file (self w) ∧
    (∀ tn', tn' ≠ tn → _transforms (self w') !! tn' = _transforms (self w) !! tn') ∧
    ∀ col,
      (_transforms (self w') !!! tn) !! col =
      match attrs T !! (col +:+ "_UNIT") with
      | Some unitname => Some (λ value, tr_add_unit value unitname)
      | None => (_transforms (self w) !!! tn) !! col
      end.
Proof.
  intros Htab HT. unfold _map_transforms_from_table_header.
  rewrite (bind_Ok _ _ w T w) by (unfold table_of; by rewrite Htab, HT).
  destruct (header_loop tn (map_to_list (attrs T)) w)
    as (w5 & Hloop & Hh5 & Hc5 & Hta5 & Hf5 & Hother5 & Hcol5);
    [apply NoDup_fst_map_to_list |].
  exists w5. repeat split; try done.
  intros col. by rewrite Hcol5, assoc_map_to_list.
Qed.

Lemma setup_table_ok tn cref w T c :
  get_node tn (_h5file (self w)) = Ok T →
  heap w !! cref = Some c →
  ∃ w',
    _setup_table tn cref w = (Ok tn, w') ∧
    _tables (self w') = <[tn := tn]> (_tables (self w)) ∧
    _h5file (self w') = _h5file (self w) ∧
    (∀ tn', tn' ≠ tn →
       _transforms (self w') !! tn' = _transforms (self w) !! tn' ∧
       _cols_to_read (self w') !! tn' = _cols_to_read (self w) !! tn') ∧
    _cols_to_read (self w') !!! tn =
      (_cols_to_read (self w) !!! tn) ++ filter (λ col, fields_contains c col) (colnames T) ∧
    (∀ col,
       (_transforms (self w') !!! tn) !! col =
       match attrs T !! (col +:+ "_UNIT") with
       | Some unitname => Some (λ value, tr_add_unit value unitname)
       | None => (_transforms (self w) !!! tn) !! col
       end) ∧
    heap w' =
      <[cref := {| class_name := class_name c; slots := slots c;
                   meta := attrs T ∪ meta c |}]> (heap w).
Proof.
  intros HT Hc. unfold _setup_table.
  rewrite (bind_Ok _ _ w T w) by by rewrite HT.
  rewrite (bind_Ok _ _ w tt _) by apply on_self_eq.
  match goal with
  | |- context [M_bind (_map_table_to_container tn cref) _ ?w1] =>
      destruct (map_table_to_container_ok tn cref w1 T c)
        as (w2 & Hm2 & Hta2 & Hf2 & Ht2 & Hother2 & Hcols2 & Hh2);
        [simpl; by rewrite lookup_insert_eq | done | done |]
  end.
  rewrite (bind_Ok _ _ _ tt w2) by done.
  destruct (map_transforms_ok tn w2 T)
    as (w3 & Hm3 & Hh3 & Hc3 & Hta3 & Hf3 & Hother3 & Hcol3).
  { rewrite Hta2. simpl. by rewrite lookup_insert_eq. }
  { by rewrite Hf2. }
  rewrite (bind_Ok _ _ _ tt w3) by done.
  exists w3. simpl in *. unfold M_ret.
  split; [done |]. split; [congruence |]. split; [congruence |].
  split; [| split; [| split]].
  - intros tn' Hne. rewrite Hother3, Ht2, Hc3, Hother2 by done. done.
  - by rewrite Hc3, Hcols2.
  - intros col. by rewrite Hcol3, Ht2.
  - by rewrite Hh3, Hh2.
Qed.



Lemma untouched_refl w : untouched w w.
Proof. by split. Qed.

Lemma untouched_trans w1 w2 w3 : untouched w1 w2 → untouched w2 w3 → untouched w1 w3.
Proof. intros [? Hm1] [? Hm2]. split; [congruence |]. intros l. by rewrite Hm2, Hm1. Qed.

Lemma fill_container_untouched g row w r w' :
  fill_container g row w = (r, w') → untouched w w'.
Proof.
  unfold fill_container, M_bind at 1, gets.
  apply (for_frame untouched); [apply untouched_refl | apply untouched_trans |].
  intros col s r1 s1 _. unfold M_bind at 1, lift.
  destruct (row !! col) as [cell|]; [| intros [= _ <-]; apply untouched_refl].
  unfold M_bind. rewrite reader_apply_col_transform_eq.
  destruct (match _ !! col with Some tr => tr cell | None => Ok cell end) as [value|];
    [| intros [= _ <-]; apply untouched_refl].
  unfold Container_setitem.
  destruct (setitem (heap s !!! container g) col value) as [c1|] eqn:Hset;
    [| intros [= _ <-]; apply untouched_refl].
  apply setitem_Ok in Hset as (_ & _ & Hm & _).
  intros [= _ <-]. split; [done |]. simpl. intros l.
  destruct (decide (l = container g)) as [->|Hne].
  - by rewrite lookup_total_insert_eq.
  - by rewrite lookup_total_insert_ne.
Qed.

Lemma read_loop_untouched g tab n w r g' w' :
  read_loop g tab n w = (r, g', w') →
  untouched w w' ∧ table_name g' = table_name g ∧ container g' = container g ∧
  gi_frame g' ≠ NotStarted.
Proof.
  unfold read_loop, read_row.
  destruct (get_node tab (_h5file (self w))) as [T|];
    [| intros [= _ <- <-]; by repeat split; try apply untouched_refl].
  destruct (Table_getitem T n) as [row|[]];
    try (intros [= _ <- <-]; by repeat split; try apply untouched_refl).
  destruct (fill_container g row w) as [[[]|e] w1] eqn:Hfill;
    intros [= _ <- <-]; repeat split; try done;
    by apply fill_container_untouched in Hfill as [? ?].
Qed.

(** Once the table of a generator is set up, a step of the generator
    leaves the reader and all metadata as they are. *)
Lemma next_untouched g w r g' w' :
  gi_frame g ≠ NotStarted ∨ is_Some (_tables (self w) !! table_name g) →
  next g w = (r, g', w') →
  untouched w w' ∧ table_name g' = table_name g ∧ container g' = container g ∧
  gi_frame g' ≠ NotStarted.
Proof.
  intros Hknown. unfold next. destruct (gi_frame g) as [|tab n|] eqn:Hframe.
  - destruct Hknown as [? | [tab Htab]]; [done |].
    unfold read_prologue, M_bind, gets. rewrite Htab. unfold M_ret.
    apply read_loop_untouched.
  - apply read_loop_untouched.
  - intros [= _ <- <-]. repeat split; try apply untouched_refl. by rewrite Hframe.
Qed.

Lemma iterate_untouched fuel g w it :
  gi_frame g ≠ NotStarted ∨ is_Some (_tables (self w) !! table_name g) →
  iterate fuel g w = Some it →
  untouched w (final it) ∧
  Forall (λ y, y.1 = container g ∧ meta y.2 = meta (heap w !!! container g)) (yielded it).
Proof.
  revert g w it. induction fuel as [|fuel IH]; intros g w it Hknown; [done |].
  simpl. destruct (next g w) as [[r g'] w'] eqn:Hnext.
  destruct (next_untouched _ _ _ _ _ Hknown Hnext) as (Hu & Htn & Hc & Hfr).
  destruct r as [c| |e].
  - destruct (iterate fuel g' w') as [it'|] eqn:Hit; [|done]. intros [= <-]. simpl.
    destruct (IH _ _ _ (or_introl Hfr) Hit) as [Hu' Hall].
    split; [by eapply untouched_trans |].
    assert (c = container g) as ->.
    { unfold next in Hnext. destruct (gi_frame g).
      - destruct (read_prologue g w) as [[tab|] w1]; [| congruence].
        unfold read_loop in Hnext. destruct (read_row _ _ _) as [[[row|]|] ?]; try congruence.
        destruct (fill_container _ _ _) as [[[]|] ?]; congruence.
      - unfold read_loop in Hnext. destruct (read_row _ _ _) as [[[row|]|] ?]; try congruence.
        destruct (fill_container _ _ _) as [[[]|] ?]; congruence.
      - congruence. }
    constructor.
    + simpl. split; [done |]. apply Hu.
    + eapply Forall_impl; [done |]. intros y [-> ->]. rewrite Hc. split; [done |]. apply Hu.
  - intros [= <-]. by split.
  - intros [= <-]. by split.
Qed.

End reader_lemmas.

Section roundtrip.
Context `{AstropyUnits} `{Re} `{!PyTables}.

#[local] Arguments tr_convert_and_strip_unit : simpl never.
#[local] Arguments PYTABLES_TYPE_MAP : simpl never.




Lemma version_key_not_unit col : "CTAPIPE_VERSION" ≠ col +:+ "_UNIT".
Proof.
  intros Heq. assert (endswith "CTAPIPE_VERSION" "_UNIT" = true) as Hends.
  { rewrite Heq. apply endswith_app. }
  done.
Qed.

Lemma read_back_is_Ok field v cell :
  (∀ u, unit_parse (unit_str u) = Some u) →
  is_number cell = true → is_Ok (read_back field v cell).
Proof.
  intros Hparse Hnum. unfold read_back, read_transform.
  destruct v as [n|b|s|n u|mjd|ty]; try (by eexists).
  unfold tr_add_unit, Quantity_new. rewrite Hparse.
  destruct cell; try done; by eexists.
Qed.

Lemma write_then_read version filename group_name tn c w0 w1 w2 cref target h fuel :
  W.__init__ filename group_name = Ok w0 →
  W.write version tn (W.One c) w0 = (Ok tt, w1) →
  W.close w1 = (Ok tt, w2) →
  NoDup (keys c) →
  (∀ k, endswith k "_UNIT" = true → meta c !! k = None) →
  (∀ u, unit_parse (unit_str u) = Some u) →
  (∀ col value cell, cell_cast col value = Ok cell → is_number cell = true) →
  h !! cref = Some target →
  (2 ≤ fuel)%nat →
  let path := join_path (join_path "/" group_name) tn in
  ∃ tab row it target',
    nodes (W._h5file w2) !! path = Some tab ∧
    rows tab = [row] ∧
    R.iterate fuel (R.read path cref)
      {| R.self := R.__init__ (W._h5file w2); R.heap := h |} = Some it ∧
    R.error it = None ∧
    R.yielded it = [(cref, target')] ∧
    R.heap (R.final it) !! cref = Some target' ∧
    ∀ name field v, (name, (field, v)) ∈ slots c →
      field_round_trip tn path w1 tab row it target target' name field v.
Proof.
  intros Hinit Hwrite Hclose Hnd Hmeta Hparse Hcast Htarget Hfuel path.
  assert (W._schemas w0 = ∅ ∧ W._transforms w0 = ∅ ∧ W._exclusions w0 = ∅ ∧
          W._group w0 = join_path "/" group_name) as (Hs0 & Ht0 & He0 & Hg0).
  { unfold W.__init__, create_group in Hinit. simpl in Hinit. by injection Hinit as <-. }
  destruct (first_write_one version tn c w0 w1 Hwrite) as
    (cols & unitmeta & row & Htab & Hsch & Hexcl & Hkeys & Hnames & Hrow); [| done |].
  { by rewrite Hs0. }
  assert (W._group w1 = join_path "/" group_name) as Hg1.
  { destruct (init_consistent _ _ _ Hinit) as [Hc0 _].
    destruct (write_ok _ _ _ _ _ Hwrite Hc0) as (_ & -> & _). done. }
  unfold table_at in Htab. rewrite Hg1 in Htab. fold path in Htab.
  set (tab := {| title := "Storage of " +:+ join "," [class_name c];
                 description := cols;
                 attrs := meta c ∪ <["CTAPIPE_VERSION":=PyStr version]> unitmeta;
                 rows := [row] |}) in *.
  assert (W._h5file w2 = File_close (W._h5file w1)) as Hf2.
  { unfold W.close, modify in Hclose. by injection Hclose as <-. }
  assert (nodes (W._h5file w2) !! path = Some tab) as Hnode2.
  { rewrite Hf2. unfold File_close. by destruct (isopen _). }
  assert (∀ name field v, (name, (field, v)) ∈ slots c →
            ∃ sv, stripped field v = Ok sv ∧ cols !! name = column_for sv ∧
                  attrs tab !! (name +:+ "_UNIT") = unit_attr field v ∧
                  (W._transforms w1 !!! tn) !! name = write_transform field v ∧
                  ∀ col, column_for sv = Some col →
                    ∃ out cell, cell_for field v = Ok out ∧ cell_cast col out = Ok cell ∧
                                row !! name = Some cell)
    as Hslot.
  { intros name field v Hin. specialize (Hnames name). specialize (Hrow name).
    rewrite (assoc_NoDup _ _ _ Hnd Hin) in Hnames, Hrow.
    unfold column_outcome, excluded in Hnames. rewrite He0, Ht0 in Hnames.
    simpl in Hnames. rewrite !lookup_total_empty in Hnames.
    change (@inhabitant (list Pattern) _) with (@nil Pattern) in Hnames.
    change (@inhabitant (gmap string transform) _) with (∅ : gmap string transform) in Hnames.
    rewrite lookup_empty in Hnames. simpl in Hnames.
    destruct Hnames as (sv & Hsv & Hcol & Hattr & Htr).
    exists sv. split; [done |].
    assert (cols !! name = column_for sv) as Hcol' by (rewrite Hcol; by destruct (column_for sv)).
    assert ((W._transforms w1 !!! tn) !! name = write_transform field v) as Htr'
      by (rewrite Htr; by destruct (write_transform field v)).
    split; [done |]. split; [| split; [done |]].
    - simpl. rewrite lookup_union, (Hmeta _ (endswith_app name "_UNIT")).
      rewrite lookup_insert_ne by apply version_key_not_unit.
      rewrite (left_id None _), Hattr. by destruct v.
    - intros col Hsome. rewrite <- Hcol' in Hsome. rewrite Hsome in Hrow.
      destruct Hrow as (out & cell & Hout & Hcell & Hlook). exists out, cell.
      split; [| done]. unfold written in Hout. rewrite Htr' in Hout. unfold cell_for.
      by destruct (write_transform field v). }
  set (wr0 := {| R.self := R.__init__ (W._h5file w2); R.heap := h |}).
  assert (get_node path (R._h5file (R.self wr0)) = Ok tab) as Hget.
  { unfold get_node. simpl. by rewrite Hnode2. }
  destruct (setup_table_ok path cref wr0 tab target Hget Htarget)
    as (wr1 & Hsetup & Htables1 & Hfile1 & _ & Hcols1 & Htrans1 & Hheap1).
  simpl in Hcols1, Hheap1, Hfile1. rewrite lookup_total_empty in Hcols1.
  change (@inhabitant (list string) _) with (@nil string) in Hcols1. simpl in Hcols1.
  assert (∀ name field v, (name, (field, v)) ∈ slots c →
            (R._transforms (R.self wr1) !!! path) !! name = read_transform field v) as Hrt.
  { intros name field v Hin. destruct (Hslot _ _ _ Hin) as (sv & _ & _ & Hattr & _).
    rewrite Htrans1, Hattr. by destruct v. }
  assert (∀ name field v col, (name, (field, v)) ∈ slots c →
            cols !! name = Some col →
            ∃ cell, row !! name = Some cell ∧
              read_value (R.self wr1) path row name = read_back field v cell ∧
              is_Ok (read_back field v cell)) as Hread.
  { intros name field v col Hin Hsome.
    destruct (Hslot _ _ _ Hin) as (sv & Hsv & Hcol & _ & _ & Hcell).
    rewrite Hcol in Hsome. destruct (Hcell _ Hsome) as (out & cell & _ & Hcst & Hlook).
    exists cell. split; [done |]. unfold read_value, read_back.
    rewrite (Hrt _ _ _ Hin), Hlook. split; [done |].
    apply (read_back_is_Ok field v cell Hparse). by eapply Hcast. }
  set (target1 := {| class_name := class_name target; slots := slots target;
                     meta := attrs tab ∪ meta target |}) in *.
  assert (∀ col, col ∈ R._cols_to_read (R.self wr1) !!! path →
            fields_contains target col = true ∧
            ∃ field v, (col, (field, v)) ∈ slots c ∧ is_Some (cols !! col)) as Hmapped.
  { intros col Hcol. rewrite Hcols1 in Hcol.
    apply list_elem_of_filter in Hcol as [Hf Hcol%elem_of_colnames]. simpl in Hcol.
    split; [by destruct (fields_contains target col) |].
    specialize (Hnames col).
    destruct (assoc col (slots c)) as [[field v]|] eqn:Hassoc.
    - exists field, v. split; [by apply assoc_elem_of | done].
    - rewrite Hnames in Hcol. by destruct Hcol. }
  destruct fuel as [|fuel]; [lia |].
  destruct (resume_rows fuel (R.read path cref) path tab [] [row] wr1 target1)
    as [Hlen Hres]; simpl; try done.
  { by rewrite Hfile1. }
  { by rewrite Hheap1, lookup_insert_eq. }
  { intros row0 col ->%list_elem_of_singleton Hcol.
    destruct (Hmapped col Hcol) as (_ & field & v & Hin & [col' Hsome]).
    destruct (Hread _ _ _ _ Hin Hsome) as (cell & _ & -> & ?). done. }
  { intros col Hcol. by destruct (Hmapped col Hcol) as [? _]. }
  { lia. }
  simpl in Hlen, Hres.
  destruct (filled (R.self wr1) path row (R._cols_to_read (R.self wr1) !!! path) target1)
    as [target'|] eqn:Hfilled; [|done].
  exists tab, row. eexists. exists target'.
  split; [done |]. split; [done |]. split.
  { etrans; [apply (iterate_not_started fuel (R.read path cref) wr0 path wr1) |
             exact Hres]; [done |].
    unfold R.read_prologue, M_bind, gets. simpl. exact Hsetup. }
  simpl. split; [done |]. split; [done |]. split; [by rewrite lookup_insert_eq |].
  intros name field v Hin.
  destruct (Hslot _ _ _ Hin) as (sv & Hsv & Hcol & Hattr & Htr & Hcell).
  exists sv. split; [done |]. split; [done |]. split; [done |]. split; [done |].
  split; [by apply Hrt |]. intros col Hsome.
  destruct (Hcell _ Hsome) as (out & cell & Hout & Hcst & Hlook).
  exists out, cell. split; [done |]. split; [done |]. split; [done |].
  intros Hfield.
  assert (name ∈ R._cols_to_read (R.self wr1) !!! path) as Hmem.
  { rewrite Hcols1. apply list_elem_of_filter. split; [by rewrite Hfield |].
    apply elem_of_colnames. simpl. by rewrite Hcol, Hsome. }
  destruct (filled_getitem _ _ _ _ _ _ _ Hfilled Hmem) as [Hget' _].
  destruct (Hread name field v col Hin) as (cell' & Hlook' & Hrv & [back Hback]);
    [by rewrite Hcol |].
  assert (cell' = cell) as -> by congruence.
  exists back. split; [done |]. by rewrite Hget', Hrv.
Qed.

End roundtrip.

(** * Main properties *)
Section close.
Context `{AstropyUnits} `{Re} `{!PyTables}.

Lemma File_close_closed (f : H5File) : isopen f = false → File_close f = f.
Proof. unfold File_close. by intros ->. Qed.

Lemma isopen_File_close (f : H5File) : isopen (File_close f) = false.
Proof. unfold File_close. by destruct (isopen f) eqn:Hf. Qed.

(** C7: [close] never raises, leaves the file closed, and any number of
    further calls, on the writer as on the reader, changes nothing. *)
Theorem close_idempotent (w : W.t) (rw : R.world) (n : nat) :
  (∃ w', W.close w = (Ok tt, w') ∧ isopen (W._h5file w') = false ∧
         for_ (replicate n tt) (λ _, W.close) w' = (Ok tt, w')) ∧
  (∃ rw', R.close rw = (Ok tt, rw') ∧ isopen (R._h5file (R.self rw')) = false ∧
          for_ (replicate n tt) (λ _, R.close) rw' = (Ok tt, rw')).
Proof.
  split.
  - eexists. split; [reflexivity |]. simpl. split; [apply isopen_File_close |].
    induction n as [|n IH]; [done |].
    cbn [replicate]. rewrite for_cons. unfold W.close at 1, modify. simpl.
    rewrite (File_close_closed (File_close _)) by apply isopen_File_close.
    exact IH.
  - eexists. split; [reflexivity |]. simpl. split; [apply isopen_File_close |].
    induction n as [|n IH]; [done |].
    cbn [replicate]. rewrite for_cons. unfold R.close at 1, R.on_self, modify. simpl.
    rewrite (File_close_closed (File_close _)) by apply isopen_File_close.
    exact IH.
Qed.

End close.

Section write_sequences.
Context `{AstropyUnits} `{Re} `{!PyTables}.

(** A [write] to a table whose schema is registered only appends. *)
Lemma write_known version tn cs w :
  is_Some (W._schemas w !! tn) →
  W.write version tn cs w = W._append_row tn (arg_list cs) w.
Proof.
  intros Hknown. unfold W.write. unfold_M.
  rewrite bool_decide_eq_true_2 by done. by destruct cs.
Qed.

(** C2 (as the code has it): in a sequence of [write] calls on a fresh
    writer that all return, cut at any point, the set-up of a table (which
    derives the schema and the header) has run once if a call before the
    cut names the table and not at all otherwise; from the cut on, the
    schema, the transforms, the title and the header of such a table stay
    as they are, each call that names the table adds one row, and a
    [write] to the table is [_append_row] and nothing else, whatever the
    containers are: nothing is derived or checked again. *)
Theorem schema_derived_once version filename group_name calls1 calls2 w0 w2 tn :
  W.__init__ filename group_name = Ok w0 →
  write_all version (calls1 ++ calls2) w0 = (Ok tt, w2) →
  ∃ w1,
    write_all version calls1 w0 = (Ok tt, w1) ∧
    write_all version calls2 w1 = (Ok tt, w2) ∧
    init_count tn (W.log w1) = (if decide (tn ∈ calls1.*1) then 1 else 0)%nat ∧
    init_count tn (W.log w2) = (if decide (tn ∈ (calls1 ++ calls2).*1) then 1 else 0)%nat ∧
    (tn ∈ calls1.*1 →
       is_Some (W._schemas w1 !! tn) ∧
       W._schemas w2 !! tn = W._schemas w1 !! tn ∧
       W._transforms w2 !! tn = W._transforms w1 !! tn ∧
       (∃ tab1 tab2, table_at w1 tn = Some tab1 ∧ table_at w2 tn = Some tab2 ∧
                     grown (calls_to tn calls2) tab1 tab2) ∧
       (∀ cs, W.write version tn cs w1 = W._append_row tn (arg_list cs) w1) ∧
       (∀ cs, W.write version tn cs w2 = W._append_row tn (arg_list cs) w2)).
Proof.
  intros Hinit Hall.
  destruct (init_consistent _ _ _ Hinit) as [Hc0 Hs0].
  destruct (write_all_app _ _ _ _ _ Hall) as (w1 & Hw1 & Hw2).
  destruct (write_all_ok _ _ _ _ Hw1 Hc0) as (Hc1 & _ & Hall1).
  destruct (write_all_ok _ _ _ _ Hw2 Hc1) as (Hc2 & _ & Hall2).
  destruct (write_all_ok _ _ _ _ Hall Hc0) as (_ & _ & Hall02).
  assert (∀ (calls : list (string * W.containers_arg)) w, consistent w →
            (∀ tn, is_Some (W._schemas w !! tn) ↔ is_Some (W._schemas w0 !! tn) ∨ tn ∈ calls.*1) →
            init_count tn (W.log w) = (if decide (tn ∈ calls.*1) then 1 else 0)%nat) as Hcount.
  { intros calls w Hc Hiff. rewrite (c_log _ Hc). specialize (Hiff tn).
    rewrite Hs0, lookup_empty in Hiff.
    destruct (W._schemas w !! tn) as [sch|] eqn:Hsch.
    - rewrite decide_True; [done |]. destruct Hiff as [Hiff _].
      destruct Hiff as [[? ?]|?]; [by eexists | done | done].
    - rewrite decide_False; [done |]. intros Hin.
      destruct Hiff as [_ Hiff]. destruct Hiff as [? ?]; [by right | done]. }
  exists w1. split; [done |]. split; [done |].
  split; [apply Hcount; [done | apply Hall1] |].
  split; [apply Hcount; [done | apply Hall02] |].
  intros Hin.
  assert (is_Some (W._schemas w1 !! tn)) as Hknown by (apply Hall1; by right).
  assert (is_Some (W._schemas w2 !! tn)) as Hknown2.
  { apply Hall02. right. rewrite fmap_app, elem_of_app. by left. }
  split; [done |].
  destruct (Hall2 tn) as [_ Hkeep]. destruct (Hkeep Hknown) as (Hs & Ht & Htabs).
  split; [done |]. split; [done |]. split; [done |].
  split; intros cs; by apply write_known.
Qed.

End write_sequences.

Section derivation.
Context `{AstropyUnits} `{Re} `{!PyTables}.

#[local] Arguments tr_convert_and_strip_unit : simpl never.
#[local] Arguments PYTABLES_TYPE_MAP : simpl never.



(** C5: the derivation of the schema of one record, for a field that holds
    a quantity and is not excluded.  With a required unit, the transform
    registered for the field converts to that unit and strips it, the
    header key of the field holds the name of the required unit, and the
    column is the one of the converted number.  Without, the transform
    strips the unit, the header key holds the name of the unit of the
    value, and the column is the one of the number of the value. *)
Theorem quantity_schema version tn c w header w' name field n u :
  W._create_hdf5_table_schema version tn [c] w = (Ok header, w') →
  NoDup (keys c) →
  (name, (field, Quantity n u)) ∈ slots c →
  excluded w tn name = false →
  ∃ cols,
    W._schemas w' !! tn = Some cols ∧
    match Field_unit field with
    | Some req_unit =>
        (W._transforms w' !!! tn) !! name = Some (λ x, tr_convert_and_strip_unit x req_unit) ∧
        header !! (name +:+ "_UNIT") = Some (PyStr (unit_str req_unit)) ∧
        ∃ k, unit_factor u req_unit = Some k ∧
             tr_convert_and_strip_unit (Quantity n u) req_unit = Ok (Num (scale k n)) ∧
             cols !! name = column_for (Num (scale k n))
    | None =>
        (W._transforms w' !!! tn) !! name = Some Quantity_value ∧
        header !! (name +:+ "_UNIT") = Some (PyStr (unit_str u)) ∧
        cols !! name = column_for (Num n)
    end.
Proof.
  intros Hrun Hnd Hin Hex.
  unfold W._create_hdf5_table_schema in Hrun. unfold M_bind at 1 in Hrun.
  rewrite for_acc_cons in Hrun. cbn [for_acc] in Hrun. unfold M_ret at 1 in Hrun.
  destruct (for_acc (items c) _ _ w) as [[[cols meta]|e] w1] eqn:Hitems; [|done].
  unfold_M. injection Hrun as <- <-.
  destruct (schema_items_exact _ _ _ _ _ _ _ _ _ Hitems Hnd) as [_ Hnames].
  { intros name' [field' v'] Hin'. by destruct (slot_lookup _ _ _ _ Hnd Hin'). }
  specialize (Hnames name). rewrite (assoc_NoDup _ _ _ Hnd Hin) in Hnames.
  unfold column_outcome in Hnames. rewrite Hex in Hnames.
  destruct Hnames as (sv & Hsv & Hcol & Hattr & Htr).
  rewrite lookup_empty in Hcol.
  exists cols. simpl. split; [by rewrite lookup_insert_eq |].
  rewrite lookup_insert_ne by apply version_key_not_unit.
  unfold stripped, write_transform, header_unit in *.
  destruct (Field_unit field) as [req_unit|].
  - split; [done |]. split; [done |].
    rewrite tr_convert_and_strip_unit_eq in *.
    destruct (unit_factor u req_unit) as [k|]; [|done]. injection Hsv as <-.
    assert (cols !! name = column_for (Num (scale k n))) as Hcol'
      by (rewrite Hcol; by destruct (column_for _)).
    by exists k.
  - simpl in Hsv. injection Hsv as <-.
    assert (cols !! name = column_for (Num n)) as Hcol'
      by (rewrite Hcol; by destruct (column_for _)).
    done.
Qed.

End derivation.

Section reach.
Context {S A B : Type}.

(** What a turn of a loop establishes, and every later turn keeps, holds
    after a successful loop that takes this turn. *)
Lemma for_acc_reach (I : S → Prop) (P : B → S → Prop) l (body : B → A → M S B) x0 :
  x0 ∈ l →
  (∀ x acc s acc' s', x ∈ l → I s → body acc x s = (Ok acc', s') → I s') →
  (∀ acc s acc' s', I s → body acc x0 s = (Ok acc', s') → P acc' s') →
  (∀ x acc s acc' s', x ∈ l → I s → P acc s → body acc x s = (Ok acc', s') → P acc' s') →
  ∀ acc s acc' s', I s → for_acc l acc body s = (Ok acc', s') → I s' ∧ P acc' s'.
Proof.
  intros Hin HI Hest Hkeep.
  assert (∀ l', l' ⊆ l → ∀ acc s acc' s', I s ∧ P acc s →
            for_acc l' acc body s = (Ok acc', s') → I s' ∧ P acc' s') as Hinv.
  { intros l' Hsub. apply (for_acc_invariant (λ acc s, I s ∧ P acc s)).
    intros x acc s acc' s' Hx [Hi Hp] Hstep. split.
    - eapply HI; [by apply Hsub | done..].
    - eapply Hkeep; [by apply Hsub | done..]. }
  assert (∀ l', l' ⊆ l → x0 ∈ l' → ∀ acc s acc' s', I s →
            for_acc l' acc body s = (Ok acc', s') → I s' ∧ P acc' s') as Hgo.
  { induction l' as [|x l' IH]; intros Hsub Hx0 acc s acc' s' Hi.
    { by apply elem_of_nil in Hx0. }
    rewrite for_acc_cons.
    destruct (body acc x s) as [[acc1|e] s1] eqn:Hx; [|done].
    assert (x ∈ l) as Hxl by (apply Hsub; left).
    assert (l' ⊆ l) as Hsub' by (intros y Hy; apply Hsub; by right).
    assert (I s1) as Hi1 by (eapply HI; done).
    apply elem_of_cons in Hx0 as [->|Hx0].
    - apply Hinv; [done |]. split; [done |]. exact (Hest _ _ _ _ Hi Hx).
    - by apply IH. }
  by apply Hgo.
Qed.

End reach.

Section exclusion.
Context `{AstropyUnits} `{Re} `{!PyTables}.

#[local] Arguments tr_convert_and_strip_unit : simpl never.
#[local] Arguments PYTABLES_TYPE_MAP : simpl never.

(** One turn of the derivation, seen from a column name. *)
Lemma schema_step tn c name0 x cols0 meta0 s cols meta s' :
  x ∈ items c →
  W.schema_column tn c (cols0, meta0) x s = (Ok (cols, meta), s') →
  excluded s' tn name0 = excluded s tn name0 ∧
  (excluded s tn name0 = true → cols !! name0 = cols0 !! name0) ∧
  (is_Some (cols0 !! name0) → is_Some (cols !! name0)) ∧
  (∀ field, x.1 = name0 → fields_get c name0 = Ok field →
     excluded s tn name0 = false → storable field x.2 → is_Some (cols !! name0)).
Proof.
  destruct x as [n v]. intros Hin Hstep.
  destruct (items_fields_get _ _ _ Hin) as [field' Hf].
  destruct (schema_column_spec _ _ _ _ _ _ _ _ _ _ Hf Hstep) as (Hframe & Hcols & _ & Hout).
  split; [by eapply excluded_frame |].
  destruct (decide (n = name0)) as [->|Hne].
  - unfold column_outcome in Hout. split; [| split].
    + intros Hex. rewrite Hex in Hout. by destruct Hout as [-> _].
    + intros Hsome. destruct (excluded s tn name0).
      * by destruct Hout as [-> _].
      * destruct Hout as (sv & _ & -> & _). by destruct (column_for sv).
    + intros field _ Hfield Hex (sv & Hsv & Hcol). simpl in *.
      rewrite Hex in Hout. destruct Hout as (sv' & Hsv' & -> & _).
      assert (field' = field) as -> by congruence.
      assert (sv' = sv) as -> by congruence.
      by destruct Hcol as [col ->].
  - rewrite (Hcols name0) by done. repeat split; try done.
Qed.

(** One turn of the derivation gives a name a column only for a field of
    that name that is not excluded and can be stored. *)
Lemma schema_step_only tn c name0 x cols0 meta0 s cols meta s' :
  x ∈ items c →
  W.schema_column tn c (cols0, meta0) x s = (Ok (cols, meta), s') →
  is_Some (cols !! name0) →
  is_Some (cols0 !! name0) ∨
  (x.1 = name0 ∧ excluded s tn name0 = false ∧
   ∃ field, fields_get c name0 = Ok field ∧ storable field x.2).
Proof.
  destruct x as [n v]. intros Hin Hstep Hsome.
  destruct (items_fields_get _ _ _ Hin) as [field' Hf].
  destruct (schema_column_spec _ _ _ _ _ _ _ _ _ _ Hf Hstep) as (Hframe & Hcols & _ & Hout).
  destruct (decide (n = name0)) as [->|Hne].
  - unfold column_outcome in Hout. destruct (excluded s tn name0) eqn:Hex.
    + left. destruct Hout as [Heq _]. by rewrite <- Heq.
    + destruct Hout as (sv & Hsv & Heq & _).
      destruct (column_for sv) as [col|] eqn:Hcol.
      * right. split; [done |]. split; [done |]. exists field'. split; [done |].
        exists sv. split; [done |]. rewrite Hcol. by eexists.
      * left. by rewrite <- Heq.
  - left. by rewrite <- (Hcols name0).
Qed.

(** A column of the derived schema belongs to a field of one of the
    containers that is not excluded and can be stored. *)
Lemma schema_loop_only tn cs name acc s acc' s' :
  for_acc cs acc (λ locals container,
    for_acc (items container) locals (W.schema_column tn container)) s = (Ok acc', s') →
  is_Some (acc'.1 !! name) →
  is_Some (acc.1 !! name) ∨
  ∃ c v field, c ∈ cs ∧ (name, v) ∈ items c ∧ fields_get c name = Ok field ∧
               storable field v ∧ excluded s tn name = false.
Proof.
  intros Hloop.
  set (Q := is_Some (acc.1 !! name) ∨
            ∃ c v field, c ∈ cs ∧ (name, v) ∈ items c ∧ fields_get c name = Ok field ∧
                         storable field v ∧ excluded s tn name = false).
  set (I := λ (a : Schema * gmap string pyval) (s0 : W.t),
              excluded s0 tn name = excluded s tn name ∧ (is_Some (a.1 !! name) → Q)).
  cut (I acc' s'); [by intros [_ ?] |].
  assert (I acc s) as Hstart by (split; [done | by left]).
  cut (∀ a0 s0 a1 s1, I a0 s0 →
         for_acc cs a0 (λ locals container,
           for_acc (items container) locals (W.schema_column tn container)) s0 = (Ok a1, s1) →
         I a1 s1).
  { intros Hcut. exact (Hcut _ _ _ _ Hstart Hloop). }
  clear Hloop Hstart.
  apply (for_acc_invariant I).
  intros c a0 s0 a1 s1 Hc.
  apply (for_acc_invariant I).
  intros x [cols0 meta0] s2 [cols meta] s3 Hx [Hex Hq] Hstep. simpl in *.
  destruct (schema_step tn c name x _ _ _ _ _ _ Hx Hstep) as (He & _).
  split; [congruence |]. simpl. intros Hsome.
  destruct (schema_step_only tn c name x _ _ _ _ _ _ Hx Hstep Hsome)
    as [Hold|(Hname & Hex2 & field & Hfield & Hst)]; [by apply Hq |].
  right. destruct x as [n v]. simpl in *. subst n.
  exists c, v, field. repeat split; try done. congruence.
Qed.

(** The columns of an excluded name are not touched by the derivation. *)
Lemma schema_loop_absent tn cs name acc s acc' s' :
  for_acc cs acc (λ locals container,
    for_acc (items container) locals (W.schema_column tn container)) s = (Ok acc', s') →
  excluded s tn name = true → acc.1 !! name = None → acc'.1 !! name = None.
Proof.
  intros Hloop Hex Hnone.
  cut (excluded s' tn name = true ∧ acc'.1 !! name = None); [by intros [_ ?] |].
  revert Hloop. revert acc s acc' s' Hex Hnone.
  cut (∀ acc s acc' s', excluded s tn name = true ∧ acc.1 !! name = None →
         for_acc cs acc (λ locals container,
           for_acc (items container) locals (W.schema_column tn container)) s = (Ok acc', s') →
         excluded s' tn name = true ∧ acc'.1 !! name = None).
  { intros Hcut acc s acc' s' Hex Hnone. by apply Hcut. }
  apply (for_acc_invariant (λ acc s, excluded s tn name = true ∧ acc.1 !! name = None)).
  intros c acc s acc' s' _.
  apply (for_acc_invariant (λ acc s, excluded s tn name = true ∧ acc.1 !! name = None)).
  intros x [cols0 meta0] s0 [cols meta] s1 Hx [Hex Hnone] Hstep. simpl in *.
  destruct (schema_step tn c name x _ _ _ _ _ _ Hx Hstep) as (He & Hsame & _).
  split; [congruence |]. by rewrite Hsame.
Qed.

(** A field that is not excluded and can be stored has a column after the
    derivation. *)
Lemma schema_loop_present tn cs c name v field acc s acc' s' :
  for_acc cs acc (λ locals container,
    for_acc (items container) locals (W.schema_column tn container)) s = (Ok acc', s') →
  c ∈ cs → (name, v) ∈ items c → fields_get c name = Ok field →
  excluded s tn name = false → storable field v →
  is_Some (acc'.1 !! name).
Proof.
  intros Hloop Hc Hitem Hfield Hex Hst.
  cut (excluded s' tn name = false ∧ is_Some (acc'.1 !! name)); [by intros [_ ?] |].
  revert Hloop. revert acc s acc' s' Hex.
  set (I := λ s : W.t, excluded s tn name = false).
  set (P := λ (acc : Schema * gmap string pyval) (_ : W.t), is_Some (acc.1 !! name)).
  assert (∀ c' x acc s acc' s', x ∈ items c' →
            W.schema_column tn c' acc x s = (Ok acc', s') →
            (I s → I s') ∧ (P acc s → P acc' s')) as Hstep.
  { intros c' x [cols0 meta0] s0 [cols meta] s1 Hx Hstep. unfold I, P. simpl.
    destruct (schema_step tn c' name x _ _ _ _ _ _ Hx Hstep) as (He & _ & Hkeep & _).
    split; [congruence | done]. }
  assert (∀ c' acc s acc' s',
            for_acc (items c') acc (W.schema_column tn c') s = (Ok acc', s') →
            (I s → I s') ∧ (I s → P acc s → P acc' s')) as Hinner.
  { intros c' acc s acc' s' Hloop. split.
    - intros Hi. revert Hloop. revert acc s acc' s' Hi.
      apply (for_acc_invariant (λ _ s, I s)).
      intros x acc s acc' s' Hx Hi Hs. by apply (Hstep _ _ _ _ _ _ Hx Hs).
    - intros Hi Hp.
      cut (I s' ∧ P acc' s'); [by intros [_ ?] |].
      revert Hloop. generalize (conj Hi Hp). clear Hi Hp. revert acc s acc' s'.
      apply (for_acc_invariant (λ acc s, I s ∧ P acc s)).
      intros x acc s acc' s' Hx [Hi Hp] Hs.
      destruct (Hstep _ _ _ _ _ _ Hx Hs) as [Hi' Hp']. auto. }
  apply (for_acc_reach I P cs _ c Hc).
  - intros c' acc s acc' s' _ Hi Hl. by apply (Hinner _ _ _ _ _ Hl).
  - intros acc s acc' s' Hi Hl.
    refine (proj2 (for_acc_reach I P (items c) _ (name, v) Hitem _ _ _ acc s acc' s' Hi Hl)).
    + intros x a0 s0 a1 s1 Hx Hi0 Hs. by apply (Hstep _ _ _ _ _ _ Hx Hs).
    + intros [cols0 meta0] s0 [cols meta] s1 Hi0 Hs. unfold P. simpl.
      destruct (schema_step tn c name _ _ _ _ _ _ _ Hitem Hs) as (_ & _ & _ & Hest).
      by apply (Hest field).
    + intros x a0 s0 a1 s1 Hx Hi0 Hp Hs. by apply (Hstep _ _ _ _ _ _ Hx Hs).
  - intros c' acc s acc' s' _ Hi Hp Hl. by apply (Hinner _ _ _ _ _ Hl).
Qed.

Lemma first_write_schema version tn cs w w' :
  W.write version tn cs w = (Ok tt, w') → W._schemas w !! tn = None →
  ∃ cols unitmeta w1,
    for_acc (arg_list cs) (∅, ∅) (λ locals container,
      for_acc (items container) locals (W.schema_column tn container))
      (W.set_log (W.log w ++ [DebugInitializingTable tn]) w) = (Ok (cols, unitmeta), w1) ∧
    W._schemas w' !! tn = Some cols.
Proof.
  intros Hwrite Hnew. unfold W.write in Hwrite. unfold_M. rewrite Hnew in Hwrite.
  rewrite bool_decide_eq_false_2 in Hwrite by (by intros [? ?]).
  destruct (W._setup_new_table version tn (arg_list cs) w) as [[[]|e] w1] eqn:Hsetup.
  2: { destruct cs; simpl in *; rewrite Hsetup in Hwrite; done. }
  assert (W._append_row tn (arg_list cs) w1 = (Ok tt, w')) as Happ.
  { destruct cs; simpl in *; by rewrite Hsetup in Hwrite. }
  apply setup_new_table_ok in Hsetup as (cols & unitmeta & w0 & Hloop & _ & _ & ->).
  apply append_row_ok in Happ as (table & tab & row & _ & _ & _ & _ & _ & ->).
  exists cols, unitmeta, w0. split; [done |]. simpl. by rewrite lookup_insert_eq.
Qed.

Lemma exclude_ok tn pattern w w' :
  W.exclude tn pattern w = (Ok tt, w') →
  ∃ p, re_compile pattern = Some p ∧
       w' = W.set_exclusions (<[tn := (W._exclusions w !!! tn) ++ [p]]> (W._exclusions w)) w.
Proof.
  unfold W.exclude. destruct (re_compile pattern) as [p|]; [|done].
  unfold modify. intros [= <-]. by exists p.
Qed.

Lemma consistent_set_exclusions x w : consistent w → consistent (W.set_exclusions x w).
Proof. intros [? ? ?]. by split. Qed.

(** C3 (as the code has it): a pattern registered for a table before its
    first write keeps every field whose name it matches at the start out
    of the schema and out of every row of the table, in this write and the
    later ones; a field that no pattern of the table matches has a column
    when its value is of a kind that can be stored; and the schema has no
    other column: each of its columns is the name of a field of a written
    container that no pattern matches and whose value can be stored. *)
Theorem exclusion version tn pattern cs calls w0 w1 w2 :
  consistent w0 → W._schemas w0 !! tn = None →
  W.exclude tn pattern w0 = (Ok tt, w1) →
  write_all version ((tn, cs) :: calls) w1 = (Ok tt, w2) →
  ∃ p sch tab,
    re_compile pattern = Some p ∧
    W._schemas w2 !! tn = Some sch ∧ table_at w2 tn = Some tab ∧ description tab = sch ∧
    length (rows tab) = S (calls_to tn calls) ∧
    (∀ name, re_match p name = true →
       sch !! name = None ∧ Forall (λ row, row !! name = None) (rows tab)) ∧
    (∀ c name v field,
       c ∈ arg_list cs → (name, v) ∈ items c → fields_get c name = Ok field →
       excluded w1 tn name = false → storable field v → is_Some (sch !! name)) ∧
    (∀ name, is_Some (sch !! name) →
       ∃ c v field,
         c ∈ arg_list cs ∧ (name, v) ∈ items c ∧ fields_get c name = Ok field ∧
         excluded w1 tn name = false ∧ storable field v).
Proof.
  intros Hc0 Hnew Hexcl Hall.
  apply exclude_ok in Hexcl as (p & Hp & ->).
  apply (consistent_set_exclusions (<[tn := (W._exclusions w0 !!! tn) ++ [p]]> (W._exclusions w0)))
    in Hc0.
  set (w1 := W.set_exclusions _ w0) in *.
  unfold write_all in Hall. rewrite for_cons in Hall. simpl in Hall.
  destruct (W.write version tn cs w1) as [[[]|e] wa] eqn:Hwrite; [|done].
  destruct (first_write_schema _ _ _ _ _ Hwrite Hnew) as (cols & unitmeta & wl & Hloop & Hcols).
  destruct (write_ok _ _ _ _ _ Hwrite Hc0)
    as (Hca & _ & _ & _ & tab0 & row & Htab0 & Hdom & Hsch & Hcase).
  change (W._schemas w1 !! tn) with (W._schemas w0 !! tn) in Hcase. rewrite Hnew in Hcase.
  destruct Hcase as (_ & Hrows0 & _).
  destruct (write_all_ok _ _ _ _ Hall Hca) as (_ & _ & Hrest).
  destruct (Hrest tn) as [_ Hknown].
  destruct Hknown as (Hs2 & _ & tab & tab' & Htab & Htab' & Hgrown); [by eexists |].
  rewrite Htab0 in Htab. injection Htab as <-.
  destruct Hgrown as (_ & Hdescr & _ & more & Hmore & Hlen & Hdoms). simpl in *.
  rewrite Hrows0 in Hmore. simpl in Hmore.
  assert (description tab0 = cols) as Hd by congruence.
  exists p, cols, tab'. split; [done |]. split; [congruence |]. split; [done |].
  split; [congruence |]. split; [rewrite Hmore; simpl; by rewrite Hlen |].
  split.
  - intros name Hmatch.
    assert (cols !! name = None) as Hnone.
    { apply (schema_loop_absent _ _ name _ _ _ _ Hloop); [| done].
      unfold excluded. simpl. rewrite lookup_total_insert_eq, existsb_app. simpl.
      rewrite Hmatch. by rewrite orb_true_r. }
    split; [done |]. rewrite Hmore.
    assert (∀ r : gmap string pyval, dom r = dom cols → r !! name = None) as Hrow.
    { intros r Hr. apply not_elem_of_dom. rewrite Hr. by apply not_elem_of_dom. }
    constructor; [apply Hrow; congruence |].
    eapply Forall_impl; [exact Hdoms |]. intros r Hr. apply Hrow. congruence.
  - split.
    { intros c name v field Hc Hitem Hfield Hex Hst.
      by apply (schema_loop_present _ _ c name v field _ _ _ _ Hloop). }
    intros name Hsome.
    destruct (schema_loop_only _ _ name _ _ _ _ Hloop Hsome)
      as [[? Hold]|(c & v & field & Hc & Hitem & Hfield & Hst & Hex)].
    { simpl in Hold. by rewrite lookup_empty in Hold. }
    by exists c, v, field.
Qed.

End exclusion.

Section raising.
Context {S A B : Type}.

(** A loop that reaches a turn which raises does not end well. *)
Lemma for_acc_raises (I : S → Prop) l (body : B → A → M S B) x0 :
  x0 ∈ l →
  (∀ x acc s acc' s', x ∈ l → I s → body acc x s = (Ok acc', s') → I s') →
  (∀ acc s, I s → ∃ e s', body acc x0 s = (Raise e, s')) →
  ∀ acc s, I s → ∃ e s', for_acc l acc body s = (Raise e, s').
Proof.
  intros Hin HI Hraise.
  assert (∀ l', l' ⊆ l → x0 ∈ l' → ∀ acc s, I s →
            ∃ e s', for_acc l' acc body s = (Raise e, s')) as Hgo.
  { induction l' as [|x l' IH]; intros Hsub Hx0 acc s Hi.
    { by apply elem_of_nil in Hx0. }
    rewrite for_acc_cons.
    destruct (body acc x s) as [[acc1|e] s1] eqn:Hx; [| by eauto].
    assert (x ∈ l) as Hxl by (apply Hsub; left).
    assert (l' ⊆ l) as Hsub' by (intros y Hy; apply Hsub; by right).
    assert (I s1) as Hi1 by (eapply HI; done).
    apply elem_of_cons in Hx0 as [->|Hx0].
    - destruct (Hraise acc s Hi) as (e & s' & He). congruence.
    - by apply IH. }
  by apply Hgo.
Qed.

End raising.

Section unsupported.
Context `{AstropyUnits} `{Re} `{!PyTables}.

#[local] Arguments tr_convert_and_strip_unit : simpl never.
#[local] Arguments PYTABLES_TYPE_MAP : simpl never.

(** The turn of the derivation for an array whose element kind has no
    entry in the type map: the look-up raises. *)
Lemma schema_column_array_raises tn c columns meta name dtype shape data w :
  excluded w tn name = false → PYTABLES_TYPE_MAP !! dtype = None →
  W.schema_column tn c (columns, meta) (name, Num (NdArray dtype shape data)) w =
  (Raise (KeyError dtype), w).
Proof.
  intros Hex Hmap. unfold W.schema_column, W._is_column_excluded. unfold_M.
  unfold excluded in Hex. rewrite Hex. simpl. by rewrite Hmap.
Qed.

(** The turn for a scalar of such a kind: no column, no error. *)
Lemma schema_column_scalar_skipped tn c columns meta name typename x w :
  excluded w tn name = false → PYTABLES_TYPE_MAP !! typename = None →
  W.schema_column tn c (columns, meta) (name, Num (Scalar typename x)) w =
  (Ok (columns, meta),
   W.set_log (W.log w ++ [DebugAddedCol tn name "" [1%nat]]) w).
Proof.
  intros Hex Hmap. unfold W.schema_column, W._is_column_excluded. unfold_M.
  unfold excluded in Hex. rewrite Hex. simpl. by rewrite Hmap.
Qed.

(** C4 (what the code does): the first write of a record to a table
    raises when the record has a field, not excluded, that holds an array
    whose element kind has no entry in the type map; no table is created
    and no field of the record is written. *)
Theorem array_outside_type_map_raises version tn c w name dtype shape data :
  W._schemas w !! tn = None →
  (name, Num (NdArray dtype shape data)) ∈ items c →
  excluded w tn name = false →
  PYTABLES_TYPE_MAP !! dtype = None →
  ∃ e w', W.write version tn (W.One c) w = (Raise e, w') ∧
          W._h5file w' = W._h5file w ∧ W._schemas w' !! tn = None.
Proof.
  intros Hnew Hin Hex Hmap.
  unfold W.write. cbv beta iota zeta. unfold M_bind at 1, gets. rewrite Hnew.
  rewrite bool_decide_eq_false_2 by (by intros [? ?]).
  unfold M_bind at 1.
  unfold W._setup_new_table, W._create_hdf5_table_schema, W.log_debug. unfold_M.
  rewrite for_acc_cons. cbn [for_acc].
  set (w0 := W.set_log (W.log w ++ [DebugInitializingTable tn]) w).
  destruct (for_acc_raises (λ s : W.t, excluded s tn name = false) (items c)
              (W.schema_column tn c) _ Hin) with (acc := (∅ : Schema, ∅ : gmap string pyval)) (s := w0)
    as (e & w' & Hloop).
  - intros x [cols0 meta0] s [cols meta] s' Hx Hi Hstep.
    destruct (schema_step tn c name x _ _ _ _ _ _ Hx Hstep) as (He & _). congruence.
  - intros [cols0 meta0] s Hi. rewrite schema_column_array_raises by done. by eauto.
  - done.
  - rewrite Hloop. exists e, w'. split; [done |].
    apply schema_loop_frame_items in Hloop as [_ Hs _ Hf _ _ _]. simpl in *.
    split; [done |]. by rewrite Hs.
Qed.

End unsupported.

Section iteration.
Context `{AstropyUnits}.

(** The containers of a replay, row by row: each mapped column holds the
    value read from the row, the other fields and the metadata are those
    of the container at the start. *)
Lemma replay_lookup r tn cols rows c :
  ∀ i c', replay r tn cols rows c !! i = Some c' →
    ∃ row, rows !! i = Some row ∧
      (∀ col, col ∈ cols → getitem c' col = read_value r tn row col) ∧
      (∀ name, name ∉ cols → getitem c' name = getitem c name) ∧
      meta c' = meta c.
Proof.
  revert c. induction rows as [|row rows IH]; intros c i c'; simpl; [done |].
  destruct (filled r tn row cols c) as [c1|e] eqn:Hfilled; [|done].
  destruct i as [|i]; simpl.
  - intros [= <-]. exists row. split; [done |]. split; [| split].
    + intros col Hcol. by apply (filled_getitem _ _ _ _ _ _ _ Hfilled).
    + intros name Hname. by apply (filled_getitem_other _ _ _ _ _ _ _ Hfilled).
    + by apply (filled_meta _ _ _ _ _ _ Hfilled).
  - intros Hi. destruct (IH _ _ _ Hi) as (row' & Hrow' & Hcols & Hother & Hmeta).
    exists row'. split; [done |]. split; [done |]. split.
    + intros name Hname. rewrite Hother by done.
      by apply (filled_getitem_other _ _ _ _ _ _ _ Hfilled).
    + rewrite Hmeta. by apply (filled_meta _ _ _ _ _ _ Hfilled).
Qed.

(** C8 (as the code has it): when every mapped column is a field of the
    target container and the transforms succeed on the cells, a run over
    the generator of [read], once the lines before its loop have run,
    yields as often as the table has rows and ends without error.  The
    yield of index [i] is the reference given to [read]; the
    object behind it then holds, in the field of each mapped column, the
    value of [read_value] for the row of index [i]: the cell under the
    transform of the column, or the cell itself if there is none.  The
    object is the one the caller passed: after the run it is left with the
    values of the last row. *)
Theorem read_yields_rows tn cref w tab w1 T c fuel :
  R.read_prologue (R.read tn cref) w = (Ok tab, w1) →
  get_node tab (R._h5file (R.self w1)) = Ok T →
  R.heap w1 !! cref = Some c →
  Forall (λ row,
    Forall (λ col, is_Ok (read_value (R.self w1) tn row col))
      (R._cols_to_read (R.self w1) !!! tn)) (rows T) →
  Forall (λ col, fields_contains c col = true) (R._cols_to_read (R.self w1) !!! tn) →
  (length (rows T) < fuel)%nat →
  ∃ it,
    R.iterate fuel (R.read tn cref) w = Some it ∧
    R.error it = None ∧
    length (R.yielded it) = length (rows T) ∧
    R.self (R.final it) = R.self w1 ∧
    (∀ i y, R.yielded it !! i = Some y →
       y.1 = cref ∧
       ∃ row, rows T !! i = Some row ∧
         ∀ col, col ∈ R._cols_to_read (R.self w1) !!! tn →
           getitem y.2 col = read_value (R.self w1) tn row col) ∧
    R.heap (R.final it) !! cref = Some (default c (last (R.yielded it).*2)).
Proof.
  intros Hpro HT Hc Hall Hfields Hfuel.
  destruct fuel as [|fuel]; [lia |].
  rewrite (iterate_not_started fuel (R.read tn cref) w tab w1) by done.
  destruct (resume_rows fuel (R.read tn cref) tab T [] (rows T) w1 c) as [Hlen Hres];
    try done.
  { intros row col Hrow Hcol.
    rewrite Forall_forall in Hall. specialize (Hall row Hrow).
    rewrite Forall_forall in Hall. by apply Hall. }
  { intros col Hcol. rewrite Forall_forall in Hfields. by apply Hfields. }
  { lia. }
  simpl in Hlen, Hres. rewrite Hres. eexists. split; [done |]. simpl.
  split; [done |]. split; [by rewrite length_fmap |]. split; [done |]. split.
  - intros i y Hy. apply list_lookup_fmap_Some in Hy as (c' & -> & Hc').
    split; [done |]. simpl.
    destruct (replay_lookup _ _ _ _ _ _ _ Hc') as (row & Hrow & Hcols & _).
    by exists row.
  - rewrite lookup_insert_eq. f_equal. rewrite <- list_fmap_compose.
    unfold compose. simpl. by rewrite list_fmap_id.
Qed.

End iteration.

(** A run that returns [a] ends in the state [after] gives. *)
Lemma run_returns {S A} (run : M S A) (s : S) (a : A) :
  (run s).1 = Ok a → run s = (Ok a, Examples.after run s).
Proof. unfold Examples.after. destruct (run s) as [r s']. simpl. by intros ->. Qed.


Lemma all_succeed {A B C} (f : A → B → result C) (l : list A) (l' : list B) :
  forallb (λ a, forallb (λ b, succeeds (f a b)) l') l = true →
  Forall (λ a, Forall (λ b, is_Ok (f a b)) l') l.
Proof.
  intros Hall. apply Forall_forall. intros a Ha. apply Forall_forall. intros b Hb.
  rewrite forallb_forall in Hall. specialize (Hall a). rewrite <- list_elem_of_In in Hall.
  specialize (Hall Ha). rewrite forallb_forall in Hall. specialize (Hall b).
  rewrite <- list_elem_of_In in Hall. specialize (Hall Hb).
  destruct (f a b); [by eexists | done].
Qed.

Lemma run_returned {S A} (run : M S A) (s : S) (default : A) :
  succeeds (run s).1 = true →
  run s = (Ok (Examples.returned run s default), Examples.after run s).
Proof.
  unfold Examples.after, Examples.returned. destruct (run s) as [[a|e] s']; simpl; done.
Qed.

Lemma is_Some_check {A} (o : option A) :
  match o with Some _ => true | None => false end = true → is_Some o.
Proof. destruct o; [by eexists | done]. Qed.

Lemma get_node_table_in path (f : @H5File Example.si_units) :
  isopen f = true →
  match nodes f !! path with Some _ => true | None => false end = true →
  get_node path f = Ok (Examples.table_in path f).
Proof.
  unfold get_node, Examples.table_in. intros ->. by destruct (nodes f !! path).
Qed.

Section write_then_read_claims.
Context `{AstropyUnits} `{Re} `{!PyTables}.

#[local] Arguments tr_convert_and_strip_unit : simpl never.
#[local] Arguments PYTABLES_TYPE_MAP : simpl never.


(** C9 (as the code has it): a record with a timestamp field, whose
    metadata has no key that ends in "_UNIT", is written by a fresh writer
    and read back from the closed file.  The column of the field is a
    64-bit float column, the writer holds [tr_time_to_float] for it, the
    cell holds the modified Julian date as the column takes it, a number;
    the reader has no transform for the column, and the field of the
    yielded container is the cell. *)
Theorem timestamp_read_as_number
    version filename group_name tn c w0 w1 w2 cref target h fuel name field mjd :
  W.__init__ filename group_name = Ok w0 →
  W.write version tn (W.One c) w0 = (Ok tt, w1) →
  W.close w1 = (Ok tt, w2) →
  NoDup (keys c) →
  (∀ k, endswith k "_UNIT" = true → meta c !! k = None) →
  (∀ u, unit_parse (unit_str u) = Some u) →
  (∀ col value cell, cell_cast col value = Ok cell → is_number cell = true) →
  h !! cref = Some target →
  fields_contains target name = true →
  (2 ≤ fuel)%nat →
  (name, (field, Time mjd)) ∈ slots c →
  let path := join_path (join_path "/" group_name) tn in
  let float64_col := {| col_type := Float64Col; col_shape := [] |} in
  ∃ tab row cell it target',
    nodes (W._h5file w2) !! path = Some tab ∧ rows tab = [row] ∧
    description tab !! name = Some float64_col ∧
    (W._transforms w1 !!! tn) !! name = Some tr_time_to_float ∧
    cell_cast float64_col (Num (Scalar "float64" mjd)) = Ok cell ∧
    row !! name = Some cell ∧
    is_number cell = true ∧
    R.iterate fuel (R.read path cref)
      {| R.self := R.__init__ (W._h5file w2); R.heap := h |} = Some it ∧
    R.error it = None ∧ R.yielded it = [(cref, target')] ∧
    (R._transforms (R.self (R.final it)) !!! path) !! name = None ∧
    getitem target' name = Ok cell.
Proof.
  intros Hinit Hwrite Hclose Hnd Hmeta Hparse Hcast Htarget Hcontains Hfuel Hin path col.
  destruct (write_then_read _ _ _ _ _ _ _ _ _ _ _ _
              Hinit Hwrite Hclose Hnd Hmeta Hparse Hcast Htarget Hfuel)
    as (tab & row & it & target' & Htab & Hrows & Hit & Herr & Hy & _ & Hfields).
  destruct (Hfields _ _ _ Hin) as (sv & Hsv & Hdescr & _ & Hwtr & Hrtr & Hcell).
  simpl in Hsv. injection Hsv as <-. simpl in Hdescr, Hwtr, Hrtr.
  destruct (Hcell col eq_refl) as (out & cell & Hout & Hcst & Hrow & Hget).
  destruct (Hget Hcontains) as (back & Hback & Hgetitem).
  unfold cell_for in Hout. simpl in Hout. injection Hout as <-.
  unfold read_back in Hback. simpl in Hback. injection Hback as <-.
  exists tab, row, cell, it, target'. repeat split; try done.
  by eapply Hcast.
Qed.



End write_then_read_claims.

Section later_reads.
Context `{AstropyUnits}.

(** C10 (as the code has it): the first step of a generator of [read] for
    a table the reader does not know yet sets the table up with the
    container of that generator: the columns to read are the columns of the
    table that are fields of this container.  From then on, as long as the
    reader is as this step left it, a run over a generator of [read] for the
    same table with any container changes nothing of the reader (the
    columns to read stay those of the first container) and no metadata of
    any container; it yields the container it was given. *)
Theorem later_read_reuses_mapping tn c1 c2 w T o1 r g1 w1 w1' fuel it :
  R._tables (R.self w) !! tn = None →
  get_node tn (R._h5file (R.self w)) = Ok T →
  R.heap w !! c1 = Some o1 →
  R.next (R.read tn c1) w = (r, g1, w1) →
  R.self w1' = R.self w1 →
  R.iterate fuel (R.read tn c2) w1' = Some it →
  R._cols_to_read (R.self w1) !!! tn =
    (R._cols_to_read (R.self w) !!! tn) ++
    filter (λ col, fields_contains o1 col) (colnames T) ∧
  R.self (R.final it) = R.self w1 ∧
  (∀ l, meta (R.heap (R.final it) !!! l) = meta (R.heap w1' !!! l)) ∧
  Forall (λ y, y.1 = c2) (R.yielded it).
Proof.
  intros Hnew HT Ho1 Hnext Hself Hit.
  destruct (setup_table_ok tn c1 w T o1 HT Ho1)
    as (ws & Hsetup & Htables & _ & _ & Hcols & _).
  unfold R.next in Hnext. simpl in Hnext.
  unfold R.read_prologue, M_bind, gets in Hnext. simpl in Hnext.
  rewrite Hnew, Hsetup in Hnext.
  apply read_loop_untouched in Hnext as ([Hs1 _] & _).
  assert (is_Some (R._tables (R.self w1') !! tn)) as Hknown.
  { rewrite Hself, Hs1, Htables, lookup_insert_eq. by eexists. }
  destruct (iterate_untouched fuel (R.read tn c2) w1' it (or_intror Hknown) Hit)
    as [[Hs Hm] Hall].
  split; [by rewrite Hs1 |]. split; [congruence |]. split; [done |].
  eapply Forall_impl; [exact Hall |]. by intros y [? _].
Qed.

End later_reads.

(** * Further properties *)

Section mask.

Lemma normalize_index_Some n i j :
  normalize_index n i = Some j ↔
  (j < n)%nat ∧ (i = Z.of_nat j ∨ i = (Z.of_nat j - Z.of_nat n)%Z).
Proof.
  unfold normalize_index. repeat case_bool_decide; split.
  - intros [= <-]. lia.
  - intros [? [->| ->]]; f_equal; lia.
  - intros [= <-]. lia.
  - intros [? [->| ->]]; f_equal; lia.
  - done.
  - intros [? [->| ->]]; lia.
Qed.

Lemma normalize_index_None n i :
  normalize_index n i = None ↔ ¬ (- Z.of_nat n ≤ i < Z.of_nat n)%Z.
Proof. unfold normalize_index. repeat case_bool_decide; split; try done; lia. Qed.

Lemma set_true_spec arr thelist :
  Forall (λ i, (- Z.of_nat (length arr) ≤ i < Z.of_nat (length arr))%Z) thelist →
  ∃ mask, set_true arr thelist = Ok mask ∧ length mask = length arr ∧
    ∀ j, mask !! j = Some true ↔
         arr !! j = Some true ∨
         (j < length arr)%nat ∧
         (Z.of_nat j ∈ thelist ∨ (Z.of_nat j - Z.of_nat (length arr))%Z ∈ thelist).
Proof.
  revert arr. induction thelist as [|i l IH]; intros arr Hall; simpl.
  - exists arr. split; [done |]. split; [done |]. intros j. split; [by left |].
    intros [? | [_ [?%elem_of_nil | ?%elem_of_nil]]]; done.
  - apply Forall_cons in Hall as [Hi Hl].
    destruct (normalize_index (length arr) i) as [k|] eqn:Hk.
    2: { apply normalize_index_None in Hk. lia. }
    apply normalize_index_Some in Hk as [Hlt Hik].
    destruct (IH (<[k := true]> arr)) as (mask & -> & Hlen & Hmask).
    { by rewrite length_insert. }
    rewrite length_insert in Hlen, Hmask.
    exists mask. split; [done |]. split; [done |]. intros j. rewrite Hmask.
    rewrite !elem_of_cons. destruct (decide (j = k)) as [->|Hne].
    + rewrite list_lookup_insert_eq by done. split; [| by left].
      intros _. right. split; [done |]. destruct Hik; [left | right]; by left.
    + rewrite list_lookup_insert_ne by done. split.
      * intros [? | [? [? | ?]]]; [by left | right; split; [done |]; left; by right
                                  | right; split; [done |]; right; by right].
      * intros [? | [? [[? | ?] | [? | ?]]]]; try lia; auto.
Qed.

(** X1: for indices that numpy accepts for an array of [length] elements,
    [tr_list_to_mask] returns a mask of [length] elements that is True
    exactly at the positions the list names, from the start or, with a
    negative index, from the end; an empty list gives the mask that is
    False everywhere. *)
Theorem tr_list_to_mask_spec thelist length :
  Forall (λ i, (- Z.of_nat length ≤ i < Z.of_nat length)%Z) thelist →
  ∃ mask, tr_list_to_mask thelist length = Ok mask ∧
    List.length mask = length ∧
    ∀ j, (j < length)%nat →
      mask !! j =
      Some (bool_decide (Z.of_nat j ∈ thelist ∨ (Z.of_nat j - Z.of_nat length)%Z ∈ thelist)).
Proof.
  intros Hall. unfold tr_list_to_mask.
  destruct (set_true_spec (replicate length false) thelist) as (mask & Hm & Hlen & Hmask).
  { by rewrite length_replicate. }
  rewrite length_replicate in Hlen, Hmask.
  exists mask. split; [done |]. split; [done |]. intros j Hj.
  destruct (lookup_lt_is_Some_2 mask j) as [b Hb]; [lia |].
  rewrite Hb. f_equal. specialize (Hmask j). rewrite Hb in Hmask.
  case_bool_decide as Hin.
  - destruct b; [done |].
    assert (Some false = Some true) as Habs by (apply Hmask; by right). done.
  - destruct b; [| done]. destruct Hmask as [Hmask _].
    destruct Hmask as [Hr | [_ ?]]; [done | | done].
    apply lookup_replicate in Hr as [? _]. done.
Qed.

(** X2: an index that is out of bounds for an array of [length] elements
    makes [tr_list_to_mask] raise IndexError, wherever it stands in the
    list. *)
Theorem tr_list_to_mask_out_of_bounds thelist length i :
  i ∈ thelist → ¬ (- Z.of_nat length ≤ i < Z.of_nat length)%Z →
  tr_list_to_mask thelist length = Raise IndexError.
Proof.
  intros Hin Hout. unfold tr_list_to_mask.
  assert (∀ arr, List.length arr = length → set_true arr thelist = Raise IndexError) as Hgo.
  { induction thelist as [|i' l IH]; intros arr Hlen; [by apply elem_of_nil in Hin |].
    simpl. destruct (normalize_index (List.length arr) i') as [k|] eqn:Hk; [| done].
    apply elem_of_cons in Hin as [->|Hin].
    - apply normalize_index_Some in Hk. lia.
    - apply IH; [done |]. by rewrite length_insert. }
  apply Hgo. by rewrite length_replicate.
Qed.

End mask.

Section writer_extras.
Context `{AstropyUnits} `{Re} `{!PyTables}.

#[local] Arguments tr_convert_and_strip_unit : simpl never.
#[local] Arguments PYTABLES_TYPE_MAP : simpl never.

(** X3: after [add_column_transform], writer or reader, the transform is
    the one applied to the values of its column of its table, in place of
    any transform registered for the column before; what is applied to any
    other column, of this or another table, is as before.  Applying a
    transform changes nothing of the writer or the reader. *)
Theorem registered_transform_is_applied tn col tr tn' col' v (w : W.t) (rw : R.world) :
  (∃ w', W.add_column_transform tn col tr w = (Ok tt, w') ∧
     W._apply_col_transform tn' col' v w' =
     (if decide (tn' = tn ∧ col' = col) then tr v
      else (W._apply_col_transform tn' col' v w).1, w')) ∧
  (∃ rw', R.add_column_transform tn col tr rw = (Ok tt, rw') ∧
     R._apply_col_transform tn' col' v rw' =
     (if decide (tn' = tn ∧ col' = col) then tr v
      else (R._apply_col_transform tn' col' v rw).1, rw')).
Proof.
  split.
  - eexists. split; [reflexivity |]. rewrite !apply_col_transform_eq. f_equal.
    unfold written. simpl. case_decide as Hd.
    + destruct Hd as [-> ->]. by rewrite lookup_total_insert_eq, lookup_insert_eq.
    + destruct (decide (tn' = tn)) as [->|Hne].
      * rewrite lookup_total_insert_eq, lookup_insert_ne; [done |]. naive_solver.
      * by rewrite lookup_total_insert_ne.
  - eexists. split; [reflexivity |]. rewrite !reader_apply_col_transform_eq. f_equal.
    simpl. case_decide as Hd.
    + destruct Hd as [-> ->]. by rewrite lookup_total_insert_eq, lookup_insert_eq.
    + destruct (decide (tn' = tn)) as [->|Hne].
      * rewrite lookup_total_insert_eq, lookup_insert_ne; [done |]. naive_solver.
      * by rewrite lookup_total_insert_ne.
Qed.

Lemma quantity_dtype_float typename :
  quantity_dtype (float_dtype typename) = float_dtype typename.
Proof.
  unfold quantity_dtype, float_dtype.
  destruct (bool_decide (typename ∈ _)) eqn:Hf; [| done].
  rewrite Hf. by destruct (bool_decide (typename = "bool")).
Qed.

Lemma as_quantity_value_scale k v : as_quantity_value (scale k v) = scale k v.
Proof. destruct v; simpl; by rewrite quantity_dtype_float. Qed.

(** X4: stripping a quantity to a unit with [tr_convert_and_strip_unit] and
    attaching the name of that unit again with [tr_add_unit] gives the
    quantity converted to the unit; where the first raises, for a value
    that is no quantity or a unit that is not convertible, so does the
    conversion. *)
Theorem strip_then_add_unit quantity unit :
  unit_parse (unit_str unit) = Some unit →
  match tr_convert_and_strip_unit quantity unit with
  | Ok raw => tr_add_unit raw (PyStr (unit_str unit)) = Quantity_to quantity unit
  | Raise e => Quantity_to quantity unit = Raise e
  end.
Proof.
  intros Hparse. unfold tr_convert_and_strip_unit, tr_add_unit, Quantity_new, Quantity_to.
  destruct quantity as [n|b|s|n u|mjd|ty]; try done.
  destruct (unit_factor u unit) as [k|]; [| done]. simpl.
  by rewrite Hparse, as_quantity_value_scale.
Qed.

Lemma excluded_eq tn col w : W._is_column_excluded tn col w = (Ok (excluded w tn col), w).
Proof. reflexivity. Qed.

(** X5: exclusions add up, table by table.  After [exclude] was called for
    a table with each pattern of a list, a column of the table is excluded
    when it was excluded before or one of the patterns matches its name at
    the start; for any other table nothing changes. *)
Theorem exclusions_accumulate tn patterns w w' :
  for_ patterns (W.exclude tn) w = (Ok tt, w') →
  ∃ ps, Forall2 (λ pattern p, re_compile pattern = Some p) patterns ps ∧
    ∀ tn' col,
      W._is_column_excluded tn' col w' =
      (Ok (if decide (tn' = tn)
           then excluded w tn col || existsb (λ p, re_match p col) ps
           else excluded w tn' col), w').
Proof.
  revert w. induction patterns as [|pattern patterns IH]; intros w.
  - intros [= <-]. exists []. split; [constructor |]. intros tn' col.
    rewrite excluded_eq. simpl. rewrite orb_false_r. by case_decide; subst.
  - rewrite for_cons. destruct (W.exclude tn pattern w) as [[[]|e] w1] eqn:Hex; [| done].
    apply exclude_ok in Hex as (p & Hp & ->). intros Hrest.
    destruct (IH _ Hrest) as (ps & Hps & Hall).
    exists (p :: ps). split; [by constructor |]. intros tn' col. rewrite Hall.
    f_equal. f_equal. unfold excluded. simpl. case_decide as Hd.
    + rewrite lookup_total_insert_eq, existsb_app. simpl.
      rewrite orb_false_r. by rewrite orb_assoc.
    + by rewrite lookup_total_insert_ne.
Qed.

(** X6: a pattern registered for a table after its first write changes
    nothing of the table: the schema stays, and the next write appends a
    row with a cell for every column of the schema, whether the pattern
    matches its name or not. *)
Theorem exclusion_after_first_write version tn pattern cs w w1 w2 sch :
  consistent w → W._schemas w !! tn = Some sch →
  W.exclude tn pattern w = (Ok tt, w1) →
  W.write version tn cs w1 = (Ok tt, w2) →
  W._schemas w2 !! tn = Some sch ∧
  ∃ tab row,
    table_at w tn = Some tab ∧ description tab = sch ∧
    table_at w2 tn = Some (Table_append row tab) ∧ dom row = dom sch.
Proof.
  intros Hc Hsch Hex Hwrite.
  apply exclude_ok in Hex as (p & Hp & ->).
  apply (consistent_set_exclusions (<[tn := (W._exclusions w !!! tn) ++ [p]]> (W._exclusions w)))
    in Hc as Hc1.
  destruct (write_ok _ _ _ _ _ Hwrite Hc1)
    as (_ & _ & _ & _ & tab & row & Htab2 & Hdom & Hsch2 & Hcase).
  change (W._schemas (W.set_exclusions _ w) !! tn) with (W._schemas w !! tn) in Hcase.
  rewrite Hsch in Hcase. destruct Hcase as (Htab & Hs & _).
  change (W._schemas (W.set_exclusions _ w)) with (W._schemas w) in Hs.
  destruct (c_nodes _ Hc _ _ Hsch) as (tab' & Htab' & Hd).
  assert (tab' = tab) as -> by (unfold table_at in *; simpl in *; congruence).
  split; [by rewrite Hs |]. exists tab, row. repeat split; try done. congruence.
Qed.

(** X7: the header of the table that the first write of a record creates.
    The title names the class of the record; every entry of the metadata
    of the record is an attribute of the table, also under the key of a
    unit or of the version; the version of ctapipe is recorded unless the
    metadata has its key; and a key that is neither in the metadata, nor
    the key of the version, nor the unit key of a field is no attribute. *)
Theorem header_of_new_table version tn c w w' :
  W.write version tn (W.One c) w = (Ok tt, w') →
  W._schemas w !! tn = None →
  NoDup (keys c) →
  ∃ tab,
    table_at w' tn = Some tab ∧
    title tab = "Storage of " +:+ class_name c ∧
    (∀ k v, meta c !! k = Some v → attrs tab !! k = Some v) ∧
    (meta c !! "CTAPIPE_VERSION" = None →
       attrs tab !! "CTAPIPE_VERSION" = Some (PyStr version)) ∧
    (∀ k, meta c !! k = None → k ≠ "CTAPIPE_VERSION" →
       (∀ name, name ∈ keys c → k ≠ name +:+ "_UNIT") → attrs tab !! k = None).
Proof.
  intros Hwrite Hnew Hnd.
  destruct (first_write_one _ _ _ _ _ Hwrite Hnew Hnd)
    as (cols & unitmeta & row & Htab & _ & _ & Hkeys & _ & _).
  eexists. split; [exact Htab |]. simpl. split; [done |]. split; [| split].
  - intros k v Hk. by apply lookup_union_Some_l.
  - intros Hk. rewrite lookup_union_r by done. by rewrite lookup_insert_eq.
  - intros k Hk Hv Hunit. rewrite lookup_union_r by done.
    rewrite lookup_insert_ne by done. by apply Hkeys.
Qed.

Lemma set_h5file_same (w : W.t) : W.set_h5file (W._h5file w) w = w.
Proof. by destruct w. Qed.

(** X8: a [write] to a table that has its schema, if it raises, leaves the
    writer and its file as they were: no row is appended, nothing is
    registered. *)
Theorem failed_write_changes_nothing version tn cs w e w' :
  is_Some (W._schemas w !! tn) →
  W.write version tn cs w = (Raise e, w') → w' = w.
Proof.
  intros Hknown. unfold W.write. cbv beta iota zeta. unfold M_bind at 1, gets.
  rewrite bool_decide_eq_true_2 by done. unfold M_bind at 1, M_ret.
  generalize (match cs with W.One container => [container] | W.Several l => l end).
  intros l. unfold W._append_row. unfold M_bind at 1.
  destruct (W._tables w !! tn) as [table|]; [| by intros [= _ <-]].
  unfold M_bind at 1. unfold W.on_h5file at 1.
  rewrite set_h5file_same.
  destruct (get_node table (W._h5file w)) as [tab|e'] eqn:Hnode; [| by intros [= _ <-]].
  unfold M_bind at 1.
  match goal with
  | |- context [for_acc l ?a ?b w] => destruct (for_acc l a b w) as [[row|e'] w1] eqn:Hloop
  end.
  - assert (w1 = w) as ->.
    { revert Hloop. apply (for_acc_frame (λ s s', s' = s)); [done | congruence |].
      intros c row1 s r s' _. apply fill_row_state. }
    unfold W.on_h5file. unfold get_node in Hnode.
    destruct (isopen (W._h5file w)); [done |]. intros [= _ <-]. apply set_h5file_same.
  - intros [= _ <-].
    revert Hloop. apply (for_acc_frame (λ s s', s' = s)); [done | congruence |].
    intros c row1 s r s' _. apply fill_row_state.
Qed.

(** X9: a successful [write] to a table changes nothing of any other
    table: its schema, its transforms, its node in the file with the rows,
    and the exclusions of the writer stay as they were. *)
Theorem write_leaves_other_tables version tn cs w w' tn' :
  consistent w → W.write version tn cs w = (Ok tt, w') → tn' ≠ tn →
  W._schemas w' !! tn' = W._schemas w !! tn' ∧
  W._transforms w' !! tn' = W._transforms w !! tn' ∧
  table_at w' tn' = table_at w tn' ∧
  W._exclusions w' = W._exclusions w.
Proof.
  intros Hc Hwrite Hne.
  destruct (write_ok _ _ _ _ _ Hwrite Hc) as (_ & _ & Hex & Hother & _).
  destruct (Hother tn' Hne) as (? & ? & ?). done.
Qed.

End writer_extras.

Section user_transforms.
Context `{AstropyUnits} `{Re} `{!PyTables}.

#[local] Arguments tr_convert_and_strip_unit : simpl never.
#[local] Arguments PYTABLES_TYPE_MAP : simpl never.

(** X10: a transform that the user registered for a column before the
    first write of the table.  For a field that holds a quantity or a
    timestamp the derivation of the schema replaces it by its own
    transform.  For any other field it stays, the column is the one of the
    value of the field as it is in the record, not of the transformed
    value, and the cell of the first row holds what that column makes of
    the transformed value. *)
Theorem user_transform_and_schema version tn c w w' name field v user_tr :
  W.write version tn (W.One c) w = (Ok tt, w') →
  W._schemas w !! tn = None →
  NoDup (keys c) →
  (name, (field, v)) ∈ slots c →
  excluded w tn name = false →
  (W._transforms w !!! tn) !! name = Some user_tr →
  ∃ cols row tab,
    W._schemas w' !! tn = Some cols ∧ table_at w' tn = Some tab ∧ rows tab = [row] ∧
    match v with
    | Quantity _ _ =>
        (W._transforms w' !!! tn) !! name =
        Some (match Field_unit field with
              | Some req_unit => λ x, tr_convert_and_strip_unit x req_unit
              | None => Quantity_value
              end)
    | Time _ => (W._transforms w' !!! tn) !! name = Some tr_time_to_float
    | _ =>
        (W._transforms w' !!! tn) !! name = Some user_tr ∧
        cols !! name = column_for v ∧
        (∀ col, column_for v = Some col →
           ∃ out cell, user_tr v = Ok out ∧ cell_cast col out = Ok cell ∧
                       row !! name = Some cell)
    end.
Proof.
  intros Hwrite Hnew Hnd Hin Hex Huser.
  destruct (first_write_one _ _ _ _ _ Hwrite Hnew Hnd)
    as (cols & unitmeta & row & Htab & Hsch & _ & _ & Hnames & Hrow).
  specialize (Hnames name). specialize (Hrow name).
  rewrite (assoc_NoDup _ _ _ Hnd Hin) in Hnames, Hrow.
  unfold column_outcome in Hnames. rewrite Hex, Huser in Hnames.
  destruct Hnames as (sv & Hsv & Hcol & _ & Htr).
  eexists cols, row, _. split; [done |]. split; [exact Htab |]. split; [done |].
  assert (∀ v', v = v' → write_transform field v' = None → stripped field v' = Ok v' →
            (W._transforms w' !!! tn) !! name = Some user_tr ∧
            cols !! name = column_for v' ∧
            (∀ col, column_for v' = Some col →
               ∃ out cell, user_tr v' = Ok out ∧ cell_cast col out = Ok cell ∧
                           row !! name = Some cell)) as Hplain.
  { intros v' <- Hw Hs. rewrite Hw in Htr. rewrite Hs in Hsv. injection Hsv as <-.
    split; [done |].
    assert (cols !! name = column_for v) as Hcol'
      by (rewrite Hcol; by destruct (column_for v)).
    split; [done |]. intros col Hsome. rewrite Hcol', Hsome in Hrow.
    destruct Hrow as (out & cell & Hout & Hcell & Hlook). exists out, cell.
    split; [| done]. unfold written in Hout. by rewrite Htr in Hout. }
  destruct v as [n|b|s|n u|mjd|ty]; try (by apply Hplain).
  - simpl in Htr. done.
  - simpl in Htr. done.
Qed.

End user_transforms.

Section reader_extras.
Context `{AstropyUnits}.

(** X11: the first step of the first [read] of a table copies the header
    of the table into the metadata of the container: every attribute of
    the table is in the metadata, over an entry of the same key, and the
    other entries stay.  This holds for every container the run yields and
    for the container after the run, however the run ends: without rows,
    at the end of the rows, or by an error in a row. *)
Theorem read_copies_header tn cref w T c fuel it :
  R._tables (R.self w) !! tn = None →
  get_node tn (R._h5file (R.self w)) = Ok T →
  R.heap w !! cref = Some c →
  R.iterate fuel (R.read tn cref) w = Some it →
  meta (R.heap (R.final it) !!! cref) = attrs T ∪ meta c ∧
  Forall (λ y, y.1 = cref ∧ meta y.2 = attrs T ∪ meta c) (R.yielded it).
Proof.
  intros Hnew HT Hc Hit. destruct fuel as [|fuel]; [done |].
  destruct (setup_table_ok tn cref w T c HT Hc)
    as (ws & Hsetup & _ & _ & _ & _ & _ & Hheap).
  assert (meta (R.heap ws !!! cref) = attrs T ∪ meta c) as Hms.
  { by rewrite Hheap, lookup_total_insert_eq. }
  simpl in Hit. unfold R.next in Hit. simpl in Hit.
  unfold R.read_prologue, M_bind, gets in Hit. simpl in Hit.
  rewrite Hnew, Hsetup in Hit.
  destruct (R.read_loop (R.read tn cref) tn 0 ws) as [[r g'] w'] eqn:Hloop.
  destruct (read_loop_untouched _ _ _ _ _ _ _ Hloop) as ([_ Hm] & _ & Hcont & Hfr).
  destruct r as [y| |e].
  - destruct (R.iterate fuel g' w') as [it'|] eqn:Hit'; [| done].
    injection Hit as <-. simpl.
    destruct (iterate_untouched _ _ _ _ (or_introl Hfr) Hit') as [[_ Hm'] Hall].
    rewrite Hcont in Hall. simpl in Hall.
    assert (y = cref) as ->.
    { unfold R.read_loop in Hloop. destruct (R.read_row _ _ _) as [[[row|]|] ?]; try congruence.
      destruct (R.fill_container _ _ _) as [[[]|] ?]; simpl in *; congruence. }
    split; [by rewrite Hm', Hm |]. constructor.
    + simpl. split; [done |]. by rewrite Hm.
    + eapply Forall_impl; [exact Hall |]. intros z [-> ->]. split; [done |]. by rewrite Hm.
  - injection Hit as <-. simpl. split; [by rewrite Hm | constructor].
  - injection Hit as <-. simpl. split; [by rewrite Hm | constructor].
Qed.

(** X12: a first step for a path at which the file has no node, neither a
    table nor a group, raises NoSuchNodeError and ends the generator; the
    reader is as it was: the table is not registered, no column is mapped,
    no container is touched. *)
Theorem read_missing_table tn cref w :
  isopen (R._h5file (R.self w)) = true →
  nodes (R._h5file (R.self w)) !! tn = None →
  tn ∉ groups (R._h5file (R.self w)) →
  R._tables (R.self w) !! tn = None →
  R.next (R.read tn cref) w =
    (R.Throw (NoSuchNodeError tn), R.with_frame R.Finished (R.read tn cref), w) ∧
  ∀ fuel, R.iterate (S fuel) (R.read tn cref) w =
    Some {| R.yielded := []; R.error := Some (NoSuchNodeError tn); R.final := w |}.
Proof.
  intros Hopen Hnode _ Hnew.
  assert (R.next (R.read tn cref) w =
          (R.Throw (NoSuchNodeError tn), R.with_frame R.Finished (R.read tn cref), w)) as Hnext.
  { unfold R.next. simpl. unfold R.read_prologue, M_bind, gets. simpl. rewrite Hnew.
    unfold R._setup_table, M_bind, get_node. by rewrite Hopen, Hnode. }
  split; [done |]. intros fuel. simpl. by rewrite Hnext.
Qed.

End reader_extras.

Section reader_units.
Context `{AstropyUnits}.

(** X14: the first step of the first [read] of a table registers, for
    every attribute [<col>_UNIT] of the table, the transform that attaches
    the unit named by the attribute to the values of the column [<col>],
    in place of a transform that the user registered for the column
    before; the transform of a column without such an attribute stays. *)
Theorem header_units_override tn cref w T c r g1 w1 col :
  R._tables (R.self w) !! tn = None →
  get_node tn (R._h5file (R.self w)) = Ok T →
  R.heap w !! cref = Some c →
  R.next (R.read tn cref) w = (r, g1, w1) →
  (R._transforms (R.self w1) !!! tn) !! col =
  match attrs T !! (col +:+ "_UNIT") with
  | Some unitname => Some (λ value, tr_add_unit value unitname)
  | None => (R._transforms (R.self w) !!! tn) !! col
  end.
Proof.
  intros Hnew HT Hc Hnext.
  destruct (setup_table_ok tn cref w T c HT Hc)
    as (ws & Hsetup & _ & _ & _ & _ & Htr & _).
  unfold R.next in Hnext. simpl in Hnext.
  unfold R.read_prologue, M_bind, gets in Hnext. simpl in Hnext.
  rewrite Hnew, Hsetup in Hnext.
  apply read_loop_untouched in Hnext as ([Hs1 _] & _).
  rewrite Hs1. apply Htr.
Qed.

End reader_units.

Section unmapped_fields.
Context `{AstropyUnits}.

Lemma fill_container_keeps g row w r w' name :
  name ∉ R._cols_to_read (R.self w) !!! R.table_name g →
  R.fill_container g row w = (r, w') → field_kept name w w'.
Proof.
  intros Hname. unfold R.fill_container, M_bind at 1, gets.
  apply (for_frame (field_kept name)).
  - by intros s l.
  - intros s1 s2 s3 H12 H23 l. by rewrite H23, H12.
  - intros col s r1 s1 Hcol. unfold M_bind at 1, lift.
    destruct (row !! col) as [cell|]; [| by intros [= _ <-] l].
    unfold M_bind. rewrite reader_apply_col_transform_eq.
    destruct (match _ !! col with Some tr => tr cell | None => Ok cell end) as [value|];
      [| by intros [= _ <-] l].
    unfold R.Container_setitem.
    destruct (setitem (R.heap s !!! R.container g) col value) as [c'|e] eqn:Hset;
      [| by intros [= _ <-] l].
    intros [= _ <-] l. simpl.
    destruct (decide (l = R.container g)) as [->|Hne].
    + rewrite lookup_total_insert_eq. apply (getitem_setitem_ne _ _ _ _ _ Hset). by intros ->.
    + by rewrite lookup_total_insert_ne.
Qed.

Lemma read_loop_keeps g tab n w r g' w' name :
  name ∉ R._cols_to_read (R.self w) !!! R.table_name g →
  R.read_loop g tab n w = (r, g', w') → field_kept name w w'.
Proof.
  intros Hname. unfold R.read_loop, R.read_row.
  destruct (get_node tab (R._h5file (R.self w))) as [T|]; [| by intros [= _ _ <-] l].
  destruct (Table_getitem T n) as [row|[]]; try (by intros [= _ _ <-] l).
  destruct (R.fill_container g row w) as [[[]|e] w1] eqn:Hfill;
    intros [= _ _ <-]; by eapply fill_container_keeps.
Qed.

Lemma iterate_keeps fuel g w it name :
  R.gi_frame g ≠ R.NotStarted ∨ is_Some (R._tables (R.self w) !! R.table_name g) →
  name ∉ R._cols_to_read (R.self w) !!! R.table_name g →
  R.iterate fuel g w = Some it →
  field_kept name w (R.final it) ∧
  Forall (λ y, getitem y.2 name = getitem (R.heap w !!! y.1) name) (R.yielded it).
Proof.
  revert g w it. induction fuel as [|fuel IH]; intros g w it Hknown Hname; [done |].
  simpl. destruct (R.next g w) as [[r g'] w'] eqn:Hnext.
  destruct (next_untouched _ _ _ _ _ Hknown Hnext) as ([Hself _] & Htn & _ & Hfr).
  assert (field_kept name w w') as Hkept.
  { unfold R.next in Hnext. destruct (R.gi_frame g) as [|tab n|] eqn:Hframe.
    - destruct Hknown as [? | [tab Htab]]; [done |].
      unfold R.read_prologue, M_bind, gets in Hnext. rewrite Htab in Hnext.
      unfold M_ret in Hnext. by eapply read_loop_keeps.
    - by eapply read_loop_keeps.
    - injection Hnext as _ _ <-. by intros l. }
  destruct r as [c| |e].
  - destruct (R.iterate fuel g' w') as [it'|] eqn:Hit; [| done]. intros [= <-]. simpl.
    destruct (IH _ _ _ (or_introl Hfr) ltac:(by rewrite Hself, Htn) Hit) as [Hk' Hall].
    split; [intros l; by rewrite Hk', Hkept |].
    constructor; [apply Hkept |].
    eapply Forall_impl; [exact Hall |]. intros y ->. apply Hkept.
  - intros [= <-]. by split.
  - intros [= <-]. by split.
Qed.

(** X13: in the first [read] of a table by a reader that has no column
    mapped for it, a field of the container that is no column of the table
    keeps the value it had: in every container the run yields and after
    the run, however the run ends. *)
Theorem read_keeps_unmapped_fields tn cref w T c fuel it name :
  R._tables (R.self w) !! tn = None →
  R._cols_to_read (R.self w) !!! tn = [] →
  get_node tn (R._h5file (R.self w)) = Ok T →
  R.heap w !! cref = Some c →
  R.iterate fuel (R.read tn cref) w = Some it →
  name ∉ colnames T →
  getitem (R.heap (R.final it) !!! cref) name = getitem c name ∧
  Forall (λ y, y.1 = cref ∧ getitem y.2 name = getitem c name) (R.yielded it).
Proof.
  intros Hnew Hcols0 HT Hc Hit Hname. destruct fuel as [|fuel]; [done |].
  destruct (setup_table_ok tn cref w T c HT Hc)
    as (ws & Hsetup & Htables & _ & _ & Hcols & _ & Hheap).
  assert (getitem (R.heap ws !!! cref) name = getitem c name) as Hgs.
  { by rewrite Hheap, lookup_total_insert_eq. }
  assert (name ∉ R._cols_to_read (R.self ws) !!! tn) as Hnot.
  { rewrite Hcols, Hcols0. simpl. by intros [_ ?]%list_elem_of_filter. }
  simpl in Hit. unfold R.next in Hit. simpl in Hit.
  unfold R.read_prologue, M_bind, gets in Hit. simpl in Hit.
  rewrite Hnew, Hsetup in Hit.
  destruct (R.read_loop (R.read tn cref) tn 0 ws) as [[r g'] w'] eqn:Hloop.
  pose proof (read_loop_keeps (R.read tn cref) _ _ _ _ _ _ name Hnot Hloop) as Hk.
  destruct (read_loop_untouched _ _ _ _ _ _ _ Hloop) as ([Hself _] & Htn & Hcont & Hfr).
  destruct r as [y| |e].
  - destruct (R.iterate fuel g' w') as [it'|] eqn:Hit'; [| done].
    injection Hit as <-. simpl.
    destruct (iterate_keeps _ _ _ _ name (or_introl Hfr) ltac:(by rewrite Hself, Htn) Hit')
      as [Hk' Hall].
    destruct (iterate_untouched _ _ _ _ (or_introl Hfr) Hit') as [_ Hrefs].
    rewrite Hcont in Hrefs. simpl in Hrefs.
    assert (y = cref) as ->.
    { unfold R.read_loop in Hloop. destruct (R.read_row _ _ _) as [[[row|]|] ?]; try congruence.
      destruct (R.fill_container _ _ _) as [[[]|] ?]; simpl in *; congruence. }
    split; [by rewrite Hk', Hk |]. constructor.
    + simpl. split; [done |]. by rewrite Hk.
    + rewrite Forall_forall in Hall, Hrefs. apply Forall_forall. intros z Hz.
      destruct (Hrefs z Hz) as [Hz1 _]. split; [done |].
      rewrite (Hall z Hz), Hz1. by rewrite Hk.
  - injection Hit as <-. simpl. split; [by rewrite Hk | constructor].
  - injection Hit as <-. simpl. split; [by rewrite Hk | constructor].
Qed.

End unmapped_fields.

Lemma run_raises {S A} (run : M S A) (s : S) (e : exn) :
  (run s).1 = Raise e → run s = (Raise e, Examples.after run s).
Proof. unfold Examples.after. destruct (run s) as [r s']. simpl. by intros ->. Qed.

(** * Worked examples *)

Section worked_examples.
Import Example Examples.

(** The cells of the example engine are numbers. *)
Lemma numpy_cast_number col value cell :
  numpy_cast col value = Ok cell → is_number cell = true.
Proof.
  unfold numpy_cast, cast_scalar, cast_array.
  destruct col as [t [|n shape]]; destruct value as [[ty x|dt sh d]|b| | | |]; simpl;
    try done; try case_decide; try done; destruct t; by intros [= <-].
Qed.

Lemma all_true {A} (f : A → bool) (l : list A) :
  forallb f l = true → Forall (λ a, f a = true) l.
Proof.
  intros Hall. apply Forall_forall. intros a Ha.
  rewrite forallb_forall in Hall. apply Hall. by apply list_elem_of_In.
Qed.

Lemma schema_derived_once_example :
  let calls1 := [("events", W.One record)] in
  let calls2 := [("events", W.One record); ("other", W.One record); ("events", W.One record)] in
  ∃ w1,
    write_all version calls1 writer = (Ok tt, w1) ∧
    write_all version calls2 w1 = (Ok tt, after (write_all version (calls1 ++ calls2)) writer) ∧
    init_count "events" (W.log w1) = 1%nat ∧
    init_count "events" (W.log (after (write_all version (calls1 ++ calls2)) writer)) = 1%nat ∧
    W.write version "events" (W.One other) w1 = W._append_row "events" [other] w1.
Proof.
  destruct (schema_derived_once (H:=si_units) (H0:=small_re) (H1:=numpy_engine)
              version "events.h5" "grp"
              [("events", W.One record)]
              [("events", W.One record); ("other", W.One record); ("events", W.One record)]
              writer
              (after (write_all version
                 ([("events", W.One record)] ++
                  [("events", W.One record); ("other", W.One record); ("events", W.One record)]))
                 writer)
              "events")
    as (w1 & Hw1 & Hw2 & Hn1 & Hn2 & Hknown).
  - reflexivity.
  - refine (run_returns (write_all version _) writer tt _). vm_compute. reflexivity.
  - destruct Hknown as (_ & _ & _ & _ & Hwrite & _); [apply list_elem_of_here |].
    exists w1. exact (conj Hw1 (conj Hw2 (conj Hn1 (conj Hn2 (Hwrite (W.One other)))))).
Defined.

Lemma schema_derived_again_after_failed_write :
  let w1 := after (W.write version "counts" (W.One record_uint16_array)) writer in
  let w2 := after (W.write version "counts" (W.One record_uint16_scalar)) w1 in
  (W.write version "counts" (W.One record_uint16_array) writer).1 = Raise (KeyError "uint16") ∧
  W._schemas w1 !! "counts" = None ∧
  init_count "counts" (W.log w1) = 1%nat ∧
  (W.write version "counts" (W.One record_uint16_scalar) w1).1 = Ok tt ∧
  init_count "counts" (W.log w2) = 2%nat.
Proof. vm_compute. repeat split. Qed.

Lemma quantity_schema_example :
  ∃ cols,
    W._schemas (after (W._create_hdf5_table_schema version "events" [record]) writer)
      !! "events" = Some cols ∧
    (W._transforms (after (W._create_hdf5_table_schema version "events" [record]) writer)
       !!! "events") !! "x" = Some (λ x, tr_convert_and_strip_unit x m) ∧
    returned (W._create_hdf5_table_schema version "events" [record]) writer ∅
      !! "x_UNIT" = Some (PyStr "m") ∧
    cols !! "x" = Some {| col_type := Float64Col; col_shape := [] |}.
Proof.
  destruct (quantity_schema (H:=si_units) (H0:=small_re)
              version "events" record writer
              (returned (W._create_hdf5_table_schema version "events" [record]) writer ∅)
              (after (W._create_hdf5_table_schema version "events" [record]) writer)
              "x" (@Build_Field si_units (Some m)) (Scalar "float64" 250) cm)
    as (cols & Hcols & Htr & Hattr & k & Hk & _ & Hcol).
  - refine (run_returned (W._create_hdf5_table_schema version "events" [record]) writer ∅ _).
    vm_compute. reflexivity.
  - exact (bool_decide_unpack (NoDup (keys record)) I).
  - unfold record. simpl. apply list_elem_of_here.
  - vm_compute. reflexivity.
  - exists cols. split; [done |]. split; [done |]. split; [done |].
    rewrite Hcol. injection Hk as <-. reflexivity.
Defined.

Lemma unmatched_field_without_column :
  let w1 := after (W.exclude "events" "raw_.*") writer in
  let w2 := after (W.write version "events" (W.One record)) w1 in
  (W.exclude "events" "raw_.*" writer).1 = Ok tt ∧
  (W.write version "events" (W.One record) w1).1 = Ok tt ∧
  assoc "name" (slots record) = Some ({| Field_unit := None |}, PyStr "abc") ∧
  excluded w1 "events" "name" = false ∧
  (λ sch : Schema, (sch !! "name", sch !! "raw_a", sch !! "y")) <$> W._schemas w2 !! "events" =
    Some (None, None, Some {| col_type := IntCol; col_shape := [] |}).
Proof. vm_compute. repeat split. Qed.

Lemma exclusion_example :
  let w1 := after (W.exclude "events" "raw_.*") writer in
  let w2 := after (write_all version [("events", W.One record); ("events", W.One record)]) w1 in
  ∃ sch tab,
    W._schemas w2 !! "events" = Some sch ∧ table_at w2 "events" = Some tab ∧
    length (rows tab) = 2%nat ∧
    sch !! "raw_a" = None ∧ Forall (λ row, row !! "raw_a" = None) (rows tab) ∧
    is_Some (sch !! "y") ∧
    (∀ name, is_Some (sch !! name) →
       ∃ v field, (name, v) ∈ items record ∧ fields_get record name = Ok field ∧
                  excluded w1 "events" name = false ∧ storable field v).
Proof.
  intros w1 w2.
  destruct (exclusion (H:=si_units) (H0:=small_re) (H1:=numpy_engine)
              version "events" "raw_.*" (W.One record)
              [("events", W.One record)] writer w1 w2)
    as (p & sch & tab & Hp & Hsch & Htab & _ & Hlen & Habsent & Hpresent & Honly).
  - apply (init_consistent "events.h5" "grp"). reflexivity.
  - reflexivity.
  - refine (run_returns (W.exclude "events" "raw_.*") writer tt _). vm_compute. reflexivity.
  - refine (run_returns (write_all version _) w1 tt _). vm_compute. reflexivity.
  - exists sch, tab. split; [done |]. split; [done |]. split; [exact Hlen |].
    injection Hp as <-.
    destruct (Habsent "raw_a") as [Hnone Hrows]; [vm_compute; reflexivity |].
    split; [done |]. split; [done |]. split.
    + apply (Hpresent record "y" (Num (Scalar "int" 7)) (@Build_Field si_units None)).
      * apply list_elem_of_here.
      * unfold record, items. simpl. do 2 apply list_elem_of_further. apply list_elem_of_here.
      * reflexivity.
      * vm_compute. reflexivity.
      * exists (Num (Scalar "int" 7)). split; [reflexivity |]. vm_compute. by eexists.
    + intros name Hsome.
      destruct (Honly name Hsome) as (c & v & field & Hc & Hitem & Hfield & Hex & Hst).
      change (arg_list (W.One record)) with [record] in Hc.
      apply list_elem_of_singleton in Hc. subst c.
      exists v, field. exact (conj Hitem (conj Hfield (conj Hex Hst))).
Defined.

Lemma array_outside_type_map_example :
  (∃ e w', W.write version "counts" (W.One record_uint16_array) writer = (Raise e, w') ∧
           W._h5file w' = W._h5file writer ∧ W._schemas w' !! "counts" = None) ∧
  (W.write version "counts" (W.One record_uint16_array) writer).1 = Raise (KeyError "uint16") ∧
  (W.write version "counts" (W.One record_uint16_scalar) writer).1 = Ok tt ∧
  (λ sch : Schema, (sch !! "a", sch !! "y")) <$>
    W._schemas (after (W.write version "counts" (W.One record_uint16_scalar)) writer) !! "counts" =
    Some (None, Some {| col_type := IntCol; col_shape := [] |}).
Proof.
  split.
  - apply (array_outside_type_map_raises (H:=si_units) (H0:=small_re) (H1:=numpy_engine)
             version "counts"
             record_uint16_array writer "a" "uint16" [2%nat] [1%Q; 2%Q]).
    + reflexivity.
    + apply list_elem_of_here.
    + reflexivity.
    + reflexivity.
  - vm_compute. repeat split.
Defined.

Lemma read_yields_rows_example :
  ∃ it,
    R.iterate 3 (R.read "/grp/events" 0%nat) reader_world = Some it ∧
    R.error it = None ∧ length (R.yielded it) = 2%nat.
Proof.
  destruct (read_yields_rows (H:=si_units) "/grp/events" 0%nat reader_world "/grp/events"
              (after (R.read_prologue (R.read "/grp/events" 0%nat)) reader_world)
              (table_in "/grp/events" stored)
              (R.heap (after (R.read_prologue (R.read "/grp/events" 0%nat)) reader_world)
                 !!! 0%nat)
              3)
    as (it & Hit & Herr & Hlen & _).
  - refine (run_returns (R.read_prologue (R.read "/grp/events" 0%nat)) reader_world
              "/grp/events" _).
    vm_compute. reflexivity.
  - refine (get_node_table_in "/grp/events" _ _ _); vm_compute; reflexivity.
  - refine (lookup_lookup_total _ 0%nat (is_Some_check _ _)). vm_compute. reflexivity.
  - apply all_succeed. vm_compute. reflexivity.
  - apply all_true. vm_compute. reflexivity.
  - vm_compute. lia.
  - exists it. split; [done |]. split; [done |]. rewrite Hlen. vm_compute. reflexivity.
Defined.

Lemma read_into_container_without_mapped_field :
  let step := R.next (R.read "/grp/events" 0%nat) reader_world in
  length (rows (table_in "/grp/events" stored)) = 2%nat ∧
  R._cols_to_read (R.self step.2) !! "/grp/events" =
    Some ["arr"; "d"; "flag"; "raw_a"; "t"; "x"; "y"] ∧
  keys other = ["y"] ∧
  (λ it, (R.error it, length (R.yielded it))) <$>
    R.iterate 3 (R.read "/grp/events" 1%nat) step.2 =
  Some (Some (AttributeError "arr"), 0%nat).
Proof. vm_compute. repeat split. Qed.


Lemma timestamp_read_as_number_example :
  let w1 := after (W.write version "events" (W.One record)) writer in
  let w2 := after W.close w1 in
  ∃ it target',
    R.iterate 3 (R.read "/grp/events" 0%nat)
      {| R.self := R.__init__ (W._h5file w2); R.heap := {[ 0%nat := blank ]} |} = Some it ∧
    R.yielded it = [(0%nat, target')] ∧
    getitem target' "t" = Ok (Num (Scalar "float64" 58000)).
Proof.
  intros w1 w2.
  destruct (timestamp_read_as_number (H:=si_units) (H0:=small_re) (H1:=numpy_engine)
              version "events.h5" "grp" "events" record writer w1 w2 0%nat blank
              {[ 0%nat := blank ]} 3 "t" (@Build_Field si_units None) 58000)
    as (tab & row & cell & it & target' & _ & _ & _ & _ & Hcell & _ & _ & Hit & _ & Hy & _ & Hget).
  - reflexivity.
  - refine (run_returns (W.write version "events" (W.One record)) writer tt _).
    vm_compute. reflexivity.
  - reflexivity.
  - exact (bool_decide_unpack (NoDup (keys record)) I).
  - intros k _. apply lookup_empty.
  - by intros [].
  - exact numpy_cast_number.
  - vm_compute. reflexivity.
  - vm_compute. reflexivity.
  - lia.
  - unfold record. simpl. do 5 apply list_elem_of_further. apply list_elem_of_here.
  - change (join_path (join_path "/" "grp") "events") with "/grp/events" in Hit.
    vm_compute in Hcell. injection Hcell as <-.
    exists it, target'. exact (conj Hit (conj Hy Hget)).
Defined.

Lemma timestamp_read_back_as_quantity :
  let w1 := after (W.write version "stamps" (W.One record_stamped)) writer in
  let w2 := after W.close w1 in
  (W.write version "stamps" (W.One record_stamped) writer).1 = Ok tt ∧
  (λ tab, (λ row : gmap string pyval, row !! "t") <$> rows tab) <$>
    nodes (W._h5file w2) !! "/grp/stamps" =
  Some [Some (Num (Scalar "float64" 58000))] ∧
  (λ it, (R.error it, (λ y, getitem y.2 "t") <$> R.yielded it)) <$>
    R.iterate 3 (R.read "/grp/stamps" 0%nat)
      {| R.self := R.__init__ (W._h5file w2); R.heap := {[ 0%nat := record_stamped ]} |} =
  Some (None, [Ok (Quantity (Scalar "float64" 58000) m)]).
Proof. vm_compute. repeat split. Qed.



(** An integer beyond the width of its column comes back wrapped around. *)
Lemma wide_integer_read_back :
  let w1 := after (W.write version "wide" (W.One record_wide)) writer in
  let w2 := after W.close w1 in
  getitem record_wide "n" = Ok (Num (Scalar "int" 1099511627781)) ∧
  (λ it, (R.error it, (λ y, getitem y.2 "n") <$> R.yielded it)) <$>
    R.iterate 3 (R.read "/grp/wide" 0%nat)
      {| R.self := R.__init__ (W._h5file w2); R.heap := {[ 0%nat := record_wide ]} |} =
  Some (None, [Ok (Num (Scalar "int32" 5))]).
Proof. vm_compute. repeat split. Qed.



Lemma read_not_advanced_sets_nothing_up :
  let g1 := R.read "/grp/events" 0%nat in
  let g2 := R.read "/grp/events" 1%nat in
  R.gi_frame g1 = R.NotStarted ∧
  R._tables (R.self reader_world) !! "/grp/events" = None ∧
  meta other !! "CTAPIPE_VERSION" = None ∧
  (λ it, (R.error it,
          R._cols_to_read (R.self (R.final it)) !! "/grp/events",
          meta (R.heap (R.final it) !!! 1%nat) !! "CTAPIPE_VERSION",
          meta (R.heap (R.final it) !!! 0%nat) !! "CTAPIPE_VERSION")) <$>
    R.iterate 3 g2 reader_world =
  Some (None, Some ["y"], Some (PyStr "0.5.3"), None).
Proof. vm_compute. repeat split. Qed.

Lemma later_read_reuses_mapping_example :
  let step := R.next (R.read "/grp/events" 0%nat) reader_world in
  ∃ it,
    R.iterate 3 (R.read "/grp/events" 1%nat) step.2 = Some it ∧
    R.self (R.final it) = R.self step.2 ∧
    (∀ l, meta (R.heap (R.final it) !!! l) = meta (R.heap step.2 !!! l)) ∧
    Forall (λ y, y.1 = 1%nat) (R.yielded it).
Proof.
  intros step.
  assert (is_Some (R.iterate 3 (R.read "/grp/events" 1%nat) step.2)) as [it Hit]
    by (refine (is_Some_check _ _); vm_compute; reflexivity).
  destruct (later_read_reuses_mapping (H:=si_units) "/grp/events" 0%nat 1%nat reader_world
              (table_in "/grp/events" stored) blank step.1.1 step.1.2 step.2 step.2 3 it)
    as (_ & Hself & Hmeta & Hall).
  - vm_compute. reflexivity.
  - refine (get_node_table_in "/grp/events" _ _ _); vm_compute; reflexivity.
  - vm_compute. reflexivity.
  - subst step. by destruct (R.next _ _) as [[? ?] ?].
  - reflexivity.
  - exact Hit.
  - exists it. exact (conj Hit (conj Hself (conj Hmeta Hall))).
Defined.

End worked_examples.

Section more_worked_examples.
Import Example Examples MoreExamples.

Lemma tr_list_to_mask_example :
  ∃ mask, tr_list_to_mask [0; -1; 2]%Z 4 = Ok mask ∧ mask = [true; false; true; true].
Proof.
  destruct (tr_list_to_mask_spec [0; -1; 2]%Z 4) as (mask & Hm & _ & _).
  - repeat constructor; lia.
  - exists mask. split; [done |]. vm_compute in Hm. by injection Hm as <-.
Defined.

Lemma tr_list_to_mask_out_of_bounds_example :
  tr_list_to_mask [0; 4]%Z 4 = Raise IndexError.
Proof.
  apply (tr_list_to_mask_out_of_bounds [0; 4]%Z 4 4%Z).
  - apply list_elem_of_further, list_elem_of_here.
  - lia.
Defined.

Lemma wrote_once_consistent : consistent wrote_once.
Proof.
  refine (proj1 (write_ok (H:=si_units) (H0:=small_re) (H1:=numpy_engine)
              version "events" (W.One record)
                   writer wrote_once _ _)).
  - refine (run_returns (W.write version "events" (W.One record)) writer tt _).
    vm_compute. reflexivity.
  - apply (init_consistent "events.h5" "grp"). reflexivity.
Qed.

Lemma strip_then_add_unit_example :
  tr_add_unit (Num (Scalar "float64" (5 # 2))) (PyStr "m") =
  Quantity_to (Quantity (Scalar "float64" 250) cm) m.
Proof.
  exact (strip_then_add_unit (H:=si_units) (@Quantity si_units (Scalar "float64" 250) cm) m
           eq_refl).
Defined.

Lemma exclusions_accumulate_example :
  ∃ ps, Forall2 (λ pattern p, re_compile pattern = Some p) ["raw_.*"; "tmp"] ps ∧
    W._is_column_excluded "events" "tmp_x"
      (after (for_ ["raw_.*"; "tmp"] (W.exclude "events")) writer) =
    (Ok (existsb (λ p, re_match p "tmp_x") ps),
     after (for_ ["raw_.*"; "tmp"] (W.exclude "events")) writer).
Proof.
  destruct (exclusions_accumulate (H:=si_units) (H0:=small_re) "events" ["raw_.*"; "tmp"]
              writer (after (for_ ["raw_.*"; "tmp"] (W.exclude "events")) writer))
    as (ps & Hps & Hall).
  - refine (run_returns (for_ ["raw_.*"; "tmp"] (W.exclude "events")) writer tt _).
    vm_compute. reflexivity.
  - exists ps. split; [done |]. exact (Hall "events" "tmp_x").
Defined.

Lemma exclusion_after_first_write_example :
  let w1 := after (W.exclude "events" "raw_.*") wrote_once in
  let w2 := after (W.write version "events" (W.One record)) w1 in
  ∃ tab (row : gmap string pyval),
    table_at wrote_once "events" = Some tab ∧
    table_at w2 "events" = Some (Table_append row tab) ∧
    dom row = dom (W._schemas wrote_once !!! "events").
Proof.
  intros w1 w2.
  destruct (exclusion_after_first_write (H:=si_units) (H0:=small_re) (H1:=numpy_engine)
              version "events"
              "raw_.*" (W.One record) wrote_once w1 w2 (W._schemas wrote_once !!! "events"))
    as (_ & tab & row & Htab & _ & Htab2 & Hdom).
  - exact wrote_once_consistent.
  - refine (lookup_lookup_total _ "events" (is_Some_check _ _)). vm_compute. reflexivity.
  - refine (run_returns (W.exclude "events" "raw_.*") wrote_once tt _).
    vm_compute. reflexivity.
  - refine (run_returns (W.write version "events" (W.One record)) w1 tt _).
    vm_compute. reflexivity.
  - exists tab, row. exact (conj Htab (conj Htab2 Hdom)).
Defined.

Lemma header_of_new_table_example :
  ∃ tab,
    table_at wrote_once "events" = Some tab ∧
    title tab = "Storage of SomeContainer" ∧
    attrs tab !! "CTAPIPE_VERSION" = Some (PyStr "0.5.3").
Proof.
  destruct (header_of_new_table (H:=si_units) (H0:=small_re) (H1:=numpy_engine)
              version "events" record
              writer wrote_once)
    as (tab & Htab & Htitle & _ & Hversion & _).
  - refine (run_returns (W.write version "events" (W.One record)) writer tt _).
    vm_compute. reflexivity.
  - reflexivity.
  - exact (bool_decide_unpack (NoDup (keys record)) I).
  - exists tab. split; [exact Htab |]. split; [exact Htitle |]. apply Hversion. reflexivity.
Defined.

Lemma failed_write_changes_nothing_example :
  W.write version "events" (W.One record_seconds) wrote_once =
  (Raise UnitConversionError, wrote_once).
Proof.
  rewrite <- (failed_write_changes_nothing (H:=si_units) (H0:=small_re) (H1:=numpy_engine)
              version "events"
                (W.One record_seconds) wrote_once UnitConversionError
                (after (W.write version "events" (W.One record_seconds)) wrote_once)) at 2.
  - refine (run_raises (W.write version "events" (W.One record_seconds)) wrote_once _ _).
    vm_compute. reflexivity.
  - refine (is_Some_check _ _). vm_compute. reflexivity.
  - refine (run_raises (W.write version "events" (W.One record_seconds)) wrote_once _ _).
    vm_compute. reflexivity.
Defined.

Lemma write_leaves_other_tables_example :
  let w' := after (W.write version "other" (W.One record)) wrote_once in
  W._schemas w' !! "events" = W._schemas wrote_once !! "events" ∧
  table_at w' "events" = table_at wrote_once "events".
Proof.
  intros w'.
  destruct (write_leaves_other_tables (H:=si_units) (H0:=small_re) (H1:=numpy_engine)
              version "other"
              (W.One record) wrote_once w' "events")
    as (Hs & _ & Ht & _).
  - exact wrote_once_consistent.
  - refine (run_returns (W.write version "other" (W.One record)) wrote_once tt _).
    vm_compute. reflexivity.
  - discriminate.
  - exact (conj Hs Ht).
Defined.

Lemma user_transform_and_schema_example :
  let w := after (W.add_column_transform "events" "y" double) writer in
  let w' := after (W.write version "events" (W.One record)) w in
  ∃ (cols : Schema) (row : gmap string pyval),
    W._schemas w' !! "events" = Some cols ∧
    cols !! "y" = Some {| col_type := IntCol; col_shape := [] |} ∧
    double (Num (Scalar "int" 7)) = Ok (Num (Scalar "int" 14)) ∧
    row !! "y" = Some (Num (Scalar "int32" 14)).
Proof.
  intros w w'.
  destruct (user_transform_and_schema (H:=si_units) (H0:=small_re) (H1:=numpy_engine)
              version "events" record
              w w' "y" (@Build_Field si_units None) (Num (Scalar "int" 7)) double)
    as (cols & row & tab & Hcols & _ & _ & _ & Hcol & Hcell).
  - refine (run_returns (W.write version "events" (W.One record)) w tt _).
    vm_compute. reflexivity.
  - reflexivity.
  - exact (bool_decide_unpack (NoDup (keys record)) I).
  - unfold record. simpl. do 2 apply list_elem_of_further. apply list_elem_of_here.
  - reflexivity.
  - vm_compute. reflexivity.
  - destruct (Hcell {| col_type := IntCol; col_shape := [] |} eq_refl)
      as (out & cell & Hout & Hcast & Hrow).
    vm_compute in Hout. injection Hout as <-. vm_compute in Hcast. injection Hcast as <-.
    exists cols, row. exact (conj Hcols (conj Hcol (conj eq_refl Hrow))).
Defined.

Lemma read_copies_header_example :
  ∃ it,
    R.iterate 3 (R.read "/grp/events" 0%nat) reader_world = Some it ∧
    meta (R.heap (R.final it) !!! 0%nat) =
      attrs (table_in "/grp/events" stored) ∪ meta blank.
Proof.
  assert (is_Some (R.iterate 3 (R.read "/grp/events" 0%nat) reader_world)) as [it Hit]
    by (refine (is_Some_check _ _); vm_compute; reflexivity).
  destruct (read_copies_header (H:=si_units) "/grp/events" 0%nat reader_world
              (table_in "/grp/events" stored) blank 3 it)
    as [Hmeta _].
  - vm_compute. reflexivity.
  - refine (get_node_table_in "/grp/events" _ _ _); vm_compute; reflexivity.
  - vm_compute. reflexivity.
  - exact Hit.
  - exists it. exact (conj Hit Hmeta).
Defined.

Lemma read_missing_table_example :
  R.iterate 1 (R.read "/grp/nothing" 0%nat) reader_world =
  Some {| R.yielded := []; R.error := Some (NoSuchNodeError "/grp/nothing");
          R.final := reader_world |}.
Proof.
  destruct (read_missing_table (H:=si_units) "/grp/nothing" 0%nat reader_world)
    as [_ Hit].
  - vm_compute. reflexivity.
  - vm_compute. reflexivity.
  - intros Hin. vm_compute in Hin. by repeat (apply elem_of_cons in Hin as [Hin|Hin]; [done |]);
      apply elem_of_nil in Hin.
  - vm_compute. reflexivity.
  - exact (Hit 0%nat).
Defined.

Lemma read_keeps_unmapped_fields_example :
  ∃ it,
    R.iterate 3 (R.read "/grp/events" 0%nat) reader_world = Some it ∧
    getitem (R.heap (R.final it) !!! 0%nat) "name" = Ok (PyStr "").
Proof.
  assert (is_Some (R.iterate 3 (R.read "/grp/events" 0%nat) reader_world)) as [it Hit]
    by (refine (is_Some_check _ _); vm_compute; reflexivity).
  destruct (read_keeps_unmapped_fields (H:=si_units) "/grp/events" 0%nat reader_world
              (table_in "/grp/events" stored) blank 3 it "name")
    as [Hget _].
  - vm_compute. reflexivity.
  - vm_compute. reflexivity.
  - refine (get_node_table_in "/grp/events" _ _ _); vm_compute; reflexivity.
  - vm_compute. reflexivity.
  - exact Hit.
  - intros Hin%elem_of_colnames. vm_compute in Hin. by destruct Hin.
  - exists it. exact (conj Hit Hget).
Defined.

Lemma header_units_override_example :
  let step := R.next (R.read "/grp/events" 0%nat) reader_world in
  (R._transforms (R.self step.2) !!! "/grp/events") !! "x" =
  Some (λ value, tr_add_unit value (PyStr "m")).
Proof.
  intros step.
  rewrite (header_units_override (H:=si_units) "/grp/events" 0%nat reader_world
             (table_in "/grp/events" stored) blank step.1.1 step.1.2 step.2 "x").
  - vm_compute. reflexivity.
  - vm_compute. reflexivity.
  - refine (get_node_table_in "/grp/events" _ _ _); vm_compute; reflexivity.
  - vm_compute. reflexivity.
  - subst step. by destruct (R.next _ _) as [[? ?] ?].
Defined.

End more_worked_examples.
